(** * QuillBoard front end: session store, route guard and API client.

    A shallow embedding of
      - [src/contexts/AuthContext.tsx]  (the session store),
      - [App.tsx]                       (the [ProtectedRoute] guard),
      - [src/lib/api.ts]                (the [ApiClient] class),
      - [pages/auth/Register.tsx], [pages/auth/Login.tsx],
        [pages/user/CreateArticle.tsx], [pages/admin/AdminArticles.tsx],
        [pages/admin/AdminPending.tsx] and [components/Layout/Navbar.tsx]
        (the event handlers that use them),
    together with the properties of these functions.

    JavaScript strings are modelled by [string] (their UTF-8 bytes),
    [localStorage] and header objects by [gmap string string], React state
    cells by fields of a record, and every observable effect (state setter
    calls, storage writes, network requests, toasts, navigation) is appended
    to a log, so that statements about "how many" and "in which order" are
    statements about a list. *)

From Stdlib Require Import ZArith List Ascii Bool Lia.
From Stdlib Require String.
From stdpp Require Import base option list strings gmap fin_maps pretty.

Set Warnings "-register-all".

Open Scope Z_scope.

(** ** JavaScript values *)

Module JS.

(** Values that [JSON.parse] can return, plus [undefined] (the result of
    reading a property that is not there).  Numbers are the integers below
    10^21 in absolute value, which [ToString] and [JSON.stringify] print as
    their decimal digits; the code modelled here never computes with a
    number, it only tests, prints and passes them on. *)
Inductive JSValue :=
| VUndefined
| VNull
| VBool (b : bool)
| VNumber (n : Z)
| VString (s : string)
| VArray (items : list JSValue)
| VObject (fields : list (string * JSValue)).

(** An [Error] object: the constructor name and the [message] property. *)
Record JsError := mkJsError { err_name : string; err_message : string }.

Definition Error (message : string) : JsError := mkJsError "Error" message.
Definition TypeError (message : string) : JsError := mkJsError "TypeError" message.
Definition SyntaxError (message : string) : JsError := mkJsError "SyntaxError" message.

(** [ToBoolean] on strings: only the empty string is falsy. *)
Definition truthy_string (s : string) : bool :=
  match s with
  | EmptyString => false
  | String _ _ => true
  end.

(** [!x] for [x : T | null] where [T] is an object type: objects are
    truthy, [null] is not. *)
Definition is_null {T} (x : option T) : bool :=
  match x with
  | None => true
  | Some _ => false
  end.

(** [ToBoolean] on arbitrary values. *)
Definition truthy (v : JSValue) : bool :=
  match v with
  | VUndefined | VNull => false
  | VBool b => b
  | VNumber n => negb (n =? 0)
  | VString s => truthy_string s
  | VArray _ | VObject _ => true
  end.

(** [a || b] *)
Definition or_else (a b : JSValue) : JSValue := if truthy a then a else b.

(** [s || d] for a string [s] *)
Definition string_or_else (s d : string) : string := if truthy_string s then s else d.

(** [ToString].  Array elements that are [null] or [undefined] print as the
    empty string ([Array.prototype.join]). *)
Fixpoint ToString (v : JSValue) : string :=
  match v with
  | VUndefined => "undefined"
  | VNull => "null"
  | VBool b => if b then "true" else "false"
  | VNumber n => pretty n
  | VString s => s
  | VArray items =>
      String.concat ","
        (map (fun x => match x with
                       | VUndefined | VNull => ""
                       | _ => ToString x
                       end) items)
  | VObject _ => "[object Object]"
  end.

(** Last binding of [k] in a property list. *)
Fixpoint lookup_field (k : string) (fields : list (string * JSValue)) : option JSValue :=
  match fields with
  | [] => None
  | (k', v) :: rest =>
      match lookup_field k rest with
      | Some w => Some w
      | None => if String.eqb k k' then Some v else None
      end
  end.

(** [v.k]: [inl] is the [TypeError] raised when [v] is [null] or
    [undefined]; a missing property reads as [undefined]. *)
Definition get_prop (v : JSValue) (k : string) : JsError + JSValue :=
  match v with
  | VUndefined =>
      inl (TypeError ("Cannot read properties of undefined (reading '" +:+ k +:+ "')"))
  | VNull =>
      inl (TypeError ("Cannot read properties of null (reading '" +:+ k +:+ "')"))
  | VObject fields => inr (default VUndefined (lookup_field k fields))
  | VBool _ | VNumber _ | VString _ | VArray _ => inr VUndefined
  end.

End JS.
Export JS.

(** ** The user record ([interface User] of AuthContext.tsx) *)

Record User := mkUser { id : string; username : string; email : string }.

(** ** JSON text *)

Module JSON.

Definition dquote : ascii := "034"%char.
Definition backslash : ascii := "092"%char.

Definition hex_digit (n : N) : ascii :=
  if (n <? 10)%N then ascii_of_N (48 + n) else ascii_of_N (87 + n).

(** One code unit of [QuoteJSONString]: the two-character escapes, [\u00xx]
    for the other control characters, the character itself otherwise. *)
Definition escape_char (c : ascii) : string :=
  let n := N_of_ascii c in
  if (n =? 34)%N then String backslash (String dquote "")
  else if (n =? 92)%N then String backslash (String backslash "")
  else if (n =? 8)%N then String backslash "b"
  else if (n =? 9)%N then String backslash "t"
  else if (n =? 10)%N then String backslash "n"
  else if (n =? 12)%N then String backslash "f"
  else if (n =? 13)%N then String backslash "r"
  else if (n <? 32)%N then
    String backslash ("u00" +:+ String (hex_digit (n / 16)) (String (hex_digit (n mod 16)) ""))
  else String c "".

Fixpoint escape (s : string) : string :=
  match s with
  | EmptyString => ""
  | String c rest => escape_char c +:+ escape rest
  end.

Definition quote (s : string) : string :=
  String dquote (escape s +:+ String dquote "").

(** [JSON.stringify].  [None] is the result [undefined] (which is not a
    text): for [undefined] itself; inside an object an [undefined] property
    is left out, inside an array it prints as [null]. *)
Fixpoint stringify (v : JSValue) : option string :=
  match v with
  | VUndefined => None
  | VNull => Some "null"
  | VBool b => Some (if b then "true" else "false")
  | VNumber n => Some (pretty n)
  | VString s => Some (quote s)
  | VArray items =>
      Some ("[" +:+ String.concat "," (map (fun x => default "null" (stringify x)) items) +:+ "]")
  | VObject fields =>
      Some ("{" +:+ String.concat ","
              (omap (fun kv => (fun t => quote (fst kv) +:+ ":" +:+ t) <$> stringify (snd kv)) fields)
            +:+ "}")
  end.

(** A [User] as the object it is at run time. *)
Definition user_to_js (u : User) : JSValue :=
  VObject [("id", VString (id u)); ("username", VString (username u)); ("email", VString (email u))].

(** [JSON.stringify(newUser)] for a [User]: always a text. *)
Definition stringify_user (u : User) : string :=
  default "" (stringify (user_to_js u)).

(** *** A reader for the texts that [stringify_user] writes

    [JSON.parse] itself is a parameter of the session store below.  This
    reader is the instance at which the statements are evaluated: it accepts
    the text [null] and the object texts produced by [stringify_user], and
    reports a [SyntaxError] for everything else (which includes every text
    that is not JSON). *)

Definition hex_value (c : ascii) : option N :=
  let n := N_of_ascii c in
  if ((48 <=? n) && (n <=? 57))%N then Some (n - 48)%N
  else if ((97 <=? n) && (n <=? 102))%N then Some (n - 87)%N
  else if ((65 <=? n) && (n <=? 70))%N then Some (n - 55)%N
  else None.

Definition hex4 (a b c d : ascii) : option N :=
  match hex_value a, hex_value b, hex_value c, hex_value d with
  | Some x, Some y, Some z, Some w => Some (((x * 16 + y) * 16 + z) * 16 + w)%N
  | _, _, _, _ => None
  end.

Definition prepend (c : ascii) (r : option (string * string)) : option (string * string) :=
  match r with
  | Some (s, rest) => Some (String c s, rest)
  | None => None
  end.

(** Reads a string literal after its opening quote: the decoded string and
    the text after the closing quote. *)
Fixpoint read_string_body (s : string) : option (string * string) :=
  match s with
  | EmptyString => None
  | String c rest =>
      if Ascii.eqb c dquote then Some ("", rest)
      else if Ascii.eqb c backslash then
        match rest with
        | EmptyString => None
        | String e rest1 =>
            if Ascii.eqb e dquote then prepend dquote (read_string_body rest1)
            else if Ascii.eqb e backslash then prepend backslash (read_string_body rest1)
            else if Ascii.eqb e "/" then prepend "/" (read_string_body rest1)
            else if Ascii.eqb e "b" then prepend "008" (read_string_body rest1)
            else if Ascii.eqb e "t" then prepend "009" (read_string_body rest1)
            else if Ascii.eqb e "n" then prepend "010" (read_string_body rest1)
            else if Ascii.eqb e "f" then prepend "012" (read_string_body rest1)
            else if Ascii.eqb e "r" then prepend "013" (read_string_body rest1)
            else if Ascii.eqb e "u" then
              match rest1 with
              | String h1 (String h2 (String h3 (String h4 rest2))) =>
                  match hex4 h1 h2 h3 h4 with
                  | Some n =>
                      if (n <? 128)%N then prepend (ascii_of_N n) (read_string_body rest2)
                      else None
                  | None => None
                  end
              | _ => None
              end
            else None
        end
      else if (N_of_ascii c <? 32)%N then None
      else prepend c (read_string_body rest)
  end.

(** Strips the literal [p] from the front of [s]. *)
Fixpoint expect (p s : string) : option string :=
  match p, s with
  | EmptyString, _ => Some s
  | String a p', String b s' => if Ascii.eqb a b then expect p' s' else None
  | String _ _, EmptyString => None
  end.

Definition key_prefix (k : string) : string := quote k +:+ ":" +:+ String dquote "".

Definition read_user (text : string) : option User :=
  r0 ← expect ("{" +:+ key_prefix "id") text;
  '(i, r1) ← read_string_body r0;
  r2 ← expect ("," +:+ key_prefix "username") r1;
  '(n, r3) ← read_string_body r2;
  r4 ← expect ("," +:+ key_prefix "email") r3;
  '(e, r5) ← read_string_body r4;
  r6 ← expect "}" r5;
  if String.eqb r6 "" then Some (mkUser i n e) else None.

Definition parse_user (text : string) : JsError + option User :=
  if String.eqb text "null" then inr None
  else match read_user text with
       | Some u => inr (Some u)
       | None => inl (SyntaxError "Unexpected token in JSON")
       end.

End JSON.

(** ** HTTP as seen through [fetch] *)

Module Http.

(** The arguments of one [fetch(url, init)] call. *)
Record Request := mkRequest {
  url : string;
  method : option string;
  headers : gmap string string;
  body : option string
}.

(** A response body: a JSON text (given by the value it denotes) or
    something else ([detail] is the engine's description of where the text
    stops being JSON). *)
Inductive Body :=
| NotJson (detail : string)
| Json (v : JSValue).

Record Response := mkResponse {
  status : Z;
  payload : Body
}.

(** What [response.json()] settles to. *)
Definition json (r : Response) : JsError + JSValue :=
  match payload r with
  | NotJson detail => inl (SyntaxError detail)
  | Json v => inr v
  end.

(** [response.ok] *)
Definition ok (r : Response) : bool := (200 <=? status r) && (status r <=? 299).

Inductive FetchOutcome :=
| NetworkFailure (e : JsError)
| Responded (r : Response).

End Http.
Export Http.

(** ** Effects *)

Module Eff.

(** The four state cells of [AuthProvider]. *)
Record Session := mkSession {
  user : option User;
  isAdmin : bool;
  token : option string;
  isLoading : bool
}.

Record ToastMsg := mkToast {
  title : string;
  description : string;
  variant : option string
}.

Inductive Event :=
| SetToken (v : option string)
| SetUser (v : option User)
| SetIsAdmin (b : bool)
| SetIsLoading (b : bool)
| StorageSet (k v : string)
| StorageRemove (k : string)
| Fetch (r : Request)
| Settled (r : Request) (o : FetchOutcome)
| ConsoleError (label : string) (e : JsError)
| Toast (t : ToastMsg)
| Navigate (to : string)
| PreventDefault
| SetLocal (cell : string) (v : JSValue).

Record World := mkWorld {
  session : Session;
  storage : gmap string string;
  log : list Event
}.

(** How a computation ends.  [Unmodelled] marks an execution that this
    embedding does not follow (an untyped value flowing into a typed
    parameter); no handler catches it. *)
Inductive Outcome (A : Type) :=
| Return (a : A)
| Throw (e : JsError)
| Unmodelled.
Arguments Return {A} a.
Arguments Throw {A} e.
Arguments Unmodelled {A}.

(** A computation: runs in a world, returns or throws, leaves a world. *)
Definition M (A : Type) : Type := World -> Outcome A * World.

Definition ret {A} (a : A) : M A := fun w => (Return a, w).

Definition throw {A} (e : JsError) : M A := fun w => (Throw e, w).

Definition unmodelled {A} : M A := fun w => (Unmodelled, w).

Definition bind {A B} (m : M A) (k : A -> M B) : M B :=
  fun w =>
    match m w with
    | (Return a, w') => k a w'
    | (Throw e, w') => (Throw e, w')
    | (Unmodelled, w') => (Unmodelled, w')
    end.

(** [try { m } catch (e) { h e }] *)
Definition try_catch {A} (m : M A) (h : JsError -> M A) : M A :=
  fun w =>
    match m w with
    | (Return a, w') => (Return a, w')
    | (Throw e, w') => h e w'
    | (Unmodelled, w') => (Unmodelled, w')
    end.

(** [try { m } finally { f }] *)
Definition finally {A} (m : M A) (f : M unit) : M A :=
  fun w =>
    let (o, w') := m w in
    match o with
    | Unmodelled => (Unmodelled, w')
    | _ =>
        match f w' with
        | (Return _, w'') => (o, w'')
        | (Throw e, w'') => (Throw e, w'')
        | (Unmodelled, w'') => (Unmodelled, w'')
        end
    end.

(** A call of an [async] function whose promise is dropped: its effects
    happen, its outcome reaches nobody. *)
Definition not_awaited {A} (m : M A) : M unit :=
  fun w =>
    match m w with
    | (Unmodelled, w') => (Unmodelled, w')
    | (_, w') => (Return tt, w')
    end.

Definition lift_sum {A} (r : JsError + A) : M A :=
  match r with
  | inl e => throw e
  | inr a => ret a
  end.

Definition emit (ev : Event) : M unit :=
  fun w => (Return tt, mkWorld (session w) (storage w) (log w ++ [ev])%list).

Definition modify_session (f : Session -> Session) : M unit :=
  fun w => (Return tt, mkWorld (f (session w)) (storage w) (log w)).

Definition modify_storage (f : gmap string string -> gmap string string) : M unit :=
  fun w => (Return tt, mkWorld (session w) (f (storage w)) (log w)).

Definition outcome {A} (m : M A) (w : World) : Outcome A := fst (m w).
Definition after {A} (m : M A) (w : World) : World := snd (m w).

Declare Scope eff_scope.
Delimit Scope eff_scope with eff.
Notation "x <- c1 ;; c2" := (bind c1 (fun x => c2))
  (at level 100, c1 at next level, right associativity) : eff_scope.
Notation "c1 ;; c2" := (bind c1 (fun _ => c2))
  (at level 100, right associativity) : eff_scope.
Open Scope eff_scope.

(** *** [localStorage] *)

Definition getItem (k : string) : M (option string) :=
  fun w => (Return (storage w !! k), w).

Definition setItem (k v : string) : M unit :=
  modify_storage (insert k v) ;; emit (StorageSet k v).

Definition removeItem (k : string) : M unit :=
  modify_storage (delete k) ;; emit (StorageRemove k).

(** *** Other effects that only leave a trace *)

Definition console_error (label : string) (e : JsError) : M unit := emit (ConsoleError label e).
Definition toast (t : ToastMsg) : M unit := emit (Toast t).
Definition navigate (to : string) : M unit := emit (Navigate to).
Definition preventDefault : M unit := emit PreventDefault.
Definition setLocal (cell : string) (v : JSValue) : M unit := emit (SetLocal cell v).

End Eff.
Export Eff.

(** ** The session store (AuthContext.tsx) *)

Module AuthContext.

(** [useState] initial values of [AuthProvider]. *)
Definition initial_session : Session := mkSession None false None true.

Definition setToken (v : option string) : M unit :=
  modify_session (fun s => mkSession (user s) (isAdmin s) v (isLoading s)) ;;
  emit (SetToken v).

Definition setUser (v : option User) : M unit :=
  modify_session (fun s => mkSession v (isAdmin s) (token s) (isLoading s)) ;;
  emit (SetUser v).

Definition setIsAdmin (b : bool) : M unit :=
  modify_session (fun s => mkSession (user s) b (token s) (isLoading s)) ;;
  emit (SetIsAdmin b).

Definition setIsLoading (b : bool) : M unit :=
  modify_session (fun s => mkSession (user s) (isAdmin s) (token s) b) ;;
  emit (SetIsLoading b).

(** [storedIsAdmin === 'true'] *)
Definition is_true_text (o : option string) : bool :=
  match o with
  | Some s => String.eqb s "true"
  | None => false
  end.

Section WithJSONParse.

(** [JSON.parse] at the type the store reads its result, [User | null]:
    [inl] is the exception it throws, [inr None] the value [null].  Texts
    that denote a value of another shape are not distinguished from these. *)
Variable JSON_parse : string -> JsError + option User.

(** The mount effect of [AuthProvider] (lines 34-46). *)
Definition initialize : M unit :=
  storedToken <- getItem "token" ;;
  storedUser <- getItem "user" ;;
  storedIsAdmin <- getItem "isAdmin" ;;
  match storedToken, storedUser with
  | Some tk, Some us =>
      if truthy_string tk && truthy_string us then
        setToken (Some tk) ;;
        parsed <- lift_sum (JSON_parse us) ;;
        setUser parsed ;;
        setIsAdmin (is_true_text storedIsAdmin)
      else ret tt
  | _, _ => ret tt
  end ;;
  setIsLoading false.

(** Mounting the provider over a storage: fresh state cells, then the
    effect. *)
Definition mount (st : gmap string string) : Outcome unit * World :=
  initialize (mkWorld initial_session st []).

End WithJSONParse.

(** [login] (lines 48-56); [adminStatus] is the optional third argument. *)
Definition login (newToken : string) (newUser : User) (adminStatus : option bool) : M unit :=
  let adminStatus := default false adminStatus in
  setToken (Some newToken) ;;
  setUser (Some newUser) ;;
  setIsAdmin adminStatus ;;
  setItem "token" newToken ;;
  setItem "user" (JSON.stringify_user newUser) ;;
  setItem "isAdmin" (if adminStatus then "true" else "false").

(** [logout] (lines 58-66). *)
Definition logout : M unit :=
  setToken None ;;
  setUser None ;;
  setIsAdmin false ;;
  removeItem "token" ;;
  removeItem "user" ;;
  removeItem "isAdmin".

(** *** Runs of the store *)

(** The world after an effect that found nothing to restore: the cells are
    as they were, apart from [isLoading]. *)
Definition skipped (w : World) : Outcome unit * World :=
  (Return tt,
   mkWorld (mkSession (user (session w)) (isAdmin (session w)) (token (session w)) false)
     (storage w) (log w ++ [SetIsLoading false])).

(** The session of a mounted provider with nobody logged in. *)
Definition empty_session : Session := mkSession None false None false.

(** A storage in which the [user] key, if set, holds a text written by
    [login]. *)
Definition written_by_login (st : gmap string string) : Prop :=
  forall us, st !! "user" = Some us -> exists u, us = JSON.stringify_user u.

(** The state at first run: fresh state cells over an empty storage. *)
Definition first_run : World := mkWorld initial_session ∅ [].

(** What can happen to a mounted provider.  [Reload] is a page reload: the
    state cells start afresh over the storage as it is, and the effect
    runs. *)
Inductive Op :=
| Initialize
| Login (newToken : string) (newUser : User) (adminStatus : option bool)
| Logout
| Reload.

Definition exec (JSON_parse : string -> JsError + option User) (w : World) (op : Op) : World :=
  match op with
  | Initialize => after (initialize JSON_parse) w
  | Login t u a => after (login t u a) w
  | Logout => after logout w
  | Reload => snd (mount JSON_parse (storage w))
  end.

Definition run (JSON_parse : string -> JsError + option User) (ops : list Op) : World :=
  fold_left (exec JSON_parse) ops first_run.

(** The invariant of the data model: [token] and [user] are present
    together, and [isAdmin] is off when nobody is logged in. *)
Definition consistent (s : Session) : Prop :=
  (token s = None <-> user s = None) /\ (user s = None -> isAdmin s = false).

(** What every run maintains: a consistent session over a storage that
    only [login] has written. *)
Definition Inv (w : World) : Prop :=
  consistent (session w) /\ written_by_login (storage w).

(** Calls of [setIsLoading(false)] in a log. *)
Definition is_loading_done (ev : Event) : bool :=
  match ev with
  | SetIsLoading false => true
  | _ => false
  end.

(** The stored [user] text is one [JSON.parse] returns on, whenever the
    effect gets to parse it. *)
Definition readable (JSON_parse : string -> JsError + option User)
    (st : gmap string string) : bool :=
  match st !! "token", st !! "user" with
  | Some tk, Some us =>
      if truthy_string tk && truthy_string us
      then match JSON_parse us with inr _ => true | inl _ => false end
      else true
  | _, _ => true
  end.

(** Writes to [localStorage] in a log. *)
Definition is_storage_write (ev : Event) : bool :=
  match ev with
  | StorageSet _ _ | StorageRemove _ => true
  | _ => false
  end.

(** The session shows nothing that the storage does not hold. *)
Definition backed_by (st : gmap string string) (s : Session) : Prop :=
  (forall t, token s = Some t -> st !! "token" = Some t) /\
  (forall u, user s = Some u -> st !! "user" = Some (JSON.stringify_user u)) /\
  (isAdmin s = true -> st !! "isAdmin" = Some "true").

End AuthContext.

(** ** The route guard (App.tsx) *)

Module App.

(** What a guard renders: the spinner, a [<Navigate to replace />], or its
    children. *)
Inductive Element (View : Type) :=
| LoadingIndicator
| NavigateTo (to : string) (replace : bool)
| Children (children : View).
Arguments LoadingIndicator {View}.
Arguments NavigateTo {View} to replace.
Arguments Children {View} children.

(** [ProtectedRoute] (lines 42-62); [adminOnly] is the optional prop. *)
Definition ProtectedRoute {View} (children : View) (adminOnly : option bool)
    (auth : Session) : Element View :=
  let adminOnly := default false adminOnly in
  if isLoading auth then LoadingIndicator
  else if is_null (user auth) then NavigateTo "/login" true
  else if adminOnly && negb (isAdmin auth) then NavigateTo "/dashboard" true
  else Children children.

(** The pages of the application, and the children of the admin layout. *)
Inductive AdminPage :=
| AdminDashboardPage
| AdminArticlesPage
| AdminPendingPage
| AdminUsersPage
| AdminAnalyticsPage.

Inductive Page :=
| HomePage
| LoginPage
| RegisterPage
| ArticleDetailsPage (id : string)
| DashboardPage
| CreateArticlePage
| MyArticlesPage
| AdminLayoutPage (outlet : option AdminPage)
| NotFoundPage.

(** The [<Route>] elements of [AppRoutes] (lines 64-117), by what they
    match: [RAdmin None] is [/admin] itself, [RAdmin (Some p)] one of its
    children, [RNotFound] the [*] route. *)
Inductive Route :=
| RHome
| RLogin
| RRegister
| RArticle (id : string)
| RDashboard
| RCreateArticle
| RMyArticles
| RAdmin (child : option AdminPage)
| RNotFound.

(** The element of each route. *)
Definition AppRoutes (route : Route) (auth : Session) : Element Page :=
  match route with
  | RHome => Children HomePage
  | RLogin => Children LoginPage
  | RRegister => Children RegisterPage
  | RArticle id => Children (ArticleDetailsPage id)
  | RDashboard => ProtectedRoute DashboardPage None auth
  | RCreateArticle => ProtectedRoute CreateArticlePage None auth
  | RMyArticles => ProtectedRoute MyArticlesPage None auth
  | RAdmin child => ProtectedRoute (AdminLayoutPage child) (Some true) auth
  | RNotFound => Children NotFoundPage
  end.

(** The static path patterns of the table. *)
Definition static_routes : list (string * Route) :=
  [("/", RHome); ("/login", RLogin); ("/register", RRegister);
   ("/dashboard", RDashboard); ("/create-article", RCreateArticle);
   ("/my-articles", RMyArticles);
   ("/admin", RAdmin None);
   ("/admin/dashboard", RAdmin (Some AdminDashboardPage));
   ("/admin/articles", RAdmin (Some AdminArticlesPage));
   ("/admin/pending", RAdmin (Some AdminPendingPage));
   ("/admin/users", RAdmin (Some AdminUsersPage));
   ("/admin/analytics", RAdmin (Some AdminAnalyticsPage))].

(** The route of a location that is spelled exactly like a static pattern.
    Other locations (an article's, another spelling of a pattern, an
    unknown path) are not decided here: the router's matching rules are
    not modelled. *)
Fixpoint lookup_route (location : string) (table : list (string * Route)) : option Route :=
  match table with
  | [] => None
  | (pattern, route) :: rest =>
      if String.eqb pattern location then Some route else lookup_route location rest
  end.

Definition route_at (location : string) : option Route :=
  lookup_route location static_routes.

(** The routes behind a guard. *)
Definition guarded (route : Route) : bool :=
  match route with
  | RDashboard | RCreateArticle | RMyArticles | RAdmin _ => true
  | _ => false
  end.

End App.

(** ** The store and the guard at run time

    The type [User | null] of the [user] cell is erased at run time:
    [JSON.parse] returns whatever value the stored text denotes, [setUser]
    keeps it unchecked, and the guard tests it with [!user].  This is the
    mount effect and the guard over a cell that holds any value, by state
    passing, for what depends on a stored text that is not a user record. *)

Module Runtime.

(** The four state cells of [AuthProvider], [user] holding any value. *)
Record Cells := mkCells {
  user : JSValue;
  isAdmin : bool;
  token : option string;
  isLoading : bool
}.

(** [useState] initial values of [AuthProvider]. *)
Definition initial_cells : Cells := mkCells VNull false None true.

Definition setToken (v : option string) (c : Cells) : Cells :=
  mkCells (user c) (isAdmin c) v (isLoading c).

Definition setUser (v : JSValue) (c : Cells) : Cells :=
  mkCells v (isAdmin c) (token c) (isLoading c).

Definition setIsAdmin (b : bool) (c : Cells) : Cells :=
  mkCells (user c) b (token c) (isLoading c).

Definition setIsLoading (b : bool) (c : Cells) : Cells :=
  mkCells (user c) (isAdmin c) (token c) b.

Section WithJSONParse.

(** [JSON.parse]: [inl] is the exception it throws. *)
Variable JSON_parse : string -> JsError + JSValue.

(** The mount effect of [AuthProvider] (lines 34-46) over the storage
    [st]: the exception if it threw, and the cells it leaves. *)
Definition initialize (st : gmap string string) (c : Cells) : option JsError * Cells :=
  let storedToken := st !! "token" in
  let storedUser := st !! "user" in
  let storedIsAdmin := AuthContext.is_true_text (st !! "isAdmin") in
  match storedToken, storedUser with
  | Some tk, Some us =>
      if truthy_string tk && truthy_string us then
        let c1 := setToken (Some tk) c in
        match JSON_parse us with
        | inl e => (Some e, c1)
        | inr parsed =>
            let c2 := setUser parsed c1 in
            let c3 := setIsAdmin storedIsAdmin c2 in
            (None, setIsLoading false c3)
        end
      else (None, setIsLoading false c)
  | _, _ => (None, setIsLoading false c)
  end.

(** Mounting the provider over a storage: fresh state cells, then the
    effect. *)
Definition mount (st : gmap string string) : option JsError * Cells :=
  initialize st initial_cells.

End WithJSONParse.

(** [ProtectedRoute] (App.tsx, lines 42-62); [adminOnly] is the optional
    prop, [!user] is [ToBoolean] on whatever the cell holds. *)
Definition ProtectedRoute {View} (children : View) (adminOnly : option bool)
    (auth : Cells) : App.Element View :=
  let adminOnly := default false adminOnly in
  if isLoading auth then App.LoadingIndicator
  else if negb (truthy (user auth)) then App.NavigateTo "/login" true
  else if adminOnly && negb (isAdmin auth) then App.NavigateTo "/dashboard" true
  else App.Children children.

(** A typed session as the cells it is at run time. *)
Definition of_user (u : option User) : JSValue :=
  match u with
  | Some u => JSON.user_to_js u
  | None => VNull
  end.

Definition erase (s : Session) : Cells :=
  mkCells (of_user (Eff.user s)) (Eff.isAdmin s) (Eff.token s) (Eff.isLoading s).

(** [JSON.parse] reads [text] as the typed reader [typed] does: the same
    user record or [null], or the same exception. *)
Definition reads_as (typed : string -> JsError + option User)
    (JSON_parse : string -> JsError + JSValue) (text : string) : Prop :=
  JSON_parse text = match typed text with
                    | inl e => inl e
                    | inr parsed => inr (of_user parsed)
                    end.

End Runtime.

(** ** The API client (src/lib/api.ts) *)

Module ApiClient.

Definition API_BASE_URL : string := "https://backend-articel-project.vercel.app/api".

(** [getAuthHeaders(token?)] (lines 4-14). *)
Definition getAuthHeaders (token : option string) : gmap string string :=
  let headers : gmap string string := {["Content-Type" := "application/json"]} in
  match token with
  | Some t =>
      if truthy_string t then <["Authorization" := "Bearer " +:+ t]> headers
      else headers
  | None => headers
  end.

(** The [RequestInit] fields the client uses. *)
Record RequestInit := mkInit {
  init_method : option string;
  init_headers : option (gmap string string);
  init_body : option string
}.

Definition no_options : RequestInit := mkInit None None None.

(** The requests issued so far, oldest first. *)
Definition issued (l : list Event) : list Request :=
  omap (fun ev => match ev with Fetch r => Some r | _ => None end) l.

(** [{ ...options, headers: { ...this.getAuthHeaders(), ...options.headers } }]:
    in a spread the later source wins, in [∪] the left operand does. *)
Definition fetch_init (url : string) (options : RequestInit) : Request :=
  mkRequest url (init_method options)
    (default ∅ (init_headers options) ∪ getAuthHeaders None)
    (init_body options).

Section WithServer.

(** The remote side: what [fetch] settles to, given the requests issued
    before and the request itself. *)
Variable server : list Request -> Request -> FetchOutcome.

Definition fetch (req : Request) : M Response :=
  fun w =>
    let o := server (issued (log w)) req in
    let w' := mkWorld (session w) (storage w) (log w ++ [Fetch req; Settled req o])%list in
    match o with
    | NetworkFailure e => (Throw e, w')
    | Responded r => (Return r, w')
    end.

(** [request(endpoint, options)] (lines 16-39). *)
Definition request (endpoint : string) (options : RequestInit) : M JSValue :=
  let url := API_BASE_URL +:+ endpoint in
  try_catch
    (response <- fetch (fetch_init url options) ;;
     data <- lift_sum (json response) ;;
     if negb (ok response) then
       message <- lift_sum (get_prop data "message") ;;
       throw (Error (ToString (or_else message (VString "API request failed"))))
     else ret data)
    (fun error =>
       console_error "API request error:" error ;;
       throw error).

(** *** Query strings *)

(** The values the options objects hold: numbers ([page], [limit]; integers
    as in [JSValue]) and strings. *)
Inductive ParamValue :=
| PNumber (n : Z)
| PString (s : string).

(** [value.toString()] *)
Definition param_toString (v : ParamValue) : string :=
  match v with
  | PNumber n => pretty n
  | PString s => s
  end.

(** An options object as [Object.entries] lists it; [None] is a property
    whose value is [undefined]. *)
Definition Params : Type := list (string * option ParamValue).

(** The entries of a [URLSearchParams], in order of [append]. *)
Definition URLSearchParams : Type := list (string * string).

Definition upper_hex_digit (n : N) : ascii :=
  if (n <? 10)%N then ascii_of_N (48 + n) else ascii_of_N (55 + n).

(** The application/x-www-form-urlencoded byte serializer. *)
Definition urlencode_byte (c : ascii) : string :=
  let n := N_of_ascii c in
  if (((48 <=? n) && (n <=? 57)) || ((65 <=? n) && (n <=? 90)) || ((97 <=? n) && (n <=? 122))
      || (n =? 42) || (n =? 45) || (n =? 46) || (n =? 95))%N
  then String c ""
  else if (n =? 32)%N then "+"
  else String "%" (String (upper_hex_digit (n / 16)) (String (upper_hex_digit (n mod 16)) "")).

Fixpoint urlencode (s : string) : string :=
  match s with
  | EmptyString => ""
  | String c rest => urlencode_byte c +:+ urlencode rest
  end.

(** One [key=value] segment of a serialized query. *)
Definition segment (kv : string * string) : string :=
  urlencode (fst kv) +:+ "=" +:+ urlencode (snd kv).

(** [searchParams.toString()] *)
Definition searchParams_toString (sp : URLSearchParams) : string :=
  String.concat "&" (map (fun kv => urlencode (fst kv) +:+ "=" +:+ urlencode (snd kv)) sp).

(** The loop shared by the five list operations:
    [Object.entries(params).forEach(([key, value]) => { if (value !== undefined) searchParams.append(key, value.toString()) })]
    under [if (params)]. *)
Definition collect_params (params : option Params) : URLSearchParams :=
  match params with
  | Some entries =>
      fold_left
        (fun (searchParams : URLSearchParams) kv =>
           match snd kv with
           | Some value => (searchParams ++ [(fst kv, param_toString value)])%list
           | None => searchParams
           end)
        entries []
  | None => []
  end.

(** The entry an options property contributes: none if its value is
    [undefined]. *)
Definition defined_pair (kv : string * option ParamValue) : option (string * string) :=
  (fun v => (fst kv, param_toString v)) <$> snd kv.

(** [`${path}${queryString ? `?${queryString}` : ''}`] *)
Definition with_query (path : string) (params : option Params) : string :=
  let queryString := searchParams_toString (collect_params params) in
  path +:+ (if truthy_string queryString then "?" +:+ queryString else "").

(** *** The operations *)

Record RegisterData := mkRegisterData {
  reg_username : string;
  reg_email : string;
  reg_password : string
}.

Record Credentials := mkCredentials {
  cred_email : string;
  cred_password : string
}.

Definition register_json (d : RegisterData) : JSValue :=
  VObject [("username", VString (reg_username d)); ("email", VString (reg_email d));
           ("password", VString (reg_password d))].

Definition credentials_json (c : Credentials) : JSValue :=
  VObject [("email", VString (cred_email c)); ("password", VString (cred_password c))].

(** [{ reason }] *)
Definition reason_json (reason : option string) : JSValue :=
  VObject [("reason", match reason with Some r => VString r | None => VUndefined end)].

Definition registerUser (userData : RegisterData) : M JSValue :=
  request "/users/register"
    (mkInit (Some "POST") None (JSON.stringify (register_json userData))).

Definition loginUser (credentials : Credentials) : M JSValue :=
  request "/users/login"
    (mkInit (Some "POST") None (JSON.stringify (credentials_json credentials))).

Definition registerAdmin (adminData : RegisterData) : M JSValue :=
  request "/admin/register"
    (mkInit (Some "POST") None (JSON.stringify (register_json adminData))).

Definition loginAdmin (credentials : Credentials) : M JSValue :=
  request "/admin/login"
    (mkInit (Some "POST") None (JSON.stringify (credentials_json credentials))).

Definition getUserDashboard (token : string) : M JSValue :=
  request "/users/dashboard" (mkInit None (Some (getAuthHeaders (Some token))) None).

Definition getAllArticles (params : option Params) : M JSValue :=
  request (with_query "/users/articles" params) no_options.

Definition getArticleById (id : string) : M JSValue :=
  request ("/users/articles/" +:+ id) no_options.

Definition createArticle (articleData : JSValue) (token : string) : M JSValue :=
  request "/users/articles"
    (mkInit (Some "POST") (Some (getAuthHeaders (Some token))) (JSON.stringify articleData)).

Definition getUserArticles (token : string) (params : option Params) : M JSValue :=
  request (with_query "/users/my-articles" params)
    (mkInit None (Some (getAuthHeaders (Some token))) None).

Definition updateArticle (id : string) (articleData : JSValue) (token : string) : M JSValue :=
  request ("/users/articles/" +:+ id)
    (mkInit (Some "PUT") (Some (getAuthHeaders (Some token))) (JSON.stringify articleData)).

Definition deleteArticle (id : string) (token : string) : M JSValue :=
  request ("/users/articles/" +:+ id)
    (mkInit (Some "DELETE") (Some (getAuthHeaders (Some token))) None).

Definition getAdminDashboard (token : string) : M JSValue :=
  request "/admin/dashboard" (mkInit None (Some (getAuthHeaders (Some token))) None).

Definition getPendingArticles (token : string) (params : option Params) : M JSValue :=
  request (with_query "/admin/articles/pending" params)
    (mkInit None (Some (getAuthHeaders (Some token))) None).

Definition getAllArticlesAdmin (token : string) (params : option Params) : M JSValue :=
  request (with_query "/admin/articles" params)
    (mkInit None (Some (getAuthHeaders (Some token))) None).

Definition approveArticle (id : string) (token : string) : M JSValue :=
  request ("/admin/articles/" +:+ id +:+ "/approve")
    (mkInit (Some "PUT") (Some (getAuthHeaders (Some token))) None).

Definition rejectArticle (id : string) (token : string) (reason : option string) : M JSValue :=
  request ("/admin/articles/" +:+ id +:+ "/reject")
    (mkInit (Some "PUT") (Some (getAuthHeaders (Some token)))
       (JSON.stringify (reason_json reason))).

Definition unpublishArticle (id : string) (token : string) (reason : option string) : M JSValue :=
  request ("/admin/articles/" +:+ id +:+ "/unpublish")
    (mkInit (Some "PUT") (Some (getAuthHeaders (Some token)))
       (JSON.stringify (reason_json reason))).

Definition deleteArticleAdmin (id : string) (token : string) : M JSValue :=
  request ("/admin/articles/" +:+ id)
    (mkInit (Some "DELETE") (Some (getAuthHeaders (Some token))) None).

Definition getAllUsers (token : string) (params : option Params) : M JSValue :=
  request (with_query "/admin/users" params)
    (mkInit None (Some (getAuthHeaders (Some token))) None).

Definition getAnalytics (token : string) (period : option string) : M JSValue :=
  let queryString :=
    match period with
    | Some p => if truthy_string p then "?period=" +:+ p else ""
    | None => ""
    end in
  request ("/admin/analytics" +:+ queryString)
    (mkInit None (Some (getAuthHeaders (Some token))) None).

(** *** All operations at once *)

Inductive Call :=
| CallRegisterUser (userData : RegisterData)
| CallLoginUser (credentials : Credentials)
| CallRegisterAdmin (adminData : RegisterData)
| CallLoginAdmin (credentials : Credentials)
| CallGetUserDashboard (token : string)
| CallGetAllArticles (params : option Params)
| CallGetArticleById (id : string)
| CallCreateArticle (articleData : JSValue) (token : string)
| CallGetUserArticles (token : string) (params : option Params)
| CallUpdateArticle (id : string) (articleData : JSValue) (token : string)
| CallDeleteArticle (id : string) (token : string)
| CallGetAdminDashboard (token : string)
| CallGetPendingArticles (token : string) (params : option Params)
| CallGetAllArticlesAdmin (token : string) (params : option Params)
| CallApproveArticle (id : string) (token : string)
| CallRejectArticle (id : string) (token : string) (reason : option string)
| CallUnpublishArticle (id : string) (token : string) (reason : option string)
| CallDeleteArticleAdmin (id : string) (token : string)
| CallGetAllUsers (token : string) (params : option Params)
| CallGetAnalytics (token : string) (period : option string).

Definition invoke (c : Call) : M JSValue :=
  match c with
  | CallRegisterUser d => registerUser d
  | CallLoginUser c => loginUser c
  | CallRegisterAdmin d => registerAdmin d
  | CallLoginAdmin c => loginAdmin c
  | CallGetUserDashboard t => getUserDashboard t
  | CallGetAllArticles p => getAllArticles p
  | CallGetArticleById i => getArticleById i
  | CallCreateArticle a t => createArticle a t
  | CallGetUserArticles t p => getUserArticles t p
  | CallUpdateArticle i a t => updateArticle i a t
  | CallDeleteArticle i t => deleteArticle i t
  | CallGetAdminDashboard t => getAdminDashboard t
  | CallGetPendingArticles t p => getPendingArticles t p
  | CallGetAllArticlesAdmin t p => getAllArticlesAdmin t p
  | CallApproveArticle i t => approveArticle i t
  | CallRejectArticle i t r => rejectArticle i t r
  | CallUnpublishArticle i t r => unpublishArticle i t r
  | CallDeleteArticleAdmin i t => deleteArticleAdmin i t
  | CallGetAllUsers t p => getAllUsers t p
  | CallGetAnalytics t p => getAnalytics t p
  end.

End WithServer.

(** The endpoint and options each operation hands to [request]. *)
Definition request_args (c : Call) : string * RequestInit :=
  let auth (t : string) := Some (getAuthHeaders (Some t)) in
  match c with
  | CallRegisterUser d =>
      ("/users/register", mkInit (Some "POST") None (JSON.stringify (register_json d)))
  | CallLoginUser c =>
      ("/users/login", mkInit (Some "POST") None (JSON.stringify (credentials_json c)))
  | CallRegisterAdmin d =>
      ("/admin/register", mkInit (Some "POST") None (JSON.stringify (register_json d)))
  | CallLoginAdmin c =>
      ("/admin/login", mkInit (Some "POST") None (JSON.stringify (credentials_json c)))
  | CallGetUserDashboard t => ("/users/dashboard", mkInit None (auth t) None)
  | CallGetAllArticles p => (with_query "/users/articles" p, no_options)
  | CallGetArticleById i => ("/users/articles/" +:+ i, no_options)
  | CallCreateArticle a t =>
      ("/users/articles", mkInit (Some "POST") (auth t) (JSON.stringify a))
  | CallGetUserArticles t p => (with_query "/users/my-articles" p, mkInit None (auth t) None)
  | CallUpdateArticle i a t =>
      ("/users/articles/" +:+ i, mkInit (Some "PUT") (auth t) (JSON.stringify a))
  | CallDeleteArticle i t => ("/users/articles/" +:+ i, mkInit (Some "DELETE") (auth t) None)
  | CallGetAdminDashboard t => ("/admin/dashboard", mkInit None (auth t) None)
  | CallGetPendingArticles t p =>
      (with_query "/admin/articles/pending" p, mkInit None (auth t) None)
  | CallGetAllArticlesAdmin t p => (with_query "/admin/articles" p, mkInit None (auth t) None)
  | CallApproveArticle i t =>
      ("/admin/articles/" +:+ i +:+ "/approve", mkInit (Some "PUT") (auth t) None)
  | CallRejectArticle i t r =>
      ("/admin/articles/" +:+ i +:+ "/reject",
       mkInit (Some "PUT") (auth t) (JSON.stringify (reason_json r)))
  | CallUnpublishArticle i t r =>
      ("/admin/articles/" +:+ i +:+ "/unpublish",
       mkInit (Some "PUT") (auth t) (JSON.stringify (reason_json r)))
  | CallDeleteArticleAdmin i t => ("/admin/articles/" +:+ i, mkInit (Some "DELETE") (auth t) None)
  | CallGetAllUsers t p => (with_query "/admin/users" p, mkInit None (auth t) None)
  | CallGetAnalytics t p =>
      ("/admin/analytics" +:+
       match p with
       | Some p => if truthy_string p then "?period=" +:+ p else ""
       | None => ""
       end,
       mkInit None (auth t) None)
  end.

(** The [fetch] call an operation makes. *)
Definition wire (c : Call) : Request :=
  fetch_init (API_BASE_URL +:+ fst (request_args c)) (snd (request_args c)).

(** The token an operation is called with, if it takes one. *)
Definition call_token (c : Call) : option string :=
  match c with
  | CallRegisterUser _ | CallLoginUser _ | CallRegisterAdmin _ | CallLoginAdmin _
  | CallGetAllArticles _ | CallGetArticleById _ => None
  | CallGetUserDashboard t | CallCreateArticle _ t | CallGetUserArticles t _
  | CallUpdateArticle _ _ t | CallDeleteArticle _ t | CallGetAdminDashboard t
  | CallGetPendingArticles t _ | CallGetAllArticlesAdmin t _ | CallApproveArticle _ t
  | CallRejectArticle _ t _ | CallUnpublishArticle _ t _ | CallDeleteArticleAdmin _ t
  | CallGetAllUsers t _ | CallGetAnalytics t _ => Some t
  end.

(** The world once a request has settled, and once its failure has been
    written to the console. *)
Definition sent (w : World) (req : Request) (o : FetchOutcome) : World :=
  mkWorld (session w) (storage w) (log w ++ [Fetch req; Settled req o]).

Definition reported (w : World) (req : Request) (o : FetchOutcome) (e : JsError) : World :=
  mkWorld (session w) (storage w)
    (log w ++ [Fetch req; Settled req o; ConsoleError "API request error:" e]).

(** Occurrences of a character in a string. *)
Fixpoint count_char (c : ascii) (s : string) : nat :=
  match s with
  | EmptyString => 0%nat
  | String x rest => ((if Ascii.eqb x c then 1 else 0) + count_char c rest)%nat
  end.

(** The five list operations, by name. *)
Inductive ListOp :=
| GetAllArticles
| GetUserArticles
| GetPendingArticles
| GetAllArticlesAdmin
| GetAllUsers.

(** A call of a list operation; [token] is what the caller passes as the
    [token] argument ([getAllArticles] has no such parameter). *)
Definition list_call (op : ListOp) (token : string) (params : option Params) : Call :=
  match op with
  | GetAllArticles => CallGetAllArticles params
  | GetUserArticles => CallGetUserArticles token params
  | GetPendingArticles => CallGetPendingArticles token params
  | GetAllArticlesAdmin => CallGetAllArticlesAdmin token params
  | GetAllUsers => CallGetAllUsers token params
  end.

Definition takes_token (op : ListOp) : bool :=
  match op with
  | GetAllArticles => false
  | _ => true
  end.

Definition list_path (op : ListOp) : string :=
  match op with
  | GetAllArticles => "/users/articles"
  | GetUserArticles => "/users/my-articles"
  | GetPendingArticles => "/admin/articles/pending"
  | GetAllArticlesAdmin => "/admin/articles"
  | GetAllUsers => "/admin/users"
  end.

End ApiClient.

(** ** String search *)

Module Text.

Fixpoint is_prefix (p s : string) : bool :=
  match p, s with
  | EmptyString, _ => true
  | String a p', String b s' => Ascii.eqb a b && is_prefix p' s'
  | String _ _, EmptyString => false
  end.

(** [s.includes(sub)] *)
Fixpoint includes (s sub : string) : bool :=
  is_prefix sub s ||
  match s with
  | EmptyString => false
  | String _ rest => includes rest sub
  end.

(** [tags.includes(tag)] on an array of strings *)
Definition array_includes (tags : list string) (tag : string) : bool :=
  existsb (String.eqb tag) tags.

End Text.

(** ** Browser dialogs

    [window.confirm] and [window.prompt] block until the user answers.  The
    handlers below take the answers as arguments: [confirmed] is what
    [confirm] returned, [reason] what [prompt] returned ([None] for
    [null], the cancelled prompt).  A dialog leaves no entry in the log. *)

Module Dialog.

(** [reason || undefined] *)
Definition or_undefined (reason : option string) : option string :=
  match reason with
  | Some r => if truthy_string r then Some r else None
  | None => None
  end.

End Dialog.

(** ** Admin article list (pages/admin/AdminArticles.tsx) *)

Module AdminArticles.

Section WithServer.
Variable server : list Request -> Request -> FetchOutcome.

(** [fetchArticles] (lines 53-71); [token] is the value the component read
    from [useAuth()]. *)
Definition fetchArticles (token : option string) : M unit :=
  match token with
  | Some tk =>
      if negb (truthy_string tk) then ret tt
      else
        finally
          (try_catch
             (response <- ApiClient.getAllArticlesAdmin server tk
                            (Some [("limit", Some (ApiClient.PNumber 50))]) ;;
              success <- lift_sum (get_prop response "success") ;;
              if truthy success then
                data <- lift_sum (get_prop response "data") ;;
                articles <- lift_sum (get_prop data "articles") ;;
                setLocal "articles" articles
              else ret tt)
             (fun error =>
                console_error "Error fetching articles:" error ;;
                toast (mkToast "Error loading articles" "Please try again later."
                         (Some "destructive"))))
          (setLocal "isLoading" (VBool false))
  | None => ret tt
  end.

(** [handleApproveArticle] (lines 91-108). *)
Definition handleApproveArticle (token : option string) (articleId : string) : M unit :=
  match token with
  | Some tk =>
      if negb (truthy_string tk) then ret tt
      else
        try_catch
          (ApiClient.approveArticle server articleId tk ;;
           toast (mkToast "Article approved" "The article has been published successfully."
                    None) ;;
           not_awaited (fetchArticles token))
          (fun error =>
             toast (mkToast "Error approving article"
                      (string_or_else (err_message error) "Please try again.")
                      (Some "destructive")))
  | None => ret tt
  end.


(** [handleRejectArticle] (lines 110-129). *)
Definition handleRejectArticle (token : option string) (articleId : string)
    (reason : option string) : M unit :=
  match token with
  | Some tk =>
      if negb (truthy_string tk) then ret tt
      else
        try_catch
          (ApiClient.rejectArticle server articleId tk (Dialog.or_undefined reason) ;;
           toast (mkToast "Article rejected" "The article has been rejected." None) ;;
           not_awaited (fetchArticles token))
          (fun error =>
             toast (mkToast "Error rejecting article"
                      (string_or_else (err_message error) "Please try again.")
                      (Some "destructive")))
  | None => ret tt
  end.

(** [handleUnpublishArticle] (lines 131-150). *)
Definition handleUnpublishArticle (token : option string) (articleId : string)
    (confirmed : bool) (reason : option string) : M unit :=
  match token with
  | Some tk =>
      if negb (truthy_string tk) || negb confirmed then ret tt
      else
        try_catch
          (ApiClient.unpublishArticle server articleId tk (Dialog.or_undefined reason) ;;
           toast (mkToast "Article unpublished" "The article has been unpublished." None) ;;
           not_awaited (fetchArticles token))
          (fun error =>
             toast (mkToast "Error unpublishing article"
                      (string_or_else (err_message error) "Please try again.")
                      (Some "destructive")))
  | None => ret tt
  end.

(** [handleDeleteArticle] (lines 152-169). *)
Definition handleDeleteArticle (token : option string) (articleId : string)
    (confirmed : bool) : M unit :=
  match token with
  | Some tk =>
      if negb (truthy_string tk) || negb confirmed then ret tt
      else
        try_catch
          (ApiClient.deleteArticleAdmin server articleId tk ;;
           toast (mkToast "Article deleted" "The article has been permanently deleted." None) ;;
           not_awaited (fetchArticles token))
          (fun error =>
             toast (mkToast "Error deleting article"
                      (string_or_else (err_message error) "Please try again.")
                      (Some "destructive")))
  | None => ret tt
  end.

(** The four moderation actions of the page, with the answers the dialogs
    gave. *)
Inductive Moderation :=
| Approve
| Reject (reason : option string)
| Unpublish (confirmed : bool) (reason : option string)
| Delete (confirmed : bool).

Definition handle (m : Moderation) (token : option string) (articleId : string) : M unit :=
  match m with
  | Approve => handleApproveArticle token articleId
  | Reject reason => handleRejectArticle token articleId reason
  | Unpublish confirmed reason => handleUnpublishArticle token articleId confirmed reason
  | Delete confirmed => handleDeleteArticle token articleId confirmed
  end.

End WithServer.

(** [interface Article] (lines 21-34). *)
Record Author := mkAuthor {
  author_username : string;
  author_email : string
}.

Record Article := mkArticle {
  article_id : string;
  title : string;
  shortDescription : string;
  coverImage : string;
  categoryTags : list string;
  status : string;
  createdAt : string;
  publishedDate : option string;
  author : Author
}.

Section WithLowerCase.

(** [String.prototype.toLowerCase] *)
Variable toLowerCase : string -> string.

(** The predicate of the search filter (lines 77-81). *)
Definition matches_search (searchTerm : string) (article : Article) : bool :=
  Text.includes (toLowerCase (title article)) (toLowerCase searchTerm) ||
  Text.includes (toLowerCase (shortDescription article)) (toLowerCase searchTerm) ||
  Text.includes (toLowerCase (author_username (author article))) (toLowerCase searchTerm).

(** [filterArticles] (lines 73-89): the list it hands to
    [setFilteredArticles], from the three state cells it reads. *)
Definition filterArticles (articles : list Article) (searchTerm statusFilter : string)
    : list Article :=
  let filtered := articles in
  let filtered :=
    if truthy_string searchTerm then List.filter (matches_search searchTerm) filtered
    else filtered in
  let filtered :=
    if negb (String.eqb statusFilter "all")
    then List.filter (fun article => String.eqb (status article) statusFilter) filtered
    else filtered in
  filtered.

End WithLowerCase.

(** The operation a moderation action calls. *)
Definition mutation (m : Moderation) (articleId tk : string) : ApiClient.Call :=
  match m with
  | Approve => ApiClient.CallApproveArticle articleId tk
  | Reject reason => ApiClient.CallRejectArticle articleId tk (Dialog.or_undefined reason)
  | Unpublish _ reason =>
      ApiClient.CallUnpublishArticle articleId tk (Dialog.or_undefined reason)
  | Delete _ => ApiClient.CallDeleteArticleAdmin articleId tk
  end.

(** Whether the user let the action go ahead in its confirm dialog. *)
Definition confirmed_by_user (m : Moderation) : bool :=
  match m with
  | Approve | Reject _ => true
  | Unpublish confirmed _ | Delete confirmed => confirmed
  end.

(** The title of the toast an action shows when it fails. *)
Definition failure_title (m : Moderation) : string :=
  match m with
  | Approve => "Error approving article"
  | Reject _ => "Error rejecting article"
  | Unpublish _ _ => "Error unpublishing article"
  | Delete _ => "Error deleting article"
  end.

End AdminArticles.

(** ** Pending articles (pages/admin/AdminPending.tsx) *)

Module AdminPending.

Section WithServer.
Variable server : list Request -> Request -> FetchOutcome.

(** [fetchPendingArticles] (lines 40-58). *)
Definition fetchPendingArticles (token : option string) : M unit :=
  match token with
  | Some tk =>
      if negb (truthy_string tk) then ret tt
      else
        finally
          (try_catch
             (response <- ApiClient.getPendingArticles server tk
                            (Some [("limit", Some (ApiClient.PNumber 50))]) ;;
              success <- lift_sum (get_prop response "success") ;;
              if truthy success then
                data <- lift_sum (get_prop response "data") ;;
                articles <- lift_sum (get_prop data "articles") ;;
                setLocal "articles" articles
              else ret tt)
             (fun error =>
                console_error "Error fetching pending articles:" error ;;
                toast (mkToast "Error loading pending articles" "Please try again later."
                         (Some "destructive"))))
          (setLocal "isLoading" (VBool false))
  | None => ret tt
  end.

(** [handleApproveArticle] (lines 60-77). *)
Definition handleApproveArticle (token : option string) (articleId : string) : M unit :=
  match token with
  | Some tk =>
      if negb (truthy_string tk) then ret tt
      else
        try_catch
          (ApiClient.approveArticle server articleId tk ;;
           toast (mkToast "Article approved" "The article has been published successfully."
                    None) ;;
           not_awaited (fetchPendingArticles token))
          (fun error =>
             toast (mkToast "Error approving article"
                      (string_or_else (err_message error) "Please try again.")
                      (Some "destructive")))
  | None => ret tt
  end.


(** [handleRejectArticle] (lines 79-98). *)
Definition handleRejectArticle (token : option string) (articleId : string)
    (reason : option string) : M unit :=
  match token with
  | Some tk =>
      if negb (truthy_string tk) then ret tt
      else
        try_catch
          (ApiClient.rejectArticle server articleId tk (Dialog.or_undefined reason) ;;
           toast (mkToast "Article rejected" "The article has been rejected." None) ;;
           not_awaited (fetchPendingArticles token))
          (fun error =>
             toast (mkToast "Error rejecting article"
                      (string_or_else (err_message error) "Please try again.")
                      (Some "destructive")))
  | None => ret tt
  end.

End WithServer.

End AdminPending.

(** ** Registration form (pages/auth/Register.tsx) *)

Module Register.

(** The [formData] state cell. *)
Record FormData := mkFormData {
  username : string;
  email : string;
  password : string;
  confirmPassword : string
}.

(** The response is untyped; [login] takes a [string] and a [User].  The
    values the embedding follows into [login] are a string and an object
    with exactly the three string properties of [User], in the order of
    [JSON.stringify_user]: those for which the typed [user] cell and the
    text written to the storage are what the code produces.  An object with
    other, further or reordered properties would put into the cell and the
    storage what [User] does not hold; such executions are [unmodelled]. *)
Definition as_string (v : JSValue) : option string :=
  match v with
  | VString s => Some s
  | _ => None
  end.

Definition as_user (v : JSValue) : option User :=
  match v with
  | VObject [(k1, VString i); (k2, VString n); (k3, VString e)] =>
      if String.eqb k1 "id" && String.eqb k2 "username" && String.eqb k3 "email"
      then Some (mkUser i n e) else None
  | _ => None
  end.

Definition login_untyped (tokenv userv : JSValue) (adminStatus : bool) : M unit :=
  match as_string tokenv, as_user userv with
  | Some t, Some u => AuthContext.login t u (Some adminStatus)
  | _, _ => unmodelled
  end.

(** [v?.k] *)
Definition opt_chain (v : JSValue) (k : string) : JSValue :=
  match get_prop v k with
  | inr x => x
  | inl _ => VUndefined
  end.

Section WithServer.
Variable server : list Request -> Request -> FetchOutcome.

(** [handleSubmit] (lines 29-79); [activeTab] is the tab state cell. *)
Definition handleSubmit (formData : FormData) (activeTab : string) : M unit :=
  preventDefault ;;
  if negb (String.eqb (password formData) (confirmPassword formData)) then
    toast (mkToast "Password mismatch" "Please ensure both passwords match."
             (Some "destructive"))
  else
    setLocal "isLoading" (VBool true) ;;
    finally
      (try_catch
         (let registerData :=
            ApiClient.mkRegisterData (username formData) (email formData) (password formData) in
          response <- (if String.eqb activeTab "admin"
                       then ApiClient.registerAdmin server registerData
                       else ApiClient.registerUser server registerData) ;;
          success <- lift_sum (get_prop response "success") ;;
          if truthy success then
            tokenv <- lift_sum (get_prop response "token") ;;
            userv <- lift_sum (get_prop response "user") ;;
            adminv <- lift_sum (get_prop response "admin") ;;
            login_untyped tokenv (or_else userv adminv) (String.eqb activeTab "admin") ;;
            toast (mkToast "Registration successful"
                     ("Welcome to QuillBoard, " +:+
                      ToString (or_else (opt_chain userv "username")
                                        (opt_chain adminv "username")) +:+ "!")
                     None) ;;
            if String.eqb activeTab "admin" then navigate "/admin/dashboard"
            else navigate "/dashboard"
          else ret tt)
         (fun error =>
            toast (mkToast "Registration failed"
                     (string_or_else (err_message error)
                        "Please try again with different credentials.")
                     (Some "destructive"))))
      (setLocal "isLoading" (VBool false)).

End WithServer.

(** The operation a submission calls. *)
Definition submission (formData : FormData) (activeTab : string) : ApiClient.Call :=
  let registerData :=
    ApiClient.mkRegisterData (username formData) (email formData) (password formData) in
  if String.eqb activeTab "admin" then ApiClient.CallRegisterAdmin registerData
  else ApiClient.CallRegisterUser registerData.

(** A 2xx response with a JSON body whose [success] is truthy. *)
Definition accepted (o : FetchOutcome) : bool :=
  match o with
  | Responded r =>
      ok r &&
      match payload r with
      | Json data =>
          match get_prop data "success" with
          | inr success => truthy success
          | inl _ => false
          end
      | NotJson _ => false
      end
  | NetworkFailure _ => false
  end.

(** Calls of [navigate] and toasts in a log. *)
Definition is_navigate (ev : Event) : bool :=
  match ev with
  | Navigate _ => true
  | _ => false
  end.

Definition is_toast (ev : Event) : bool :=
  match ev with
  | Toast _ => true
  | _ => false
  end.

End Register.

(** ** Login form (pages/auth/Login.tsx) *)

Module Login.

(** The [formData] state cell. *)
Record FormData := mkFormData {
  email : string;
  password : string
}.

Section WithServer.
Variable server : list Request -> Request -> FetchOutcome.

(** [handleSubmit] (lines 24-58); [activeTab] is the tab state cell. *)
Definition handleSubmit (formData : FormData) (activeTab : string) : M unit :=
  preventDefault ;;
  setLocal "isLoading" (VBool true) ;;
  finally
    (try_catch
       (let credentials := ApiClient.mkCredentials (email formData) (password formData) in
        response <- (if String.eqb activeTab "admin"
                     then ApiClient.loginAdmin server credentials
                     else ApiClient.loginUser server credentials) ;;
        success <- lift_sum (get_prop response "success") ;;
        if truthy success then
          tokenv <- lift_sum (get_prop response "token") ;;
          userv <- lift_sum (get_prop response "user") ;;
          adminv <- lift_sum (get_prop response "admin") ;;
          Register.login_untyped tokenv (or_else userv adminv)
            (String.eqb activeTab "admin") ;;
          toast (mkToast "Login successful"
                   ("Welcome back, " +:+
                    ToString (or_else (Register.opt_chain userv "username")
                                      (Register.opt_chain adminv "username")) +:+ "!")
                   None) ;;
          if String.eqb activeTab "admin" then navigate "/admin/dashboard"
          else navigate "/dashboard"
        else ret tt)
       (fun error =>
          toast (mkToast "Login failed"
                   (string_or_else (err_message error)
                      "Please check your credentials and try again.")
                   (Some "destructive"))))
    (setLocal "isLoading" (VBool false)).

End WithServer.

(** The operation a submission calls. *)
Definition submission (formData : FormData) (activeTab : string) : ApiClient.Call :=
  let credentials := ApiClient.mkCredentials (email formData) (password formData) in
  if String.eqb activeTab "admin" then ApiClient.CallLoginAdmin credentials
  else ApiClient.CallLoginUser credentials.

End Login.

(** ** Article form (pages/user/CreateArticle.tsx) *)

Module CreateArticle.

(** The [formData] state cell. *)
Record FormData := mkFormData {
  title : string;
  shortDescription : string;
  fullDescription : string;
  coverImage : string;
  categoryTags : list string
}.

Definition with_tags (formData : FormData) (tags : list string) : FormData :=
  mkFormData (title formData) (shortDescription formData) (fullDescription formData)
    (coverImage formData) tags.

(** [formData] as the object handed to [JSON.stringify]. *)
Definition form_json (formData : FormData) : JSValue :=
  VObject [("title", VString (title formData));
           ("shortDescription", VString (shortDescription formData));
           ("fullDescription", VString (fullDescription formData));
           ("coverImage", VString (coverImage formData));
           ("categoryTags", VArray (map VString (categoryTags formData)))].

Section WithStringMethods.

(** [String.prototype.trim] and [String.prototype.toLowerCase] *)
Variable trim : string -> string.
Variable toLowerCase : string -> string.

(** [addTag] (lines 71-79): the new [formData] and [newTag] cells. *)
Definition addTag (formData : FormData) (newTag : string) : FormData * string :=
  if truthy_string (trim newTag) &&
     negb (Text.array_includes (categoryTags formData) (toLowerCase (trim newTag)))
  then (with_tags formData (categoryTags formData ++ [toLowerCase (trim newTag)]), "")
  else (formData, newTag).

End WithStringMethods.

(** [removeTag] (lines 81-86). *)
Definition removeTag (formData : FormData) (tagToRemove : string) : FormData :=
  with_tags formData
    (List.filter (fun tag => negb (String.eqb tag tagToRemove)) (categoryTags formData)).

Section WithServer.
Variable server : list Request -> Request -> FetchOutcome.

(** [handleSubmit] (lines 29-62). *)
Definition handleSubmit (token : option string) (formData : FormData) : M unit :=
  preventDefault ;;
  match token with
  | Some tk =>
      if negb (truthy_string tk) then ret tt
      else if negb (truthy_string (title formData))
              || negb (truthy_string (shortDescription formData))
              || negb (truthy_string (fullDescription formData))
              || negb (truthy_string (coverImage formData))
      then toast (mkToast "Missing fields" "Please fill in all required fields."
                    (Some "destructive"))
      else
        setLocal "isLoading" (VBool true) ;;
        finally
          (try_catch
             (response <- ApiClient.createArticle server (form_json formData) tk ;;
              success <- lift_sum (get_prop response "success") ;;
              if truthy success then
                toast (mkToast "Article created" "Your article has been submitted for review."
                         None) ;;
                navigate "/my-articles"
              else ret tt)
             (fun error =>
                toast (mkToast "Error creating article"
                         (string_or_else (err_message error) "Please try again.")
                         (Some "destructive"))))
          (setLocal "isLoading" (VBool false))
  | None => ret tt
  end.

End WithServer.

(** What can happen to the tag list: a tag typed and added, a tag
    removed. *)
Inductive TagEdit :=
| Add (newTag : string)
| Remove (tagToRemove : string).

Definition edit (trim toLowerCase : string -> string) (formData : FormData) (e : TagEdit)
    : FormData :=
  match e with
  | Add newTag => fst (addTag trim toLowerCase formData newTag)
  | Remove tag => removeTag formData tag
  end.

End CreateArticle.

(** ** What the two forms share

    After their own preamble, [Register.handleSubmit] and
    [Login.handleSubmit] run the same block with different texts; it is
    written once here, for the proofs, with the operation, the tab and the
    texts as arguments. *)

Module AuthForms.

Section WithServer.
Variable server : list Request -> Request -> FetchOutcome.

Definition submit_flow (c : ApiClient.Call) (adminTab : bool)
    (okTitle greeting failTitle failDefault : string) : M unit :=
  finally
    (try_catch
       (response <- ApiClient.invoke server c ;;
        success <- lift_sum (get_prop response "success") ;;
        if truthy success then
          tokenv <- lift_sum (get_prop response "token") ;;
          userv <- lift_sum (get_prop response "user") ;;
          adminv <- lift_sum (get_prop response "admin") ;;
          Register.login_untyped tokenv (or_else userv adminv) adminTab ;;
          toast (mkToast okTitle
                   (greeting +:+
                    ToString (or_else (Register.opt_chain userv "username")
                                      (Register.opt_chain adminv "username")) +:+ "!")
                   None) ;;
          if adminTab then navigate "/admin/dashboard"
          else navigate "/dashboard"
        else ret tt)
       (fun error =>
          toast (mkToast failTitle (string_or_else (err_message error) failDefault)
                   (Some "destructive"))))
    (setLocal "isLoading" (VBool false)).

End WithServer.

End AuthForms.

(** ** Navigation bar (components/Layout/Navbar.tsx) *)

Module Navbar.

(** [handleLogout] (lines 28-31). *)
Definition handleLogout : M unit :=
  AuthContext.logout ;;
  navigate "/".

(** [dashboardUrl] (line 33). *)
Definition dashboardUrl (isAdmin : bool) : string :=
  if isAdmin then "/admin/dashboard" else "/dashboard".

End Navbar.

(** ** Concrete inputs *)

Module Sample.

Definition alice : User := mkUser "u1" "alice" "a@x.com".

(** The world of a first run, once the provider has mounted. *)
Definition mounted : World := snd (AuthContext.mount JSON.parse_user ∅).

(** A storage as [login] leaves it, with the [user] text damaged. *)
Definition damaged_storage : gmap string string :=
  <["token" := "tok"]> (<["user" := "{not json"]> (<["isAdmin" := "false"]> ∅)).

(** Servers that give every request the same answer. *)
Definition answer (st : Z) (b : Body) : list Request -> Request -> FetchOutcome :=
  fun _ _ => Responded (mkResponse st b).

Definition unreachable : list Request -> Request -> FetchOutcome :=
  fun _ _ => NetworkFailure (TypeError "Failed to fetch").

Definition empty_message : JSValue := VObject [("message", VString "")].
Definition email_taken : JSValue := VObject [("message", VString "Email already registered")].
Definition no_message : JSValue := VObject [("success", VBool false)].

Definition article_list : JSValue :=
  VObject [("success", VBool true); ("data", VObject [("articles", VArray [])])].

Definition mismatched : Register.FormData :=
  Register.mkFormData "alice" "a@x.com" "p1" "p2".

Definition page_two : ApiClient.Params :=
  [("page", Some (ApiClient.PNumber 2)); ("limit", None);
   ("search", Some (ApiClient.PString "coq & rocq"))].

Definition alice_registration : ApiClient.RegisterData :=
  ApiClient.mkRegisterData "alice" "a@x.com" "p1".

Definition matching : Register.FormData :=
  Register.mkFormData "alice" "a@x.com" "p1" "p1".

(** The answer of a server that registered (or logged in) alice. *)
Definition welcome : JSValue :=
  VObject [("success", VBool true); ("token", VString "tok");
           ("user", VObject [("id", VString "u1"); ("username", VString "alice");
                             ("email", VString "a@x.com")])].

Definition refusal : JSValue :=
  VObject [("success", VBool false); ("message", VString "Invalid credentials")].

(** [toLowerCase] on texts of ASCII characters. *)
Definition lower_char (c : ascii) : ascii :=
  let n := N_of_ascii c in
  if ((65 <=? n) && (n <=? 90))%N then ascii_of_N (n + 32) else c.

Fixpoint ascii_lower (s : string) : string :=
  match s with
  | EmptyString => EmptyString
  | String c rest => String (lower_char c) (ascii_lower rest)
  end.

(** [JSON.parse] at a few texts: the scalars named here and the object
    texts that [login] writes.  The statements hold for every reader; this
    one is where they are evaluated. *)
Definition parse_value (text : string) : JsError + JSValue :=
  if String.eqb text "null" then inr VNull
  else if String.eqb text "true" then inr (VBool true)
  else if String.eqb text "false" then inr (VBool false)
  else if String.eqb text "0" then inr (VNumber 0)
  else if String.eqb text "1" then inr (VNumber 1)
  else match JSON.read_user text with
       | Some u => inr (JSON.user_to_js u)
       | None => inl (SyntaxError "Unexpected token in JSON")
       end.

(** A storage whose [user] key holds the text of a number. *)
Definition number_as_user : gmap string string :=
  <["token" := "tok"]> (<["user" := "1"]> ∅).

(** The options both admin lists are fetched with: [{ limit: 50 }]. *)
Definition limit_50 : option ApiClient.Params := Some [("limit", Some (ApiClient.PNumber 50))].

(** The toast of a successful approve. *)
Definition approved_toast : Event :=
  Toast (mkToast "Article approved" "The article has been published successfully." None).

End Sample.


(** * Properties *)

(** ** Strings and JSON text *)

Lemma truthy_string_true s : truthy_string s = true <-> s <> "".
Proof. destruct s; simpl; split; congruence. Qed.

Lemma truthy_string_false s : truthy_string s = false <-> s = "".
Proof. destruct s; simpl; split; congruence. Qed.

Lemma truthy_string_app_r (a b : string) : truthy_string b = true -> truthy_string (a +:+ b) = true.
Proof. destruct a; [trivial | reflexivity]. Qed.

Module JSONFacts.
Import JSON.

Lemma append_cons c (a b : string) : String c a +:+ b = String c (a +:+ b).
Proof. reflexivity. Qed.

Lemma append_nil (b : string) : "" +:+ b = b.
Proof. reflexivity. Qed.

Lemma append_assoc3 (a b c : string) : (a +:+ b) +:+ c = a +:+ (b +:+ c).
Proof.
  induction a as [|x a IH]; [reflexivity|].
  rewrite !append_cons. now rewrite IH.
Qed.

Lemma expect_app p s : expect p (p +:+ s) = Some s.
Proof.
  induction p as [|a p IH]; [reflexivity|].
  rewrite append_cons. simpl. rewrite Ascii.eqb_refl. exact IH.
Qed.

(** Reading back one escaped character. *)
Lemma read_escape_char c tail :
  read_string_body (escape_char c +:+ tail) = prepend c (read_string_body tail).
Proof.
  destruct c as [[] [] [] [] [] [] [] []]; reflexivity.
Qed.

Lemma read_string_body_escape s rest :
  read_string_body (escape s +:+ String dquote rest) = Some (s, rest).
Proof.
  induction s as [|c s IH].
  - reflexivity.
  - cbn [escape]. rewrite append_assoc3, read_escape_char, IH. reflexivity.
Qed.

Lemma stringify_user_layout u :
  stringify_user u =
    ("{" +:+ key_prefix "id") +:+ escape (id u) +:+ String dquote
      (("," +:+ key_prefix "username") +:+ escape (username u) +:+ String dquote
         (("," +:+ key_prefix "email") +:+ escape (email u) +:+ String dquote "}")).
Proof.
  destruct u as [i n e].
  unfold stringify_user, user_to_js, stringify, quote, key_prefix; simpl.
  unfold quote, escape, escape_char; simpl.
  repeat (rewrite ?append_cons, ?append_nil, ?append_assoc3).
  reflexivity.
Qed.

(** The reader inverts [stringify_user]. *)
Lemma read_user_stringify u : read_user (stringify_user u) = Some u.
Proof.
  rewrite stringify_user_layout. unfold read_user.
  do 3 (rewrite expect_app; cbn [mbind option_bind];
        rewrite read_string_body_escape; cbn [mbind option_bind]).
  destruct u; reflexivity.
Qed.

Lemma stringify_user_not_null u : String.eqb (stringify_user u) "null" = false.
Proof. rewrite stringify_user_layout. reflexivity. Qed.

Lemma parse_user_stringify u : parse_user (stringify_user u) = inr (Some u).
Proof.
  unfold parse_user. rewrite stringify_user_not_null, read_user_stringify. reflexivity.
Qed.

Lemma stringify_user_truthy u : truthy_string (stringify_user u) = true.
Proof. rewrite stringify_user_layout. reflexivity. Qed.

End JSONFacts.

(** ** The session store step by step *)

Module AuthFacts.
Import AuthContext.

(** Each primitive in one step. *)

Lemma setToken_run v w :
  setToken v w =
    (Return tt,
     mkWorld (mkSession (user (session w)) (isAdmin (session w)) v (isLoading (session w)))
       (storage w) (log w ++ [SetToken v])).
Proof. reflexivity. Qed.

Lemma setUser_run v w :
  setUser v w =
    (Return tt,
     mkWorld (mkSession v (isAdmin (session w)) (token (session w)) (isLoading (session w)))
       (storage w) (log w ++ [SetUser v])).
Proof. reflexivity. Qed.

Lemma setIsAdmin_run b w :
  setIsAdmin b w =
    (Return tt,
     mkWorld (mkSession (user (session w)) b (token (session w)) (isLoading (session w)))
       (storage w) (log w ++ [SetIsAdmin b])).
Proof. reflexivity. Qed.

Lemma setIsLoading_run b w :
  setIsLoading b w =
    (Return tt,
     mkWorld (mkSession (user (session w)) (isAdmin (session w)) (token (session w)) b)
       (storage w) (log w ++ [SetIsLoading b])).
Proof. reflexivity. Qed.

Lemma setItem_run k v w :
  setItem k v w =
    (Return tt, mkWorld (session w) (<[k := v]> (storage w)) (log w ++ [StorageSet k v])).
Proof. reflexivity. Qed.

Lemma removeItem_run k w :
  removeItem k w =
    (Return tt, mkWorld (session w) (delete k (storage w)) (log w ++ [StorageRemove k])).
Proof. reflexivity. Qed.

Lemma getItem_run k w : getItem k w = (Return (storage w !! k), w).
Proof. reflexivity. Qed.

Ltac store_steps :=
  unfold bind;
  repeat (rewrite ?setToken_run, ?setUser_run, ?setIsAdmin_run, ?setIsLoading_run,
            ?setItem_run, ?removeItem_run, ?getItem_run;
          cbv beta iota;
          cbn [session storage log user isAdmin token isLoading]);
  rewrite <- ?app_assoc; cbn [app].

Lemma login_run newToken newUser adminStatus w :
  login newToken newUser adminStatus w =
    (Return tt,
     mkWorld
       (mkSession (Some newUser) (default false adminStatus) (Some newToken)
          (isLoading (session w)))
       (<["isAdmin" := if default false adminStatus then "true" else "false"]>
          (<["user" := JSON.stringify_user newUser]>
             (<["token" := newToken]> (storage w))))
       (log w ++ [SetToken (Some newToken); SetUser (Some newUser);
                  SetIsAdmin (default false adminStatus);
                  StorageSet "token" newToken;
                  StorageSet "user" (JSON.stringify_user newUser);
                  StorageSet "isAdmin" (if default false adminStatus then "true" else "false")])).
Proof.
  unfold login. store_steps. reflexivity.
Qed.

Lemma logout_run w :
  logout w =
    (Return tt,
     mkWorld (mkSession None false None (isLoading (session w)))
       (delete "isAdmin" (delete "user" (delete "token" (storage w))))
       (log w ++ [SetToken None; SetUser None; SetIsAdmin false;
                  StorageRemove "token"; StorageRemove "user"; StorageRemove "isAdmin"])).
Proof.
  unfold logout. store_steps. reflexivity.
Qed.

Lemma initialize_run JSON_parse w :
  initialize JSON_parse w =
    match storage w !! "token", storage w !! "user" with
    | Some tk, Some us =>
        if truthy_string tk && truthy_string us then
          match JSON_parse us with
          | inr parsed =>
              (Return tt,
               mkWorld (mkSession parsed (is_true_text (storage w !! "isAdmin")) (Some tk) false)
                 (storage w)
                 (log w ++ [SetToken (Some tk); SetUser parsed;
                            SetIsAdmin (is_true_text (storage w !! "isAdmin"));
                            SetIsLoading false]))
          | inl e =>
              (Throw e,
               mkWorld
                 (mkSession (user (session w)) (isAdmin (session w)) (Some tk)
                    (isLoading (session w)))
                 (storage w) (log w ++ [SetToken (Some tk)]))
          end
        else skipped w
    | _, _ => skipped w
    end.
Proof.
  unfold initialize, skipped. store_steps.
  destruct (storage w !! "token") as [tk|]; [|store_steps; reflexivity].
  destruct (storage w !! "user") as [us|]; [|store_steps; reflexivity].
  destruct (truthy_string tk && truthy_string us); [|store_steps; reflexivity].
  store_steps. unfold lift_sum.
  destruct (JSON_parse us) as [e|parsed]; unfold throw, ret; store_steps; reflexivity.
Qed.

Lemma mount_run JSON_parse st :
  mount JSON_parse st = initialize JSON_parse (mkWorld initial_session st []).
Proof. reflexivity. Qed.

(** [exec] keeps the session consistent and the storage as [login] writes
    it, provided [JSON.parse] inverts [JSON.stringify] on user records. *)
Section Invariant.

Variable JSON_parse : string -> JsError + option User.
Hypothesis parse_stringify : forall u, JSON_parse (JSON.stringify_user u) = inr (Some u).

Lemma Inv_first_run : Inv first_run.
Proof.
  split.
  - split; [split; reflexivity | reflexivity].
  - intros us H. unfold first_run in H. cbn [storage] in H.
    rewrite lookup_empty in H. discriminate.
Qed.

Lemma Inv_initialize w :
  written_by_login (storage w) ->
  consistent (session w) ->
  Inv (after (initialize JSON_parse) w).
Proof.
  intros Hst Hs. unfold after. rewrite initialize_run.
  assert (Hskip : Inv (snd (skipped w))).
  { split; [|exact Hst]. destruct Hs as [H1 H2]. split; cbn; assumption. }
  destruct (storage w !! "token") as [tk|] eqn:Etk; [|exact Hskip].
  destruct (storage w !! "user") as [us|] eqn:Eus; [|exact Hskip].
  destruct (truthy_string tk && truthy_string us); [|exact Hskip].
  destruct (Hst us Eus) as [u ->]. rewrite parse_stringify. cbn.
  split; [|exact Hst].
  split; cbn; [split; discriminate | discriminate].
Qed.

Lemma Inv_exec w op : Inv w -> Inv (exec JSON_parse w op).
Proof.
  intros [Hs Hst]. destruct op as [|t u a| |]; unfold exec.
  - apply Inv_initialize; assumption.
  - unfold after. rewrite login_run. cbn. split.
    + split; cbn; [split; discriminate | discriminate].
    + intros us H. cbn in H.
      rewrite lookup_insert_ne in H by discriminate.
      rewrite lookup_insert_eq in H. inversion H. eauto.
  - unfold after. rewrite logout_run. cbn. split.
    + split; cbn; [split; reflexivity | reflexivity].
    + intros us H. cbn in H.
      rewrite lookup_delete_ne in H by discriminate.
      rewrite lookup_delete_eq in H. discriminate.
  - rewrite mount_run.
    apply (Inv_initialize (mkWorld initial_session (storage w) [])).
    + exact Hst.
    + split; [split; reflexivity | reflexivity].
Qed.

Lemma Inv_fold ops w : Inv w -> Inv (fold_left (exec JSON_parse) ops w).
Proof.
  revert w. induction ops as [|op ops IH]; intros w Hw; [exact Hw|].
  cbn. apply IH, Inv_exec, Hw.
Qed.

End Invariant.

End AuthFacts.

(** ** The API client step by step *)

Module ApiFacts.
Import ApiClient.

Section WithServer.
Variable server : list Request -> Request -> FetchOutcome.

Lemma fetch_run req w :
  fetch server req w =
    match server (issued (log w)) req with
    | NetworkFailure e => (Throw e, sent w req (NetworkFailure e))
    | Responded r => (Return r, sent w req (Responded r))
    end.
Proof. unfold fetch, sent. destruct (server (issued (log w)) req); reflexivity. Qed.

Lemma request_run endpoint options w :
  request server endpoint options w =
    let req := fetch_init (API_BASE_URL +:+ endpoint) options in
    let o := server (issued (log w)) req in
    match o with
    | NetworkFailure e => (Throw e, reported w req o e)
    | Responded r =>
        match payload r with
        | NotJson detail => (Throw (SyntaxError detail), reported w req o (SyntaxError detail))
        | Json data =>
            if ok r then (Return data, sent w req o)
            else
              match get_prop data "message" with
              | inl e => (Throw e, reported w req o e)
              | inr message =>
                  let e := Error (ToString (or_else message (VString "API request failed"))) in
                  (Throw e, reported w req o e)
              end
        end
    end.
Proof.
  unfold request, try_catch. unfold bind at 1. rewrite fetch_run. cbv zeta.
  destruct (server (issued (log w)) (fetch_init (API_BASE_URL +:+ endpoint) options))
    as [e|r].
  - unfold bind, console_error, emit, throw, reported, sent. cbn [session storage log].
    rewrite <- app_assoc. reflexivity.
  - unfold bind at 1. unfold json, lift_sum.
    destruct (payload r) as [detail|data].
    + unfold bind, console_error, emit, throw, reported, sent. cbn [session storage log].
      rewrite <- app_assoc. reflexivity.
    + unfold ret at 1. cbv beta iota.
      destruct (ok r); cbn [negb].
      * reflexivity.
      * unfold bind at 1.
        destruct (get_prop data "message") as [e|message];
          unfold bind, console_error, emit, throw, ret, reported, sent;
          cbn [session storage log]; rewrite <- app_assoc; reflexivity.
Qed.

Lemma invoke_request c :
  invoke server c = request server (fst (request_args c)) (snd (request_args c)).
Proof. destruct c; reflexivity. Qed.

(** Every operation, in one equation. *)
Lemma invoke_run c w :
  invoke server c w =
    let o := server (issued (log w)) (wire c) in
    match o with
    | NetworkFailure e => (Throw e, reported w (wire c) o e)
    | Responded r =>
        match payload r with
        | NotJson detail =>
            (Throw (SyntaxError detail), reported w (wire c) o (SyntaxError detail))
        | Json data =>
            if ok r then (Return data, sent w (wire c) o)
            else
              match get_prop data "message" with
              | inl e => (Throw e, reported w (wire c) o e)
              | inr message =>
                  let e := Error (ToString (or_else message (VString "API request failed"))) in
                  (Throw e, reported w (wire c) o e)
              end
        end
    end.
Proof. rewrite invoke_request, request_run. reflexivity. Qed.

End WithServer.

Lemma issued_app (l1 l2 : list Event) : issued (l1 ++ l2) = issued l1 ++ issued l2.
Proof. apply omap_app. Qed.

(** Any operation issues exactly one request. *)
Lemma invoke_issues_one server c w :
  issued (log (snd (invoke server c w))) = issued (log w) ++ [wire c].
Proof.
  rewrite invoke_run. cbv zeta.
  destruct (server (issued (log w)) (wire c)) as [e|r].
  - cbn [snd reported log]. rewrite issued_app. reflexivity.
  - destruct (payload r) as [detail|data].
    + cbn [snd reported log]. rewrite issued_app. reflexivity.
    + destruct (ok r).
      * cbn [snd sent log]. rewrite issued_app. reflexivity.
      * destruct (get_prop data "message"); cbn [snd reported log];
          rewrite issued_app; reflexivity.
Qed.

(** *** Headers *)

Lemma headers_without_token :
  (∅ ∪ getAuthHeaders None : gmap string string) = {["Content-Type" := "application/json"]}.
Proof. unfold getAuthHeaders. apply (left_id_L ∅ (∪)). Qed.

Lemma headers_with_token t :
  (getAuthHeaders (Some t) ∪ getAuthHeaders None) !! "Content-Type" = Some "application/json" /\
  (getAuthHeaders (Some t) ∪ getAuthHeaders None) !! "Authorization"
    = if truthy_string t then Some ("Bearer " +:+ t) else None.
Proof.
  unfold getAuthHeaders. destruct (truthy_string t).
  - split.
    + apply lookup_union_Some_l. rewrite lookup_insert_ne by discriminate.
      apply lookup_singleton_eq.
    + apply lookup_union_Some_l. apply lookup_insert_eq.
  - split.
    + apply lookup_union_Some_l. apply lookup_singleton_eq.
    + apply lookup_union_None. split; apply lookup_singleton_ne; discriminate.
Qed.

Lemma wire_headers c :
  headers (wire c) =
    match call_token c with
    | Some t => getAuthHeaders (Some t) ∪ getAuthHeaders None
    | None => ∅ ∪ getAuthHeaders None
    end.
Proof. destruct c; reflexivity. Qed.

(** *** Query strings *)

Lemma collect_fold (entries : Params) (acc : URLSearchParams) :
  fold_left
    (fun (searchParams : URLSearchParams) kv =>
       match snd kv with
       | Some value => searchParams ++ [(fst kv, param_toString value)]
       | None => searchParams
       end) entries acc
  = acc ++ omap defined_pair entries.
Proof.
  revert acc. induction entries as [|[k [v|]] entries IH]; intros acc; cbn.
  - rewrite app_nil_r. reflexivity.
  - rewrite IH, <- app_assoc. reflexivity.
  - apply IH.
Qed.

Lemma collect_params_omap params :
  collect_params params = omap defined_pair (default [] params).
Proof. destruct params as [entries|]; [apply collect_fold | reflexivity]. Qed.

Lemma searchParams_toString_truthy (sp : URLSearchParams) :
  truthy_string (searchParams_toString sp) = match sp with [] => false | _ => true end.
Proof.
  destruct sp as [|[k v] sp]; [reflexivity|].
  unfold searchParams_toString. cbn [map String.concat fst snd].
  destruct (map _ sp).
  - apply truthy_string_app_r. reflexivity.
  - rewrite <- JSONFacts.append_assoc3.
    destruct (urlencode k +:+ "=" +:+ urlencode v) eqn:E; [|reflexivity].
    assert (H : truthy_string (urlencode k +:+ "=" +:+ urlencode v) = true)
      by (apply truthy_string_app_r; reflexivity).
    rewrite E in H. discriminate.
Qed.

Lemma with_query_eq path params :
  with_query path params =
    path +:+ match collect_params params with
             | [] => ""
             | _ :: _ => "?" +:+ searchParams_toString (collect_params params)
             end.
Proof.
  unfold with_query. rewrite searchParams_toString_truthy.
  destruct (collect_params params); reflexivity.
Qed.

Lemma list_call_url op token params :
  url (wire (list_call op token params)) = API_BASE_URL +:+ with_query (list_path op) params.
Proof. destruct op; reflexivity. Qed.

Lemma list_call_token op token params :
  call_token (list_call op token params) = if takes_token op then Some token else None.
Proof. destruct op; reflexivity. Qed.

End ApiFacts.

(** ** The claims about the session store and the route guard *)

(** C1. The guard decides in a fixed order.  While [isLoading] is on it
    renders the loading indicator and no redirect, whatever [user] and
    [isAdmin] are; otherwise, with no [user], it redirects to [/login]
    (replacing history), for both flavours; otherwise, on an admin-only
    route without [isAdmin], it redirects to [/dashboard] (replacing
    history); otherwise it renders its children unchanged. *)
Theorem ProtectedRoute_cases (View : Type) (children : View)
    (adminOnly : option bool) (auth : Session) :
  (isLoading auth = true ->
     App.ProtectedRoute children adminOnly auth = App.LoadingIndicator /\
     forall to replace, App.ProtectedRoute children adminOnly auth <> App.NavigateTo to replace) /\
  (isLoading auth = false -> user auth = None ->
     App.ProtectedRoute children adminOnly auth = App.NavigateTo "/login" true) /\
  (isLoading auth = false -> user auth <> None ->
     adminOnly = Some true -> isAdmin auth = false ->
     App.ProtectedRoute children adminOnly auth = App.NavigateTo "/dashboard" true) /\
  (isLoading auth = false -> user auth <> None ->
     (adminOnly = Some true -> isAdmin auth = true) ->
     App.ProtectedRoute children adminOnly auth = App.Children children).
Proof.
  unfold App.ProtectedRoute.
  destruct auth as [[u|] adm tk [|]]; cbn; repeat split; try congruence;
    try (intros; discriminate).
  - intros _ _ -> ->. reflexivity.
  - intros _ _ H. destruct adminOnly as [[|]|]; cbn; try reflexivity.
    rewrite H; reflexivity.
Qed.

Lemma ProtectedRoute_cases_witness :
  App.ProtectedRoute "AdminLayout" (Some true) (mkSession (Some Sample.alice) true None true)
    = App.LoadingIndicator /\
  App.ProtectedRoute "Dashboard" None (mkSession None false None false)
    = App.NavigateTo "/login" true /\
  App.ProtectedRoute "AdminLayout" (Some true) (mkSession None false None false)
    = App.NavigateTo "/login" true /\
  App.ProtectedRoute "AdminLayout" (Some true)
      (mkSession (Some Sample.alice) false (Some "tok") false)
    = App.NavigateTo "/dashboard" true /\
  App.ProtectedRoute "Dashboard" None (mkSession (Some Sample.alice) false (Some "tok") false)
    = App.Children "Dashboard".
Proof.
  refine (conj _ (conj _ (conj _ (conj _ _)))).
  - apply (proj1 (ProtectedRoute_cases string "AdminLayout" (Some true)
                    (mkSession (Some Sample.alice) true None true))). reflexivity.
  - apply (proj1 (proj2 (ProtectedRoute_cases string "Dashboard" None
                    (mkSession None false None false)))); reflexivity.
  - apply (proj1 (proj2 (ProtectedRoute_cases string "AdminLayout" (Some true)
                    (mkSession None false None false)))); reflexivity.
  - apply (proj1 (proj2 (proj2 (ProtectedRoute_cases string "AdminLayout" (Some true)
                    (mkSession (Some Sample.alice) false (Some "tok") false)))));
      [reflexivity | discriminate | reflexivity | reflexivity].
  - apply (proj2 (proj2 (proj2 (ProtectedRoute_cases string "Dashboard" None
                    (mkSession (Some Sample.alice) false (Some "tok") false)))));
      [reflexivity | discriminate | discriminate].
Defined.

(** Why the round trip below asks for a token that is not empty: [login]
    would store the empty string, and the effect's test
    [storedToken && storedUser] takes it for an absent token, so the
    reloaded session is empty.  The empty string is what the effect, and
    every view's [if (!token)], reads as "no token". *)
Lemma login_empty_token_lost_on_reload :
  let logged := after (AuthContext.login "" Sample.alice None) Sample.mounted in
  let reloaded := snd (AuthContext.mount JSON.parse_user (storage logged)) in
  session logged = mkSession (Some Sample.alice) false (Some "") false /\
  session reloaded = mkSession None false None false /\
  session reloaded <> session logged.
Proof.
  vm_compute. split; [reflexivity | split; [reflexivity | discriminate]].
Qed.

(** C2.  For every well-formed triple (a token that is a non-empty string,
    a user record, an admin flag or none, which stands for [false]),
    [login] followed by a fresh mount over the storage that [login] wrote
    gives a session with the same token, the same user and the same flag as
    the one [login] produced, with loading finished.  [JSON.parse] is
    assumed to read back what [JSON.stringify] wrote for this user. *)
Theorem login_then_reload_restores
    (JSON_parse : string -> JsError + option User)
    (newToken : string) (newUser : User) (adminStatus : option bool) (w : World) :
  newToken <> "" ->
  JSON_parse (JSON.stringify_user newUser) = inr (Some newUser) ->
  let logged := after (AuthContext.login newToken newUser adminStatus) w in
  let reloaded := AuthContext.mount JSON_parse (storage logged) in
  fst reloaded = Return tt /\
  token (session logged) = Some newToken /\
  user (session logged) = Some newUser /\
  isAdmin (session logged) = default false adminStatus /\
  token (session (snd reloaded)) = token (session logged) /\
  user (session (snd reloaded)) = user (session logged) /\
  isAdmin (session (snd reloaded)) = isAdmin (session logged) /\
  isLoading (session (snd reloaded)) = false /\
  (isLoading (session w) = false -> session (snd reloaded) = session logged).
Proof.
  intros Htok Hparse logged reloaded. subst logged reloaded.
  unfold after. rewrite AuthFacts.login_run. cbn [snd session storage].
  rewrite AuthFacts.mount_run, AuthFacts.initialize_run. cbn [session storage log].
  rewrite lookup_insert_ne by discriminate.
  rewrite lookup_insert_ne by discriminate.
  rewrite lookup_insert_eq.
  rewrite lookup_insert_ne by discriminate.
  rewrite lookup_insert_eq.
  rewrite lookup_insert_eq.
  apply truthy_string_true in Htok. rewrite Htok, JSONFacts.stringify_user_truthy.
  cbn [andb]. rewrite Hparse.
  assert (Hadm : AuthContext.is_true_text
                   (Some (if default false adminStatus then "true" else "false"))
                 = default false adminStatus).
  { destruct (default false adminStatus); reflexivity. }
  rewrite Hadm. cbn [fst snd session user isAdmin token isLoading].
  repeat (split; [reflexivity|]).
  intros ->. reflexivity.
Qed.

Lemma login_then_reload_restores_witness :
  let logged := after (AuthContext.login "tok" Sample.alice None) Sample.mounted in
  let reloaded := AuthContext.mount JSON.parse_user (storage logged) in
  session (snd reloaded) = session logged /\
  session logged = mkSession (Some Sample.alice) false (Some "tok") false.
Proof.
  split; [|reflexivity].
  apply (login_then_reload_restores JSON.parse_user "tok" Sample.alice None Sample.mounted);
    [discriminate | reflexivity | reflexivity].
Defined.

(** C3.  In every state reached from the first run by initialize, login,
    logout (and reload), in any order and number, [token] and [user] are
    both present or both absent, and [isAdmin] is [false] when [user] is
    absent.  [JSON.parse] is assumed to read back what [JSON.stringify]
    wrote for user records. *)
Theorem session_consistent_in_every_run
    (JSON_parse : string -> JsError + option User) (ops : list AuthContext.Op) :
  (forall u, JSON_parse (JSON.stringify_user u) = inr (Some u)) ->
  let s := session (AuthContext.run JSON_parse ops) in
  (token s = None <-> user s = None) /\ (user s = None -> isAdmin s = false).
Proof.
  intros Hparse.
  exact (proj1 (AuthFacts.Inv_fold JSON_parse Hparse ops AuthContext.first_run
                  AuthFacts.Inv_first_run)).
Qed.

Lemma session_consistent_in_every_run_witness :
  let s := session (AuthContext.run JSON.parse_user
                      [AuthContext.Login "tok" Sample.alice (Some true); AuthContext.Reload;
                       AuthContext.Logout; AuthContext.Initialize;
                       AuthContext.Login "" Sample.alice None; AuthContext.Reload]) in
  (token s = None <-> user s = None) /\ (user s = None -> isAdmin s = false).
Proof.
  apply (session_consistent_in_every_run JSON.parse_user).
  exact JSONFacts.parse_user_stringify.
Defined.

(** C5.  [login] followed by [logout] leaves no trace: [token] and [user]
    are [null], [isAdmin] is [false], none of the three storage keys is
    set, every other key and [isLoading] are as before; from the mounted
    first-run state the world is that state again. *)
Theorem login_then_logout_is_empty
    (newToken : string) (newUser : User) (adminStatus : option bool) (w : World) :
  let w' := after AuthContext.logout (after (AuthContext.login newToken newUser adminStatus) w) in
  session w' = mkSession None false None (isLoading (session w)) /\
  storage w' !! "token" = None /\
  storage w' !! "user" = None /\
  storage w' !! "isAdmin" = None /\
  (forall k, k <> "token" -> k <> "user" -> k <> "isAdmin" -> storage w' !! k = storage w !! k) /\
  (session w = AuthContext.empty_session -> storage w = ∅ ->
   session w' = session w /\ storage w' = storage w).
Proof.
  intros w'. subst w'. unfold after.
  rewrite AuthFacts.login_run. cbn [snd].
  rewrite AuthFacts.logout_run. cbn [snd session storage isLoading].
  assert (Hkeys : forall k,
            delete "isAdmin" (delete "user" (delete "token"
              (<["isAdmin" := if default false adminStatus then "true" else "false"]>
                 (<["user" := JSON.stringify_user newUser]>
                    (<["token" := newToken]> (storage w)))))) !! k
            = if bool_decide (k = "token" \/ k = "user" \/ k = "isAdmin")
              then None else storage w !! k).
  { intros k. rewrite !lookup_delete, !lookup_insert.
    repeat case_decide; try reflexivity; try (exfalso; intuition congruence). }
  split; [reflexivity|].
  split; [rewrite Hkeys; reflexivity|].
  split; [rewrite Hkeys; reflexivity|].
  split; [rewrite Hkeys; reflexivity|].
  split.
  - intros k H1 H2 H3. rewrite Hkeys. case_bool_decide; [intuition congruence | reflexivity].
  - intros Hs Hst. split.
    + rewrite Hs. reflexivity.
    + apply map_eq. intros k. rewrite Hkeys, Hst, lookup_empty.
      case_bool_decide; reflexivity.
Qed.

Lemma login_then_logout_is_empty_witness :
  let w' := after AuthContext.logout
              (after (AuthContext.login "tok" Sample.alice (Some true)) Sample.mounted) in
  session w' = session Sample.mounted /\ storage w' = storage Sample.mounted.
Proof.
  apply (login_then_logout_is_empty "tok" Sample.alice (Some true) Sample.mounted);
    reflexivity.
Defined.

(** C7, as stated, fails when the stored [user] text is not JSON:
    [JSON.parse] throws inside the effect, after [setToken], and
    [setIsLoading(false)] is never reached. *)
Lemma initialize_stops_at_damaged_user :
  let r := AuthContext.mount JSON.parse_user Sample.damaged_storage in
  fst r = Throw (SyntaxError "Unexpected token in JSON") /\
  isLoading (session (snd r)) = true /\
  filter AuthContext.is_loading_done (log (snd r)) = [] /\
  log (snd r) = [SetToken (Some "tok")].
Proof.
  vm_compute. repeat split.
Qed.

(** C7 (amended).  For every content of the three storage keys on which
    [JSON.parse] does not throw (it is only called when [token] and [user]
    are both non-empty), the effect returns, its last action is
    [setIsLoading(false)], and that is the only such call. *)
Theorem initialize_finishes_loading_once
    (JSON_parse : string -> JsError + option User) (st : gmap string string) :
  AuthContext.readable JSON_parse st = true ->
  let r := AuthContext.mount JSON_parse st in
  fst r = Return tt /\
  isLoading (session (snd r)) = false /\
  (exists before, log (snd r) = before ++ [SetIsLoading false] /\
                  filter AuthContext.is_loading_done before = []) /\
  length (filter AuthContext.is_loading_done (log (snd r))) = 1%nat.
Proof.
  intros Hread r. subst r.
  rewrite AuthFacts.mount_run, AuthFacts.initialize_run.
  unfold AuthContext.readable in Hread. cbn [storage session log].
  assert (Hskip :
    let r := AuthContext.skipped (mkWorld AuthContext.initial_session st []) in
    fst r = Return tt /\
    isLoading (session (snd r)) = false /\
    (exists before, log (snd r) = before ++ [SetIsLoading false] /\
                    filter AuthContext.is_loading_done before = []) /\
    length (filter AuthContext.is_loading_done (log (snd r))) = 1%nat).
  { cbn. repeat split. exists []. split; reflexivity. }
  destruct (st !! "token") as [tk|]; [|exact Hskip].
  destruct (st !! "user") as [us|]; [|exact Hskip].
  destruct (truthy_string tk && truthy_string us); [|exact Hskip].
  destruct (JSON_parse us) as [e|parsed]; [discriminate|].
  cbn. repeat split.
  exists [SetToken (Some tk); SetUser parsed;
          SetIsAdmin (AuthContext.is_true_text (st !! "isAdmin"))].
  split; reflexivity.
Qed.

Lemma initialize_finishes_loading_once_witness :
  let r := AuthContext.mount JSON.parse_user
             (storage (after (AuthContext.login "tok" Sample.alice None) Sample.mounted)) in
  fst r = Return tt /\
  isLoading (session (snd r)) = false /\
  (exists before, log (snd r) = before ++ [SetIsLoading false] /\
                  filter AuthContext.is_loading_done before = []) /\
  length (filter AuthContext.is_loading_done (log (snd r))) = 1%nat.
Proof.
  apply (initialize_finishes_loading_once JSON.parse_user). vm_compute. reflexivity.
Defined.

(** ** The claims about the API client *)

(** C4, as stated, fails in two places.  A [message] that is the empty
    string is falsy, so [data.message || 'API request failed'] yields the
    fallback and not the message; and the body [null] is JSON without a
    [message] field, but reading [data.message] raises a [TypeError]. *)
Lemma empty_message_gives_fallback :
  let r := mkResponse 400 (Json Sample.empty_message) in
  ok r = false /\
  get_prop Sample.empty_message "message" = inr (VString "") /\
  outcome (ApiClient.registerUser (Sample.answer 400 (Json Sample.empty_message))
             Sample.alice_registration) Sample.mounted
    = Throw (Error "API request failed") /\
  outcome (ApiClient.registerUser (Sample.answer 400 (Json VNull))
             Sample.alice_registration) Sample.mounted
    = Throw (TypeError "Cannot read properties of null (reading 'message')").
Proof.
  vm_compute. repeat split.
Qed.

(** C4 (amended).  For every operation and every non-2xx response with a
    JSON body: if the body's [message] is a non-empty string [X], the
    client raises an [Error] whose message is exactly [X]; if the body is
    not [null] and its [message] is missing or falsy, it raises an [Error]
    with the message ['API request failed']; and if [fetch] itself fails,
    the client raises that failure. *)
Theorem non_2xx_raises_server_message
    (server : list Request -> Request -> FetchOutcome) (c : ApiClient.Call) (w : World) :
  (forall r data X,
     server (ApiClient.issued (log w)) (ApiClient.wire c) = Responded r ->
     ok r = false -> payload r = Json data ->
     get_prop data "message" = inr (VString X) -> X <> "" ->
     outcome (ApiClient.invoke server c) w = Throw (Error X)) /\
  (forall r data message,
     server (ApiClient.issued (log w)) (ApiClient.wire c) = Responded r ->
     ok r = false -> payload r = Json data ->
     get_prop data "message" = inr message -> truthy message = false ->
     outcome (ApiClient.invoke server c) w = Throw (Error "API request failed")) /\
  (forall r fields,
     server (ApiClient.issued (log w)) (ApiClient.wire c) = Responded r ->
     ok r = false -> payload r = Json (VObject fields) ->
     lookup_field "message" fields = None ->
     outcome (ApiClient.invoke server c) w = Throw (Error "API request failed")) /\
  (forall e,
     server (ApiClient.issued (log w)) (ApiClient.wire c) = NetworkFailure e ->
     outcome (ApiClient.invoke server c) w = Throw e).
Proof.
  unfold outcome. rewrite ApiFacts.invoke_run. cbv zeta.
  refine (conj _ (conj _ (conj _ _))).
  - intros r data X -> Hok -> -> HX. rewrite Hok. cbn.
    apply truthy_string_true in HX. unfold or_else. cbn [truthy]. rewrite HX. reflexivity.
  - intros r data message -> Hok -> -> Hm. rewrite Hok. cbn.
    unfold or_else. rewrite Hm. reflexivity.
  - intros r fields -> Hok -> Hf. rewrite Hok. cbn. rewrite Hf. reflexivity.
  - intros e ->. reflexivity.
Qed.

Lemma non_2xx_raises_server_message_witness :
  outcome (ApiClient.invoke (Sample.answer 409 (Json Sample.email_taken))
             (ApiClient.CallRegisterUser Sample.alice_registration)) Sample.mounted
    = Throw (Error "Email already registered") /\
  outcome (ApiClient.invoke (Sample.answer 500 (Json Sample.no_message))
             (ApiClient.CallGetArticleById "A1")) Sample.mounted
    = Throw (Error "API request failed") /\
  outcome (ApiClient.invoke Sample.unreachable (ApiClient.CallGetAdminDashboard "tok"))
      Sample.mounted
    = Throw (TypeError "Failed to fetch").
Proof.
  refine (conj _ (conj _ _)).
  - apply (proj1 (non_2xx_raises_server_message
                    (Sample.answer 409 (Json Sample.email_taken))
                    (ApiClient.CallRegisterUser Sample.alice_registration) Sample.mounted)
             (mkResponse 409 (Json Sample.email_taken)) Sample.email_taken);
      [reflexivity | reflexivity | reflexivity | reflexivity | discriminate].
  - apply (proj1 (proj2 (proj2 (non_2xx_raises_server_message
                    (Sample.answer 500 (Json Sample.no_message))
                    (ApiClient.CallGetArticleById "A1") Sample.mounted)))
             (mkResponse 500 (Json Sample.no_message))
             [("success", VBool false)]); reflexivity.
  - apply (proj2 (proj2 (proj2 (non_2xx_raises_server_message Sample.unreachable
                    (ApiClient.CallGetAdminDashboard "tok") Sample.mounted))));
      reflexivity.
Defined.

(** C10.  [request] reads the body as JSON before it looks at the status:
    for every operation and every response, of any status, whose body is
    not JSON, the error raised is the parse failure, so neither a server
    message nor the fallback message is produced. *)
Theorem non_json_body_raises_parse_failure
    (server : list Request -> Request -> FetchOutcome) (c : ApiClient.Call) (w : World)
    (r : Response) (detail : string) :
  server (ApiClient.issued (log w)) (ApiClient.wire c) = Responded r ->
  payload r = NotJson detail ->
  outcome (ApiClient.invoke server c) w = Throw (SyntaxError detail) /\
  (forall message, outcome (ApiClient.invoke server c) w <> Throw (Error message)) /\
  log (after (ApiClient.invoke server c) w)
    = log w ++ [Fetch (ApiClient.wire c); Settled (ApiClient.wire c) (Responded r);
                ConsoleError "API request error:" (SyntaxError detail)].
Proof.
  intros Hs Hp. unfold outcome, after. rewrite ApiFacts.invoke_run. cbv zeta.
  rewrite Hs, Hp. cbn [fst snd]. refine (conj _ (conj _ _)).
  - reflexivity.
  - intros message H. inversion H.
  - reflexivity.
Qed.

Lemma non_json_body_raises_parse_failure_witness :
  outcome (ApiClient.invoke (Sample.answer 502 (NotJson "Unexpected token < in JSON at position 0"))
             (ApiClient.CallLoginUser (ApiClient.mkCredentials "a@x.com" "p1")))
      Sample.mounted
    = Throw (SyntaxError "Unexpected token < in JSON at position 0") /\
  outcome (ApiClient.invoke (Sample.answer 200 (NotJson "Unexpected end of JSON input"))
             (ApiClient.CallGetAllArticles None))
      Sample.mounted
    = Throw (SyntaxError "Unexpected end of JSON input").
Proof.
  split.
  - apply (non_json_body_raises_parse_failure
             (Sample.answer 502 (NotJson "Unexpected token < in JSON at position 0"))
             (ApiClient.CallLoginUser (ApiClient.mkCredentials "a@x.com" "p1"))
             Sample.mounted
             (mkResponse 502 (NotJson "Unexpected token < in JSON at position 0")));
      reflexivity.
  - apply (non_json_body_raises_parse_failure
             (Sample.answer 200 (NotJson "Unexpected end of JSON input"))
             (ApiClient.CallGetAllArticles None) Sample.mounted
             (mkResponse 200 (NotJson "Unexpected end of JSON input")));
      reflexivity.
Defined.

(** What "a token was supplied" means to the client: [getAuthHeaders]
    tests [if (token)], so the empty string counts as no token, and the
    request goes out without an [Authorization] header.  Every caller
    returns before the call when its token is empty. *)
Lemma empty_token_sends_no_authorization :
  let c := ApiClient.list_call ApiClient.GetUserArticles "" (Some Sample.page_two) in
  ApiClient.call_token c = Some "" /\
  headers (ApiClient.wire c) !! "Authorization" = None /\
  ApiClient.issued (log (after (ApiClient.invoke Sample.unreachable c) Sample.mounted))
    = [ApiClient.wire c].
Proof.
  vm_compute. repeat split.
Qed.

(** C9.  A list operation issues exactly one request.  Its query
    string is built from the entries of the options object whose value is
    defined, in order, each with the text of its value; an [undefined]
    property contributes nothing; without such entries there is no ['?'].
    Every request of every operation carries [Content-Type:
    application/json] and carries [Authorization: Bearer <token>] exactly
    when a token was supplied, that is, when the operation was passed a
    token that [if (token)] accepts (a non-empty string). *)
Theorem list_request_query_and_headers
    (server : list Request -> Request -> FetchOutcome)
    (op : ApiClient.ListOp) (token : string) (params : option ApiClient.Params) (w : World) :
  let c := ApiClient.list_call op token params in
  let req := ApiClient.wire c in
  let entries := default [] params in
  let searchParams := ApiClient.collect_params params in
  ApiClient.issued (log (after (ApiClient.invoke server c) w))
    = ApiClient.issued (log w) ++ [req] /\
  searchParams = omap ApiClient.defined_pair entries /\
  (forall key, key ∈ fst <$> searchParams <-> exists value, (key, Some value) ∈ entries) /\
  (forall key text,
     (key, text) ∈ searchParams <->
     exists value, (key, Some value) ∈ entries /\ text = ApiClient.param_toString value) /\
  url req = ApiClient.API_BASE_URL +:+ ApiClient.list_path op +:+
              match searchParams with
              | [] => ""
              | _ :: _ => "?" +:+ ApiClient.searchParams_toString searchParams
              end /\
  headers req !! "Content-Type" = Some "application/json" /\
  headers req !! "Authorization"
    = (if ApiClient.takes_token op && truthy_string token
       then Some ("Bearer " +:+ token) else None) /\
  (forall c' : ApiClient.Call,
     headers (ApiClient.wire c') !! "Content-Type" = Some "application/json" /\
     headers (ApiClient.wire c') !! "Authorization"
       = match ApiClient.call_token c' with
         | Some t => if truthy_string t then Some ("Bearer " +:+ t) else None
         | None => None
         end).
Proof.
  intros c req entries searchParams. subst c req entries searchParams.
  assert (Hpairs : forall key text,
            (key, text) ∈ ApiClient.collect_params params <->
            exists value, (key, Some value) ∈ default [] params /\
                          text = ApiClient.param_toString value).
  { intros key text. rewrite ApiFacts.collect_params_omap, list_elem_of_omap. split.
    - intros [[k [v|]] [Hin Hdef]]; cbn in Hdef; [|discriminate].
      inversion Hdef; subst. eauto.
    - intros (value & Hin & ->). exists (key, Some value). split; [exact Hin | reflexivity]. }
  assert (Hall : forall c' : ApiClient.Call,
     headers (ApiClient.wire c') !! "Content-Type" = Some "application/json" /\
     headers (ApiClient.wire c') !! "Authorization"
       = match ApiClient.call_token c' with
         | Some t => if truthy_string t then Some ("Bearer " +:+ t) else None
         | None => None
         end).
  { intros c'. rewrite ApiFacts.wire_headers.
    destruct (ApiClient.call_token c') as [t|].
    - apply ApiFacts.headers_with_token.
    - rewrite ApiFacts.headers_without_token. split.
      + apply lookup_singleton_eq.
      + apply lookup_singleton_ne. discriminate. }
  refine (conj _ (conj _ (conj _ (conj _ (conj _ (conj _ (conj _ _))))))).
  - unfold after. apply ApiFacts.invoke_issues_one.
  - apply ApiFacts.collect_params_omap.
  - intros key. rewrite list_elem_of_fmap. split.
    + intros [[k text] [-> Hin]]. apply Hpairs in Hin as (value & Hin & _). eauto.
    + intros [value Hin]. exists (key, ApiClient.param_toString value).
      split; [reflexivity|]. apply Hpairs. eauto.
  - exact Hpairs.
  - rewrite ApiFacts.list_call_url, ApiFacts.with_query_eq. reflexivity.
  - apply Hall.
  - rewrite (proj2 (Hall _)), ApiFacts.list_call_token.
    destruct (ApiClient.takes_token op); reflexivity.
  - exact Hall.
Qed.

Lemma list_request_query_and_headers_witness :
  let req := ApiClient.wire
               (ApiClient.list_call ApiClient.GetAllArticlesAdmin "tok" (Some Sample.page_two)) in
  url req = "https://backend-articel-project.vercel.app/api/admin/articles?page=2&search=coq+%26+rocq" /\
  headers req !! "Content-Type" = Some "application/json" /\
  headers req !! "Authorization" = Some "Bearer tok".
Proof.
  pose proof (list_request_query_and_headers Sample.unreachable ApiClient.GetAllArticlesAdmin
                "tok" (Some Sample.page_two) Sample.mounted) as H.
  cbv zeta in H. destruct H as (_ & _ & _ & _ & Hurl & Hct & Hauth & _).
  refine (conj _ (conj Hct Hauth)).
  rewrite Hurl. reflexivity.
Defined.

(** ** The views step by step *)

Module ViewFacts.

Lemma emit_run ev w :
  emit ev w = (Return tt, mkWorld (session w) (storage w) (log w ++ [ev])).
Proof. reflexivity. Qed.

Lemma handleSubmit_mismatch server formData activeTab w :
  String.eqb (Register.password formData) (Register.confirmPassword formData) = false ->
  Register.handleSubmit server formData activeTab w =
    (Return tt,
     mkWorld (session w) (storage w)
       (log w ++ [PreventDefault;
                  Toast (mkToast "Password mismatch" "Please ensure both passwords match."
                           (Some "destructive"))])).
Proof.
  intros Hne. unfold Register.handleSubmit. rewrite Hne. cbn [negb].
  unfold bind, preventDefault, toast. rewrite !emit_run. cbn [session storage log].
  rewrite <- app_assoc. reflexivity.
Qed.

Ltac crunch :=
  cbv [bind try_catch finally not_awaited console_error toast setLocal emit throw ret
       lift_sum ApiClient.sent ApiClient.reported fst snd session storage log].

Ltac split_cases :=
  repeat (match goal with
          | |- context [match get_prop ?d ?k with _ => _ end] =>
              destruct (get_prop d k)
          | |- context [if truthy ?x then _ else _] => destruct (truthy x)
          end; crunch).

Ltac close_log :=
  eexists; split;
  [ rewrite <- ?app_assoc; cbn [app]; reflexivity | reflexivity ].

Section WithServer.
Variable server : list Request -> Request -> FetchOutcome.

(** A refetch issues one request and nothing else that reaches the
    network, and always returns. *)
Lemma fetchArticles_log tk w :
  truthy_string tk = true ->
  let req := ApiClient.wire (ApiClient.CallGetAllArticlesAdmin tk Sample.limit_50) in
  let o := server (ApiClient.issued (log w)) req in
  exists tail,
    AdminArticles.fetchArticles server (Some tk) w =
      (Return tt,
       mkWorld (session w) (storage w) (log w ++ [Fetch req; Settled req o] ++ tail)) /\
    ApiClient.issued tail = [].
Proof.
  intros Htk req o. unfold AdminArticles.fetchArticles. rewrite Htk. cbn [negb].
  change (ApiClient.getAllArticlesAdmin server tk
            (Some [("limit", Some (ApiClient.PNumber 50))]))
    with (ApiClient.invoke server (ApiClient.CallGetAllArticlesAdmin tk Sample.limit_50)).
  unfold finally, try_catch. unfold bind at 1. rewrite ApiFacts.invoke_run. cbv zeta.
  fold req. fold o. clearbody o. clearbody req.
  destruct o as [e|r]; [crunch; close_log|].
  destruct (payload r) as [detail|data]; [crunch; close_log|].
  destruct (ok r); crunch; split_cases; close_log.
Qed.

Lemma fetchPendingArticles_log tk w :
  truthy_string tk = true ->
  let req := ApiClient.wire (ApiClient.CallGetPendingArticles tk Sample.limit_50) in
  let o := server (ApiClient.issued (log w)) req in
  exists tail,
    AdminPending.fetchPendingArticles server (Some tk) w =
      (Return tt,
       mkWorld (session w) (storage w) (log w ++ [Fetch req; Settled req o] ++ tail)) /\
    ApiClient.issued tail = [].
Proof.
  intros Htk req o. unfold AdminPending.fetchPendingArticles. rewrite Htk. cbn [negb].
  change (ApiClient.getPendingArticles server tk
            (Some [("limit", Some (ApiClient.PNumber 50))]))
    with (ApiClient.invoke server (ApiClient.CallGetPendingArticles tk Sample.limit_50)).
  unfold finally, try_catch. unfold bind at 1. rewrite ApiFacts.invoke_run. cbv zeta.
  fold req. fold o. clearbody o. clearbody req.
  destruct o as [e|r]; [crunch; close_log|].
  destruct (payload r) as [detail|data]; [crunch; close_log|].
  destruct (ok r); crunch; split_cases; close_log.
Qed.

(** A successful approve, then the refetch. *)
Lemma handleApprove_articles_ok tk articleId w r data :
  truthy_string tk = true ->
  let approve := ApiClient.wire (ApiClient.CallApproveArticle articleId tk) in
  let refetch := ApiClient.wire (ApiClient.CallGetAllArticlesAdmin tk Sample.limit_50) in
  server (ApiClient.issued (log w)) approve = Responded r ->
  ok r = true -> payload r = Json data ->
  exists tail,
    AdminArticles.handleApproveArticle server (Some tk) articleId w =
      (Return tt,
       mkWorld (session w) (storage w)
         (log w ++ [Fetch approve; Settled approve (Responded r); Sample.approved_toast;
                    Fetch refetch;
                    Settled refetch (server (ApiClient.issued (log w) ++ [approve]) refetch)]
                ++ tail)) /\
    ApiClient.issued tail = [].
Proof.
  intros Htk approve refetch Hs Hok Hp.
  unfold AdminArticles.handleApproveArticle. rewrite Htk. cbn [negb].
  change (ApiClient.approveArticle server articleId tk)
    with (ApiClient.invoke server (ApiClient.CallApproveArticle articleId tk)).
  unfold try_catch. unfold bind at 1. rewrite ApiFacts.invoke_run. cbv zeta.
  fold approve. rewrite Hs, Hp, Hok.
  unfold bind at 1. unfold toast at 1. rewrite emit_run.
  unfold not_awaited.
  match goal with
  | |- context [AdminArticles.fetchArticles server (Some tk) ?W] =>
      destruct (fetchArticles_log tk W Htk) as (tail & Heq & Htail); rewrite Heq
  end.
  exists tail. split; [|exact Htail].
  cbn [ApiClient.sent session storage log]. fold refetch.
  rewrite !ApiFacts.issued_app. cbn [ApiClient.issued omap app].
  rewrite app_nil_r. rewrite <- !app_assoc. reflexivity.
Qed.

Lemma handleApprove_pending_ok tk articleId w r data :
  truthy_string tk = true ->
  let approve := ApiClient.wire (ApiClient.CallApproveArticle articleId tk) in
  let refetch := ApiClient.wire (ApiClient.CallGetPendingArticles tk Sample.limit_50) in
  server (ApiClient.issued (log w)) approve = Responded r ->
  ok r = true -> payload r = Json data ->
  exists tail,
    AdminPending.handleApproveArticle server (Some tk) articleId w =
      (Return tt,
       mkWorld (session w) (storage w)
         (log w ++ [Fetch approve; Settled approve (Responded r); Sample.approved_toast;
                    Fetch refetch;
                    Settled refetch (server (ApiClient.issued (log w) ++ [approve]) refetch)]
                ++ tail)) /\
    ApiClient.issued tail = [].
Proof.
  intros Htk approve refetch Hs Hok Hp.
  unfold AdminPending.handleApproveArticle. rewrite Htk. cbn [negb].
  change (ApiClient.approveArticle server articleId tk)
    with (ApiClient.invoke server (ApiClient.CallApproveArticle articleId tk)).
  unfold try_catch. unfold bind at 1. rewrite ApiFacts.invoke_run. cbv zeta.
  fold approve. rewrite Hs, Hp, Hok.
  unfold bind at 1. unfold toast at 1. rewrite emit_run.
  unfold not_awaited.
  match goal with
  | |- context [AdminPending.fetchPendingArticles server (Some tk) ?W] =>
      destruct (fetchPendingArticles_log tk W Htk) as (tail & Heq & Htail); rewrite Heq
  end.
  exists tail. split; [|exact Htail].
  cbn [ApiClient.sent session storage log]. fold refetch.
  rewrite !ApiFacts.issued_app. cbn [ApiClient.issued omap app].
  rewrite app_nil_r. rewrite <- !app_assoc. reflexivity.
Qed.

End WithServer.

End ViewFacts.

(** ** The claims about the views *)

(** C8.  When the two password fields differ, submitting the form issues
    no request, shows the "Password mismatch" toast, and leaves session and
    storage as they were. *)
Theorem mismatched_passwords_stay_local
    (server : list Request -> Request -> FetchOutcome)
    (formData : Register.FormData) (activeTab : string) (w : World) :
  Register.password formData <> Register.confirmPassword formData ->
  let r := Register.handleSubmit server formData activeTab w in
  fst r = Return tt /\
  log (snd r)
    = log w ++ [PreventDefault;
                Toast (mkToast "Password mismatch" "Please ensure both passwords match."
                         (Some "destructive"))] /\
  ApiClient.issued (log (snd r)) = ApiClient.issued (log w) /\
  session (snd r) = session w /\
  storage (snd r) = storage w.
Proof.
  intros Hne r. subst r. apply String.eqb_neq in Hne.
  rewrite (ViewFacts.handleSubmit_mismatch server formData activeTab w Hne).
  cbn [fst snd session storage log].
  refine (conj eq_refl (conj eq_refl (conj _ (conj eq_refl eq_refl)))).
  rewrite ApiFacts.issued_app. cbn. apply app_nil_r.
Qed.

Lemma mismatched_passwords_stay_local_witness :
  let r := Register.handleSubmit Sample.unreachable Sample.mismatched "user" Sample.mounted in
  fst r = Return tt /\
  ApiClient.issued (log (snd r)) = [] /\
  session (snd r) = session Sample.mounted /\
  storage (snd r) = storage Sample.mounted.
Proof.
  pose proof (mismatched_passwords_stay_local Sample.unreachable Sample.mismatched "user"
                Sample.mounted) as H.
  cbv zeta in H. destruct H as (Hret & _ & Hreq & Hses & Hsto); [discriminate|].
  exact (conj Hret (conj Hreq (conj Hses Hsto))).
Defined.

(** C6, as stated, fails when the approve request fails: the handler
    catches the error, shows it, and issues no refetch. *)
Lemma failed_approve_is_not_refetched :
  let server := Sample.answer 500 (Json Sample.no_message) in
  let approve := ApiClient.wire (ApiClient.CallApproveArticle "A1" "tok") in
  ApiClient.issued
    (log (after (AdminArticles.handleApproveArticle server (Some "tok") "A1") Sample.mounted))
    = [approve] /\
  ApiClient.issued
    (log (after (AdminPending.handleApproveArticle server (Some "tok") "A1") Sample.mounted))
    = [approve].
Proof.
  vm_compute. split; reflexivity.
Qed.

(** C6 (amended).  When an authenticated admin (a non-empty token) approves
    article [A1] and the approve request succeeds, the handler issues
    exactly two requests: the approve request for [A1], and then, after that
    request has settled, one refetch of the list the view shows.  Nothing
    else in the handler reaches the network. *)
Theorem approve_then_refetch
    (server : list Request -> Request -> FetchOutcome)
    (tk articleId : string) (w : World) (r : Response) (data : JSValue) :
  tk <> "" ->
  let approve := ApiClient.wire (ApiClient.CallApproveArticle articleId tk) in
  let refetch_all := ApiClient.wire (ApiClient.CallGetAllArticlesAdmin tk Sample.limit_50) in
  let refetch_pending := ApiClient.wire (ApiClient.CallGetPendingArticles tk Sample.limit_50) in
  server (ApiClient.issued (log w)) approve = Responded r ->
  ok r = true -> payload r = Json data ->
  let in_articles := after (AdminArticles.handleApproveArticle server (Some tk) articleId) w in
  let in_pending := after (AdminPending.handleApproveArticle server (Some tk) articleId) w in
  ApiClient.issued (log in_articles) = ApiClient.issued (log w) ++ [approve; refetch_all] /\
  (exists o tail,
     log in_articles
       = log w ++ [Fetch approve; Settled approve (Responded r); Sample.approved_toast;
                   Fetch refetch_all; Settled refetch_all o] ++ tail /\
     ApiClient.issued tail = []) /\
  ApiClient.issued (log in_pending) = ApiClient.issued (log w) ++ [approve; refetch_pending] /\
  (exists o tail,
     log in_pending
       = log w ++ [Fetch approve; Settled approve (Responded r); Sample.approved_toast;
                   Fetch refetch_pending; Settled refetch_pending o] ++ tail /\
     ApiClient.issued tail = []).
Proof.
  intros Htk approve refetch_all refetch_pending Hs Hok Hp in_articles in_pending.
  apply truthy_string_true in Htk.
  destruct (ViewFacts.handleApprove_articles_ok server tk articleId w r data Htk Hs Hok Hp)
    as (tail1 & Heq1 & Htail1).
  destruct (ViewFacts.handleApprove_pending_ok server tk articleId w r data Htk Hs Hok Hp)
    as (tail2 & Heq2 & Htail2).
  subst in_articles in_pending. unfold after. rewrite Heq1, Heq2. cbn [snd log].
  fold approve refetch_all refetch_pending.
  refine (conj _ (conj _ (conj _ _))).
  - rewrite !ApiFacts.issued_app, Htail1. unfold Sample.approved_toast.
    cbn [ApiClient.issued omap app]. rewrite ?app_nil_r. reflexivity.
  - eexists _, tail1. split; [reflexivity | exact Htail1].
  - rewrite !ApiFacts.issued_app, Htail2. unfold Sample.approved_toast.
    cbn [ApiClient.issued omap app]. rewrite ?app_nil_r. reflexivity.
  - eexists _, tail2. split; [reflexivity | exact Htail2].
Qed.

Lemma approve_then_refetch_witness :
  let server := Sample.answer 200 (Json Sample.article_list) in
  ApiClient.issued
    (log (after (AdminArticles.handleApproveArticle server (Some "tok") "A1") Sample.mounted))
    = [ApiClient.wire (ApiClient.CallApproveArticle "A1" "tok");
       ApiClient.wire (ApiClient.CallGetAllArticlesAdmin "tok" Sample.limit_50)] /\
  ApiClient.issued
    (log (after (AdminPending.handleApproveArticle server (Some "tok") "A1") Sample.mounted))
    = [ApiClient.wire (ApiClient.CallApproveArticle "A1" "tok");
       ApiClient.wire (ApiClient.CallGetPendingArticles "tok" Sample.limit_50)].
Proof.
  pose proof (approve_then_refetch (Sample.answer 200 (Json Sample.article_list))
                "tok" "A1" Sample.mounted
                (mkResponse 200 (Json Sample.article_list)) Sample.article_list) as H.
  cbv zeta in H.
  destruct H as (H1 & _ & H2 & _); [discriminate | reflexivity | reflexivity | reflexivity |].
  exact (conj H1 H2).
Defined.

(** ** More about the session store *)

Module StoreFacts.
Import AuthContext.

Lemma cleared_lookup (st : gmap string string) k :
  delete "isAdmin" (delete "user" (delete "token" st)) !! k
  = if bool_decide (k = "token" \/ k = "user" \/ k = "isAdmin") then None else st !! k.
Proof.
  rewrite !lookup_delete.
  repeat case_decide; try reflexivity; try (exfalso; intuition congruence).
Qed.

Lemma written_lookup (st : gmap string string) (t us a : string) k :
  <["isAdmin" := a]> (<["user" := us]> (<["token" := t]> st)) !! k
  = if bool_decide (k = "isAdmin") then Some a
    else if bool_decide (k = "user") then Some us
    else if bool_decide (k = "token") then Some t
    else st !! k.
Proof.
  rewrite !lookup_insert.
  repeat case_decide; repeat case_bool_decide; try reflexivity; congruence.
Qed.

End StoreFacts.

(** [logout] is idempotent on the state: a second [logout] changes neither
    the session nor the storage. *)
Theorem logout_twice (w : World) :
  session (after AuthContext.logout (after AuthContext.logout w))
    = session (after AuthContext.logout w) /\
  storage (after AuthContext.logout (after AuthContext.logout w))
    = storage (after AuthContext.logout w).
Proof.
  unfold after. rewrite !AuthFacts.logout_run. cbn [snd session storage isLoading].
  split; [reflexivity|].
  apply map_eq. intros k. rewrite !StoreFacts.cleared_lookup.
  case_bool_decide; reflexivity.
Qed.

(** The last [login] wins: after two logins the session and the storage are
    those of the second one alone. *)
Theorem last_login_wins (t1 t2 : string) (u1 u2 : User) (a1 a2 : option bool) (w : World) :
  session (after (AuthContext.login t2 u2 a2) (after (AuthContext.login t1 u1 a1) w))
    = session (after (AuthContext.login t2 u2 a2) w) /\
  storage (after (AuthContext.login t2 u2 a2) (after (AuthContext.login t1 u1 a1) w))
    = storage (after (AuthContext.login t2 u2 a2) w).
Proof.
  unfold after. rewrite !AuthFacts.login_run. cbn [snd session storage isLoading].
  split; [reflexivity|].
  apply map_eq. intros k. rewrite !StoreFacts.written_lookup.
  repeat case_bool_decide; reflexivity.
Qed.

(** A logout survives a reload: mounting over the storage that [logout]
    left gives the empty session, whatever was stored before and whatever
    [JSON.parse] does. *)
Theorem logout_survives_reload
    (JSON_parse : string -> JsError + option User) (w : World) :
  let r := AuthContext.mount JSON_parse (storage (after AuthContext.logout w)) in
  fst r = Return tt /\
  session (snd r) = AuthContext.empty_session /\
  log (snd r) = [SetIsLoading false].
Proof.
  intros r. subst r. unfold after. rewrite AuthFacts.logout_run. cbn [snd storage].
  rewrite AuthFacts.mount_run, AuthFacts.initialize_run. cbn [storage].
  rewrite !StoreFacts.cleared_lookup.
  rewrite bool_decide_eq_true_2 by (left; reflexivity).
  refine (conj eq_refl (conj eq_refl eq_refl)).
Qed.

(** The mount effect only reads the storage: in every case, also when
    [JSON.parse] throws, the storage is as before and no write is logged. *)
Theorem initialize_never_writes
    (JSON_parse : string -> JsError + option User) (w : World) :
  storage (after (AuthContext.initialize JSON_parse) w) = storage w /\
  exists new,
    log (after (AuthContext.initialize JSON_parse) w) = log w ++ new /\
    filter AuthContext.is_storage_write new = [].
Proof.
  unfold after. rewrite AuthFacts.initialize_run.
  assert (Hskip : storage (snd (AuthContext.skipped w)) = storage w /\
                  exists new, log (snd (AuthContext.skipped w)) = log w ++ new /\
                              filter AuthContext.is_storage_write new = []).
  { split; [reflexivity|]. eexists. split; reflexivity. }
  destruct (storage w !! "token") as [tk|]; [|exact Hskip].
  destruct (storage w !! "user") as [us|]; [|exact Hskip].
  destruct (truthy_string tk && truthy_string us); [|exact Hskip].
  destruct (JSON_parse us) as [e|parsed]; cbn [snd storage log];
    (split; [reflexivity|]); eexists; split; reflexivity.
Qed.

Module RuntimeFacts.

Lemma guard_erase {View} (children : View) adminOnly (s : Session) :
  Runtime.ProtectedRoute children adminOnly (Runtime.erase s)
  = App.ProtectedRoute children adminOnly s.
Proof.
  unfold Runtime.ProtectedRoute, App.ProtectedRoute, Runtime.erase.
  cbn [Runtime.isLoading Runtime.user Runtime.isAdmin].
  destruct (isLoading s); [reflexivity|].
  destruct (user s); reflexivity.
Qed.

(** Over a storage whose user text denotes a user record or [null], the
    typed store is the run-time store. *)
Lemma mount_erase typed JSON_parse st :
  (forall us, st !! "user" = Some us -> Runtime.reads_as typed JSON_parse us) ->
  snd (Runtime.mount JSON_parse st) = Runtime.erase (session (snd (AuthContext.mount typed st))) /\
  (fst (Runtime.mount JSON_parse st) = None <-> fst (AuthContext.mount typed st) = Return tt).
Proof.
  intros Hreads.
  rewrite AuthFacts.mount_run, AuthFacts.initialize_run. cbn [storage session log].
  unfold Runtime.mount, Runtime.initialize, AuthContext.skipped.
  destruct (st !! "token") as [tk|]; [|split; [reflexivity | split; reflexivity]].
  destruct (st !! "user") as [us|]; [|split; [reflexivity | split; reflexivity]].
  destruct (truthy_string tk && truthy_string us);
    [|split; [reflexivity | split; reflexivity]].
  rewrite (Hreads us eq_refl).
  destruct (typed us) as [e|parsed]; cbn [fst snd session].
  - split; [reflexivity | split; discriminate].
  - split; [reflexivity | split; reflexivity].
Qed.

(** So it is over the storage that a login leaves. *)
Lemma mount_erase_after_login :
  let st := storage (after (AuthContext.login "tok" Sample.alice (Some true)) Sample.mounted) in
  snd (Runtime.mount Sample.parse_value st)
  = Runtime.erase (session (snd (AuthContext.mount JSON.parse_user st))).
Proof.
  apply (mount_erase JSON.parse_user Sample.parse_value
           (storage (after (AuthContext.login "tok" Sample.alice (Some true)) Sample.mounted))).
  intros us Hus. vm_compute in Hus. inversion Hus; subst us. reflexivity.
Qed.

End RuntimeFacts.

(** After a mount the guard lets a route render exactly on the strength of
    what the storage holds: a non-empty token, a non-empty user text that
    [JSON.parse] reads as a truthy value, whether a user record or not, and
    for an admin-only route also the text [true] under [isAdmin].  An
    [isAdmin] key alone opens nothing, and neither does a user text that is
    not JSON or that denotes [null], [false], [0] or the empty string. *)
Theorem guard_opens_on_stored_token_and_truthy_user
    (JSON_parse : string -> JsError + JSValue) (st : gmap string string)
    (View : Type) (children : View) (adminOnly : option bool) :
  Runtime.ProtectedRoute children adminOnly (snd (Runtime.mount JSON_parse st))
    = App.Children children
  <->
  exists tk us parsed,
    st !! "token" = Some tk /\ tk <> "" /\
    st !! "user" = Some us /\ us <> "" /\
    JSON_parse us = inr parsed /\ truthy parsed = true /\
    (default false adminOnly = true -> st !! "isAdmin" = Some "true").
Proof.
  unfold Runtime.mount, Runtime.initialize.
  assert (Hskip : forall c : Runtime.Cells,
            Runtime.user c = VNull ->
            Runtime.ProtectedRoute children adminOnly (Runtime.setIsLoading false c)
            <> App.Children children).
  { intros c Hc. unfold Runtime.ProtectedRoute, Runtime.setIsLoading.
    cbn [Runtime.isLoading Runtime.user]. rewrite Hc. cbn. discriminate. }
  split.
  - destruct (st !! "token") as [tk|] eqn:Etk;
      [|intros H; destruct (Hskip Runtime.initial_cells eq_refl H)].
    destruct (st !! "user") as [us|] eqn:Eus;
      [|intros H; destruct (Hskip Runtime.initial_cells eq_refl H)].
    destruct (truthy_string tk && truthy_string us) eqn:Etr;
      [|intros H; destruct (Hskip Runtime.initial_cells eq_refl H)].
    apply andb_true_iff in Etr as [Htk Hus].
    apply truthy_string_true in Htk. apply truthy_string_true in Hus.
    destruct (JSON_parse us) as [e|parsed] eqn:Eparse; cbn [snd].
    + cbn. discriminate.
    + unfold Runtime.ProtectedRoute, Runtime.setIsLoading, Runtime.setIsAdmin,
        Runtime.setUser, Runtime.setToken.
      cbn [Runtime.isLoading Runtime.user Runtime.isAdmin Runtime.token].
      destruct (truthy parsed) eqn:Etruthy; cbn [negb]; [|discriminate].
      intros H. exists tk, us, parsed.
      refine (conj eq_refl (conj Htk (conj eq_refl (conj Hus (conj Eparse (conj Etruthy _)))))).
      intros Hadm. rewrite Hadm in H. cbn [andb] in H.
      destruct (st !! "isAdmin") as [a|]; cbn in H; [|discriminate].
      destruct (String.eqb a "true") eqn:Ea; cbn in H; [|discriminate].
      apply String.eqb_eq in Ea. subst a. reflexivity.
  - intros (tk & us & parsed & -> & Htk & -> & Hus & Hparse & Htruthy & Hadm).
    apply truthy_string_true in Htk. apply truthy_string_true in Hus.
    rewrite Htk, Hus, Hparse. cbn [andb snd].
    unfold Runtime.ProtectedRoute, Runtime.setIsLoading, Runtime.setIsAdmin,
      Runtime.setUser, Runtime.setToken.
    cbn [Runtime.isLoading Runtime.user Runtime.isAdmin Runtime.token].
    rewrite Htruthy. cbn [negb].
    destruct (default false adminOnly); [|reflexivity].
    rewrite (Hadm eq_refl). reflexivity.
Qed.

(** A stored user text that denotes the number 1 opens every route that is
    not for admins only, and no admin-only route. *)
Lemma guard_opens_on_stored_token_and_truthy_user_witness :
  Runtime.ProtectedRoute "Dashboard" None
    (snd (Runtime.mount Sample.parse_value Sample.number_as_user))
    = App.Children "Dashboard" /\
  Runtime.ProtectedRoute "AdminLayout" (Some true)
    (snd (Runtime.mount Sample.parse_value Sample.number_as_user))
    = App.NavigateTo "/dashboard" true.
Proof.
  split; [|reflexivity].
  apply (guard_opens_on_stored_token_and_truthy_user Sample.parse_value
           Sample.number_as_user string "Dashboard" None).
  exists "tok", "1", (VNumber 1).
  refine (conj eq_refl (conj _ (conj eq_refl (conj _ (conj eq_refl (conj eq_refl _))))));
    discriminate.
Defined.

Module BackedFacts.
Import AuthContext.

Section Backed.

Variable JSON_parse : string -> JsError + option User.
Hypothesis parse_stringify : forall u, JSON_parse (JSON.stringify_user u) = inr (Some u).

Lemma backed_first_run : backed_by (storage first_run) (session first_run).
Proof. repeat split; cbn; intros; discriminate. Qed.

Lemma backed_initialize w :
  written_by_login (storage w) ->
  backed_by (storage w) (session w) ->
  backed_by (storage (after (initialize JSON_parse) w))
    (session (after (initialize JSON_parse) w)).
Proof.
  intros Hst (Ht & Hu & Ha). unfold after. rewrite AuthFacts.initialize_run.
  assert (Hskip : backed_by (storage (snd (skipped w))) (session (snd (skipped w)))).
  { repeat split; cbn; assumption. }
  destruct (storage w !! "token") as [tk|] eqn:Etk; [|exact Hskip].
  destruct (storage w !! "user") as [us|] eqn:Eus; [|exact Hskip].
  destruct (truthy_string tk && truthy_string us); [|exact Hskip].
  destruct (Hst us Eus) as [u ->]. rewrite parse_stringify.
  cbn [snd session storage]. repeat split; cbn.
  - intros t [= <-]. exact Etk.
  - intros u' [= <-]. exact Eus.
  - destruct (storage w !! "isAdmin") as [a|]; cbn; [|discriminate].
    intros Ea. apply String.eqb_eq in Ea. subst a. reflexivity.
Qed.

Lemma backed_exec w op :
  Inv w -> backed_by (storage w) (session w) ->
  backed_by (storage (exec JSON_parse w op)) (session (exec JSON_parse w op)).
Proof.
  intros [Hs Hst] Hb. destruct op as [|t u a| |]; unfold exec.
  - apply backed_initialize; assumption.
  - unfold after. rewrite AuthFacts.login_run. cbn [snd session storage].
    repeat split; cbn.
    + intros t' [= <-]. rewrite StoreFacts.written_lookup. reflexivity.
    + intros u' [= <-]. rewrite StoreFacts.written_lookup. reflexivity.
    + intros ->. rewrite StoreFacts.written_lookup. reflexivity.
  - unfold after. rewrite AuthFacts.logout_run. cbn [snd session storage].
    repeat split; cbn; intros; discriminate.
  - rewrite AuthFacts.mount_run.
    apply (backed_initialize (mkWorld initial_session (storage w) [])).
    + exact Hst.
    + repeat split; cbn; intros; discriminate.
Qed.

Lemma backed_fold ops w :
  Inv w -> backed_by (storage w) (session w) ->
  let w' := fold_left (exec JSON_parse) ops w in
  backed_by (storage w') (session w').
Proof.
  revert w. induction ops as [|op ops IH]; intros w Hi Hb; [exact Hb|].
  cbn. apply IH.
  - apply AuthFacts.Inv_exec; assumption.
  - apply backed_exec; assumption.
Qed.

End Backed.

End BackedFacts.

(** In every state reached from the first run by initialize, login, logout
    and reload, whatever the session shows is held by the storage: its
    token under [token], its user (as text) under [user], and an [isAdmin]
    flag that is on as the text [true]. *)
Theorem session_backed_by_storage
    (JSON_parse : string -> JsError + option User) (ops : list AuthContext.Op) :
  (forall u, JSON_parse (JSON.stringify_user u) = inr (Some u)) ->
  let w := AuthContext.run JSON_parse ops in
  (forall t, token (session w) = Some t -> storage w !! "token" = Some t) /\
  (forall u, user (session w) = Some u ->
             storage w !! "user" = Some (JSON.stringify_user u)) /\
  (isAdmin (session w) = true -> storage w !! "isAdmin" = Some "true").
Proof.
  intros Hparse.
  exact (BackedFacts.backed_fold JSON_parse Hparse ops AuthContext.first_run
           AuthFacts.Inv_first_run BackedFacts.backed_first_run).
Qed.

Lemma session_backed_by_storage_witness :
  let w := AuthContext.run JSON.parse_user
             [AuthContext.Login "tok" Sample.alice (Some true); AuthContext.Reload;
              AuthContext.Initialize] in
  (forall t, token (session w) = Some t -> storage w !! "token" = Some t) /\
  (forall u, user (session w) = Some u ->
             storage w !! "user" = Some (JSON.stringify_user u)) /\
  (isAdmin (session w) = true -> storage w !! "isAdmin" = Some "true").
Proof.
  apply (session_backed_by_storage JSON.parse_user).
  exact JSONFacts.parse_user_stringify.
Defined.

(** ** More about the API client *)

(** On a 2xx response with a JSON body every operation returns the body as
    it is, whatever it says (a [success: false] or a [message] in it are
    the caller's business), logs nothing to the console and leaves session
    and storage alone. *)
Theorem success_returns_body_verbatim
    (server : list Request -> Request -> FetchOutcome) (c : ApiClient.Call) (w : World)
    (r : Response) (data : JSValue) :
  server (ApiClient.issued (log w)) (ApiClient.wire c) = Responded r ->
  ok r = true -> payload r = Json data ->
  ApiClient.invoke server c w =
    (Return data,
     mkWorld (session w) (storage w)
       (log w ++ [Fetch (ApiClient.wire c); Settled (ApiClient.wire c) (Responded r)])).
Proof.
  intros Hs Hok Hp. rewrite ApiFacts.invoke_run. cbv zeta. rewrite Hs, Hp, Hok. reflexivity.
Qed.

Lemma success_returns_body_verbatim_witness :
  outcome (ApiClient.invoke (Sample.answer 200 (Json Sample.no_message))
             (ApiClient.CallGetArticleById "A1")) Sample.mounted
    = Return Sample.no_message.
Proof.
  unfold outcome.
  rewrite (success_returns_body_verbatim (Sample.answer 200 (Json Sample.no_message))
             (ApiClient.CallGetArticleById "A1") Sample.mounted
             (mkResponse 200 (Json Sample.no_message)) Sample.no_message);
    reflexivity.
Defined.

(** The client is stateless and single-shot: whatever the server does,
    every operation issues exactly one request (no retry), leaves session
    and storage untouched, and when it throws it has written exactly that
    error to the console, once, after the request settled. *)
Theorem every_call_is_single_shot
    (server : list Request -> Request -> FetchOutcome) (c : ApiClient.Call) (w : World) :
  let r := ApiClient.invoke server c w in
  session (snd r) = session w /\
  storage (snd r) = storage w /\
  ApiClient.issued (log (snd r)) = ApiClient.issued (log w) ++ [ApiClient.wire c] /\
  fst r <> Unmodelled /\
  (forall data, fst r = Return data ->
     exists o, log (snd r) = log w ++ [Fetch (ApiClient.wire c); Settled (ApiClient.wire c) o]) /\
  (forall e, fst r = Throw e ->
     exists o, log (snd r) = log w ++ [Fetch (ApiClient.wire c); Settled (ApiClient.wire c) o;
                                       ConsoleError "API request error:" e]).
Proof.
  intros r. subst r.
  refine (conj _ (conj _ (conj (ApiFacts.invoke_issues_one server c w) _))).
  1, 2: rewrite ApiFacts.invoke_run; cbv zeta;
    destruct (server (ApiClient.issued (log w)) (ApiClient.wire c)) as [e|r];
    [reflexivity|]; destruct (payload r); [reflexivity|];
    destruct (ok r); [reflexivity|]; destruct (get_prop _ _); reflexivity.
  rewrite ApiFacts.invoke_run. cbv zeta.
  destruct (server (ApiClient.issued (log w)) (ApiClient.wire c)) as [e|r].
  - cbn [fst snd]. refine (conj _ (conj _ _)); [discriminate | discriminate |].
    intros e' [= <-]. eexists. reflexivity.
  - destruct (payload r) as [detail|data].
    + cbn [fst snd]. refine (conj _ (conj _ _)); [discriminate | discriminate |].
      intros e' [= <-]. eexists. reflexivity.
    + destruct (ok r).
      * cbn [fst snd]. refine (conj _ (conj _ _)); [discriminate | | discriminate].
        intros d _. eexists. reflexivity.
      * destruct (get_prop data "message") as [e|m]; cbn [fst snd];
          (refine (conj _ (conj _ _)); [discriminate | discriminate |]);
          intros e' [= <-]; eexists; reflexivity.
Qed.

(** A non-2xx response whose JSON body is [null] makes every operation
    raise the [TypeError] of reading [data.message], not an [Error] with
    the server's or the fallback message. *)
Theorem null_body_raises_type_error
    (server : list Request -> Request -> FetchOutcome) (c : ApiClient.Call) (w : World)
    (r : Response) :
  server (ApiClient.issued (log w)) (ApiClient.wire c) = Responded r ->
  ok r = false -> payload r = Json VNull ->
  outcome (ApiClient.invoke server c) w
    = Throw (TypeError "Cannot read properties of null (reading 'message')").
Proof.
  intros Hs Hok Hp. unfold outcome. rewrite ApiFacts.invoke_run. cbv zeta.
  rewrite Hs, Hp, Hok. reflexivity.
Qed.

Lemma null_body_raises_type_error_witness :
  outcome (ApiClient.invoke (Sample.answer 500 (Json VNull))
             (ApiClient.CallDeleteArticle "A1" "tok")) Sample.mounted
    = Throw (TypeError "Cannot read properties of null (reading 'message')").
Proof.
  apply (null_body_raises_type_error (Sample.answer 500 (Json VNull))
           (ApiClient.CallDeleteArticle "A1" "tok") Sample.mounted
           (mkResponse 500 (Json VNull))); reflexivity.
Defined.

(** A list operation called without options, with an empty options object
    or with options that are all [undefined] issues one and the same
    request, whose URL has no ['?']. *)
Theorem undefined_options_are_no_options
    (op : ApiClient.ListOp) (token : string) (params : option ApiClient.Params) :
  (forall kv, kv ∈ default [] params -> snd kv = None) ->
  ApiClient.wire (ApiClient.list_call op token params)
    = ApiClient.wire (ApiClient.list_call op token None) /\
  url (ApiClient.wire (ApiClient.list_call op token params))
    = ApiClient.API_BASE_URL +:+ ApiClient.list_path op.
Proof.
  intros Hall.
  assert (Hnone : ApiClient.collect_params params = []).
  { rewrite ApiFacts.collect_params_omap.
    induction (default [] params) as [|[k v] l IH]; [reflexivity|].
    pose proof (Hall (k, v) (list_elem_of_here _ _)) as Hv. cbn in Hv. subst v.
    cbn. apply IH. intros kv Hin. apply Hall. apply list_elem_of_further. exact Hin. }
  assert (Hq : forall path, ApiClient.with_query path params = path).
  { intros path. rewrite ApiFacts.with_query_eq, Hnone.
    induction path as [|x path IH]; [reflexivity|].
    rewrite JSONFacts.append_cons, IH. reflexivity. }
  assert (Hq0 : forall path, ApiClient.with_query path None = path).
  { intros path. rewrite ApiFacts.with_query_eq. cbn [ApiClient.collect_params].
    induction path as [|x path IH]; [reflexivity|].
    rewrite JSONFacts.append_cons, IH. reflexivity. }
  split.
  - destruct op; unfold ApiClient.wire, ApiClient.list_call, ApiClient.request_args;
      cbn [fst snd]; rewrite Hq, Hq0; reflexivity.
  - rewrite ApiFacts.list_call_url, Hq. reflexivity.
Qed.

Lemma undefined_options_are_no_options_witness :
  ApiClient.wire (ApiClient.list_call ApiClient.GetAllUsers "tok"
                    (Some [("page", None); ("search", None)]))
    = ApiClient.wire (ApiClient.list_call ApiClient.GetAllUsers "tok" None).
Proof.
  apply (undefined_options_are_no_options ApiClient.GetAllUsers "tok"
           (Some [("page", None); ("search", None)])).
  intros kv Hin. cbn in Hin.
  repeat (apply elem_of_cons in Hin as [->|Hin]; [reflexivity|]).
  apply elem_of_nil in Hin. destruct Hin.
Defined.

Module QueryFacts.
Import ApiClient.

Lemma count_char_app c (a b : string) :
  count_char c (a +:+ b) = (count_char c a + count_char c b)%nat.
Proof.
  induction a as [|x a IH]; [reflexivity|].
  rewrite JSONFacts.append_cons. cbn [count_char]. rewrite IH. lia.
Qed.

(** No encoded byte is one of the characters that structure a URL's
    query. *)
Lemma urlencode_byte_clean x :
  count_char "&" (urlencode_byte x) = 0%nat /\
  count_char "=" (urlencode_byte x) = 0%nat /\
  count_char "?" (urlencode_byte x) = 0%nat /\
  count_char "#" (urlencode_byte x) = 0%nat /\
  count_char " " (urlencode_byte x) = 0%nat.
Proof. destruct x as [[] [] [] [] [] [] [] []]; repeat split. Qed.

Lemma urlencode_clean s :
  count_char "&" (urlencode s) = 0%nat /\
  count_char "=" (urlencode s) = 0%nat /\
  count_char "?" (urlencode s) = 0%nat /\
  count_char "#" (urlencode s) = 0%nat /\
  count_char " " (urlencode s) = 0%nat.
Proof.
  induction s as [|x s (H1 & H2 & H3 & H4 & H5)]; [repeat split|].
  destruct (urlencode_byte_clean x) as (B1 & B2 & B3 & B4 & B5).
  cbn [urlencode]. rewrite !count_char_app, H1, H2, H3, H4, H5, B1, B2, B3, B4, B5.
  repeat split.
Qed.

Lemma segment_counts kv :
  count_char "&" (segment kv) = 0%nat /\
  count_char "=" (segment kv) = 1%nat /\
  count_char "?" (segment kv) = 0%nat /\
  count_char "#" (segment kv) = 0%nat /\
  count_char " " (segment kv) = 0%nat.
Proof.
  unfold segment.
  destruct (urlencode_clean (fst kv)) as (A1 & A2 & A3 & A4 & A5).
  destruct (urlencode_clean (snd kv)) as (B1 & B2 & B3 & B4 & B5).
  rewrite !count_char_app, A1, A2, A3, A4, A5, B1, B2, B3, B4, B5.
  repeat split.
Qed.

Lemma concat_cons2 sep (x y : string) l :
  String.concat sep (x :: y :: l) = x +:+ sep +:+ String.concat sep (y :: l).
Proof. reflexivity. Qed.

Lemma toString_counts (sp : URLSearchParams) :
  count_char "&" (searchParams_toString sp) = (length sp - 1)%nat /\
  count_char "=" (searchParams_toString sp) = length sp /\
  count_char "?" (searchParams_toString sp) = 0%nat /\
  count_char "#" (searchParams_toString sp) = 0%nat /\
  count_char " " (searchParams_toString sp) = 0%nat.
Proof.
  unfold searchParams_toString.
  change (fun kv : string * string => urlencode (fst kv) +:+ "=" +:+ urlencode (snd kv))
    with segment.
  induction sp as [|kv sp IH]; [repeat split|].
  destruct (segment_counts kv) as (S1 & S2 & S3 & S4 & S5).
  destruct sp as [|kv' sp].
  - cbn [map String.concat length]. rewrite S1, S2, S3, S4, S5. repeat split.
  - destruct IH as (I1 & I2 & I3 & I4 & I5).
    cbn [map] in *. rewrite concat_cons2, !count_char_app.
    rewrite S1, S2, S3, S4, S5, I1, I2, I3, I4, I5. cbn [count_char length]. cbn.
    repeat split; lia.
Qed.

End QueryFacts.

(** Keys and values cannot break the query string apart: however they are
    spelled, the serialized parameters hold exactly one ['='] per entry and
    one ['&'] between two entries, and no ['?'], ['#'] or space. *)
Theorem query_string_is_well_delimited (params : option ApiClient.Params) :
  let searchParams := ApiClient.collect_params params in
  let queryString := ApiClient.searchParams_toString searchParams in
  ApiClient.count_char "=" queryString = length searchParams /\
  ApiClient.count_char "&" queryString = (length searchParams - 1)%nat /\
  ApiClient.count_char "?" queryString = 0%nat /\
  ApiClient.count_char "#" queryString = 0%nat /\
  ApiClient.count_char " " queryString = 0%nat.
Proof.
  intros searchParams queryString. subst queryString.
  destruct (QueryFacts.toString_counts searchParams) as (H1 & H2 & H3 & H4 & H5).
  repeat split; assumption.
Qed.

(** ** More about the admin views *)

Module ModerationFacts.

Ltac close_log_last :=
  eexists; split;
  [ rewrite <- ?app_assoc; cbn [app]; reflexivity | split; reflexivity ].

Lemma invoke_keeps_state server c w :
  session (snd (ApiClient.invoke server c w)) = session w /\
  storage (snd (ApiClient.invoke server c w)) = storage w /\
  fst (ApiClient.invoke server c w) <> Unmodelled.
Proof.
  rewrite ApiFacts.invoke_run. cbv zeta.
  destruct (server (ApiClient.issued (log w)) (ApiClient.wire c)) as [e|r];
    [repeat split; discriminate|].
  destruct (payload r); [repeat split; discriminate|].
  destruct (ok r); [repeat split; discriminate|].
  destruct (get_prop _ _); repeat split; discriminate.
Qed.

Section WithServer.
Variable server : list Request -> Request -> FetchOutcome.

(** A refetch ends by clearing the view's loading flag, in every case. *)
Lemma fetchArticles_ends tk w :
  truthy_string tk = true ->
  let req := ApiClient.wire (ApiClient.CallGetAllArticlesAdmin tk Sample.limit_50) in
  let o := server (ApiClient.issued (log w)) req in
  exists tail,
    AdminArticles.fetchArticles server (Some tk) w =
      (Return tt,
       mkWorld (session w) (storage w) (log w ++ [Fetch req; Settled req o] ++ tail)) /\
    ApiClient.issued tail = [] /\
    last tail = Some (SetLocal "isLoading" (VBool false)).
Proof.
  intros Htk req o. unfold AdminArticles.fetchArticles. rewrite Htk. cbn [negb].
  change (ApiClient.getAllArticlesAdmin server tk
            (Some [("limit", Some (ApiClient.PNumber 50))]))
    with (ApiClient.invoke server (ApiClient.CallGetAllArticlesAdmin tk Sample.limit_50)).
  unfold finally, try_catch. unfold bind at 1. rewrite ApiFacts.invoke_run. cbv zeta.
  fold req. fold o. clearbody o. clearbody req.
  destruct o as [e|r]; [ViewFacts.crunch; close_log_last|].
  destruct (payload r) as [detail|data]; [ViewFacts.crunch; close_log_last|].
  destruct (ok r); ViewFacts.crunch; ViewFacts.split_cases; close_log_last.
Qed.

Lemma fetchPendingArticles_ends tk w :
  truthy_string tk = true ->
  let req := ApiClient.wire (ApiClient.CallGetPendingArticles tk Sample.limit_50) in
  let o := server (ApiClient.issued (log w)) req in
  exists tail,
    AdminPending.fetchPendingArticles server (Some tk) w =
      (Return tt,
       mkWorld (session w) (storage w) (log w ++ [Fetch req; Settled req o] ++ tail)) /\
    ApiClient.issued tail = [] /\
    last tail = Some (SetLocal "isLoading" (VBool false)).
Proof.
  intros Htk req o. unfold AdminPending.fetchPendingArticles. rewrite Htk. cbn [negb].
  change (ApiClient.getPendingArticles server tk
            (Some [("limit", Some (ApiClient.PNumber 50))]))
    with (ApiClient.invoke server (ApiClient.CallGetPendingArticles tk Sample.limit_50)).
  unfold finally, try_catch. unfold bind at 1. rewrite ApiFacts.invoke_run. cbv zeta.
  fold req. fold o. clearbody o. clearbody req.
  destruct o as [e|r]; [ViewFacts.crunch; close_log_last|].
  destruct (payload r) as [detail|data]; [ViewFacts.crunch; close_log_last|].
  destruct (ok r); ViewFacts.crunch; ViewFacts.split_cases; close_log_last.
Qed.

(** The shape shared by the handlers: await the mutation, show a toast,
    start the refetch; on any error show a toast instead. *)
Lemma mutate_ok (mut : M JSValue) c shown (refetch : M unit) handler w r data :
  mut = ApiClient.invoke server c ->
  server (ApiClient.issued (log w)) (ApiClient.wire c) = Responded r ->
  ok r = true -> payload r = Json data ->
  try_catch (mut ;; toast shown ;; not_awaited refetch) handler w =
    not_awaited refetch
      (mkWorld (session w) (storage w)
         (log w ++ [Fetch (ApiClient.wire c); Settled (ApiClient.wire c) (Responded r);
                    Toast shown])).
Proof.
  intros -> Hs Hok Hp. unfold try_catch. unfold bind at 1.
  rewrite ApiFacts.invoke_run. cbv zeta. rewrite Hs, Hp, Hok.
  unfold bind at 1. unfold toast. rewrite ViewFacts.emit_run.
  cbn [ApiClient.sent session storage log]. rewrite <- app_assoc. cbn [app].
  unfold not_awaited. destruct (refetch _) as [[a|e|] w']; reflexivity.
Qed.

Lemma mutate_fail (mut : M JSValue) c shown (refetch : M unit) handler w e :
  mut = ApiClient.invoke server c ->
  fst (ApiClient.invoke server c w) = Throw e ->
  try_catch (mut ;; toast shown ;; not_awaited refetch) handler w =
    handler e (snd (ApiClient.invoke server c w)).
Proof.
  intros -> He. unfold try_catch. unfold bind at 1.
  destruct (ApiClient.invoke server c w) as [o w']. cbn in He. subst o. reflexivity.
Qed.

Lemma handle_ok m tk articleId w r data :
  truthy_string tk = true ->
  AdminArticles.confirmed_by_user m = true ->
  let mut := ApiClient.wire (AdminArticles.mutation m articleId tk) in
  let refetch := ApiClient.wire (ApiClient.CallGetAllArticlesAdmin tk Sample.limit_50) in
  server (ApiClient.issued (log w)) mut = Responded r ->
  ok r = true -> payload r = Json data ->
  exists shown o tail,
    AdminArticles.handle server m (Some tk) articleId w =
      (Return tt,
       mkWorld (session w) (storage w)
         (log w ++ [Fetch mut; Settled mut (Responded r); Toast shown;
                    Fetch refetch; Settled refetch o] ++ tail)) /\
    ApiClient.issued tail = [].
Proof.
  intros Htk Hgo mut refetch Hs Hok Hp. subst mut refetch.
  destruct m as [|reason|confirmed reason|confirmed]; cbn in Hgo; subst;
    unfold AdminArticles.handle, AdminArticles.handleApproveArticle,
      AdminArticles.handleRejectArticle, AdminArticles.handleUnpublishArticle,
      AdminArticles.handleDeleteArticle;
    rewrite Htk; cbn [negb orb];
    match type of Hs with
    | server _ (ApiClient.wire ?c) = _ =>
        rewrite (mutate_ok _ c _ _ _ w r data eq_refl Hs Hok Hp)
    end;
    unfold not_awaited;
    match goal with
    | |- context [AdminArticles.fetchArticles server (Some tk) ?W] =>
        destruct (fetchArticles_ends tk W Htk) as (tail & Heq & Htail & _); rewrite Heq
    end;
    eexists _, _, tail; (split; [|exact Htail]);
    cbn [session storage log]; rewrite <- !app_assoc; reflexivity.
Qed.

Lemma handle_fail m tk articleId w e :
  truthy_string tk = true ->
  AdminArticles.confirmed_by_user m = true ->
  let c := AdminArticles.mutation m articleId tk in
  fst (ApiClient.invoke server c w) = Throw e ->
  AdminArticles.handle server m (Some tk) articleId w =
    (Return tt,
     mkWorld (session w) (storage w)
       (log (snd (ApiClient.invoke server c w)) ++
        [Toast (mkToast (AdminArticles.failure_title m)
                  (string_or_else (err_message e) "Please try again.")
                  (Some "destructive"))])).
Proof.
  intros Htk Hgo c He. subst c.
  destruct (invoke_keeps_state server (AdminArticles.mutation m articleId tk) w)
    as (Hses & Hsto & _).
  destruct m as [|reason|confirmed reason|confirmed]; cbn in Hgo; subst;
    unfold AdminArticles.handle, AdminArticles.handleApproveArticle,
      AdminArticles.handleRejectArticle, AdminArticles.handleUnpublishArticle,
      AdminArticles.handleDeleteArticle;
    rewrite Htk; cbn [negb orb];
    match type of He with
    | fst (ApiClient.invoke server ?c w) = _ =>
        rewrite (mutate_fail _ c _ _ _ w e eq_refl He)
    end;
    unfold toast; rewrite ViewFacts.emit_run, Hses, Hsto; reflexivity.
Qed.

Lemma pending_reject_ok tk articleId reason w r data :
  truthy_string tk = true ->
  let mut := ApiClient.wire (ApiClient.CallRejectArticle articleId tk
                               (Dialog.or_undefined reason)) in
  let refetch := ApiClient.wire (ApiClient.CallGetPendingArticles tk Sample.limit_50) in
  server (ApiClient.issued (log w)) mut = Responded r ->
  ok r = true -> payload r = Json data ->
  exists shown o tail,
    AdminPending.handleRejectArticle server (Some tk) articleId reason w =
      (Return tt,
       mkWorld (session w) (storage w)
         (log w ++ [Fetch mut; Settled mut (Responded r); Toast shown;
                    Fetch refetch; Settled refetch o] ++ tail)) /\
    ApiClient.issued tail = [].
Proof.
  intros Htk mut refetch Hs Hok Hp. subst mut refetch.
  unfold AdminPending.handleRejectArticle. rewrite Htk. cbn [negb].
  rewrite (mutate_ok _ (ApiClient.CallRejectArticle articleId tk (Dialog.or_undefined reason))
             _ _ _ w r data eq_refl Hs Hok Hp).
  unfold not_awaited.
  match goal with
  | |- context [AdminPending.fetchPendingArticles server (Some tk) ?W] =>
      destruct (fetchPendingArticles_ends tk W Htk) as (tail & Heq & Htail & _); rewrite Heq
  end.
  eexists _, _, tail. split; [|exact Htail].
  cbn [session storage log]. rewrite <- !app_assoc. reflexivity.
Qed.

Lemma pending_reject_fail tk articleId reason w e :
  truthy_string tk = true ->
  let c := ApiClient.CallRejectArticle articleId tk (Dialog.or_undefined reason) in
  fst (ApiClient.invoke server c w) = Throw e ->
  AdminPending.handleRejectArticle server (Some tk) articleId reason w =
    (Return tt,
     mkWorld (session w) (storage w)
       (log (snd (ApiClient.invoke server c w)) ++
        [Toast (mkToast "Error rejecting article"
                  (string_or_else (err_message e) "Please try again.")
                  (Some "destructive"))])).
Proof.
  intros Htk c He. subst c.
  destruct (invoke_keeps_state server
              (ApiClient.CallRejectArticle articleId tk (Dialog.or_undefined reason)) w)
    as (Hses & Hsto & _).
  unfold AdminPending.handleRejectArticle. rewrite Htk. cbn [negb].
  rewrite (mutate_fail _ (ApiClient.CallRejectArticle articleId tk
                            (Dialog.or_undefined reason)) _ _ _ w e eq_refl He).
  unfold toast. rewrite ViewFacts.emit_run, Hses, Hsto. reflexivity.
Qed.

End WithServer.

End ModerationFacts.

(** Every moderation action of the article list (approve, reject,
    unpublish, delete) that the admin let go ahead and that the server
    accepted is followed by exactly one refetch of the list, issued after
    the action's request has settled; the handler returns and leaves
    session and storage alone. *)
Theorem moderation_success_refetches_once
    (server : list Request -> Request -> FetchOutcome)
    (m : AdminArticles.Moderation) (tk articleId : string) (w : World)
    (r : Response) (data : JSValue) :
  tk <> "" ->
  AdminArticles.confirmed_by_user m = true ->
  let mut := ApiClient.wire (AdminArticles.mutation m articleId tk) in
  let refetch := ApiClient.wire (ApiClient.CallGetAllArticlesAdmin tk Sample.limit_50) in
  server (ApiClient.issued (log w)) mut = Responded r ->
  ok r = true -> payload r = Json data ->
  let res := AdminArticles.handle server m (Some tk) articleId w in
  fst res = Return tt /\
  session (snd res) = session w /\
  storage (snd res) = storage w /\
  ApiClient.issued (log (snd res)) = ApiClient.issued (log w) ++ [mut; refetch] /\
  exists shown o tail,
    log (snd res) = log w ++ [Fetch mut; Settled mut (Responded r); Toast shown;
                              Fetch refetch; Settled refetch o] ++ tail /\
    ApiClient.issued tail = [].
Proof.
  intros Htk Hgo mut refetch Hs Hok Hp res. subst res.
  apply truthy_string_true in Htk.
  destruct (ModerationFacts.handle_ok server m tk articleId w r data Htk Hgo Hs Hok Hp)
    as (shown & o & tail & Heq & Htail).
  rewrite Heq. cbn [fst snd session storage log]. fold mut refetch.
  refine (conj eq_refl (conj eq_refl (conj eq_refl (conj _ _)))).
  - rewrite !ApiFacts.issued_app, Htail. cbn [ApiClient.issued omap app].
    rewrite ?app_nil_r. reflexivity.
  - exists shown, o, tail. split; [reflexivity | exact Htail].
Qed.

Lemma moderation_success_refetches_once_witness :
  let server := Sample.answer 200 (Json Sample.article_list) in
  ApiClient.issued
    (log (snd (AdminArticles.handle server (AdminArticles.Unpublish true (Some "spam"))
                 (Some "tok") "A1" Sample.mounted)))
    = [ApiClient.wire (ApiClient.CallUnpublishArticle "A1" "tok" (Some "spam"));
       ApiClient.wire (ApiClient.CallGetAllArticlesAdmin "tok" Sample.limit_50)].
Proof.
  pose proof (moderation_success_refetches_once (Sample.answer 200 (Json Sample.article_list))
                (AdminArticles.Unpublish true (Some "spam")) "tok" "A1" Sample.mounted
                (mkResponse 200 (Json Sample.article_list)) Sample.article_list) as H.
  cbv zeta in H.
  destruct H as (_ & _ & _ & H & _);
    [discriminate | reflexivity | reflexivity | reflexivity | reflexivity |].
  exact H.
Defined.

(** A moderation action whose request fails is not followed by a refetch:
    the handler issues that one request, shows a destructive toast titled
    after the action that carries the error's message (or ['Please try
    again.'] when the message is empty), and returns normally. *)
Theorem moderation_failure_is_shown_not_refetched
    (server : list Request -> Request -> FetchOutcome)
    (m : AdminArticles.Moderation) (tk articleId : string) (w : World) (e : JsError) :
  tk <> "" ->
  AdminArticles.confirmed_by_user m = true ->
  let c := AdminArticles.mutation m articleId tk in
  fst (ApiClient.invoke server c w) = Throw e ->
  let res := AdminArticles.handle server m (Some tk) articleId w in
  fst res = Return tt /\
  session (snd res) = session w /\
  storage (snd res) = storage w /\
  ApiClient.issued (log (snd res)) = ApiClient.issued (log w) ++ [ApiClient.wire c] /\
  last (log (snd res))
    = Some (Toast (mkToast (AdminArticles.failure_title m)
                     (string_or_else (err_message e) "Please try again.")
                     (Some "destructive"))).
Proof.
  intros Htk Hgo c He res. subst res.
  apply truthy_string_true in Htk.
  rewrite (ModerationFacts.handle_fail server m tk articleId w e Htk Hgo He).
  cbn [fst snd session storage log].
  refine (conj eq_refl (conj eq_refl (conj eq_refl (conj _ _)))).
  - rewrite ApiFacts.issued_app, ApiFacts.invoke_issues_one. cbn. apply app_nil_r.
  - apply last_snoc.
Qed.

Lemma moderation_failure_is_shown_not_refetched_witness :
  let server := Sample.answer 403 (Json Sample.no_message) in
  let res := AdminArticles.handle server (AdminArticles.Delete true) (Some "tok") "A1"
               Sample.mounted in
  ApiClient.issued (log (snd res)) = [ApiClient.wire (ApiClient.CallDeleteArticleAdmin "A1" "tok")] /\
  last (log (snd res))
    = Some (Toast (mkToast "Error deleting article" "API request failed" (Some "destructive"))).
Proof.
  pose proof (moderation_failure_is_shown_not_refetched
                (Sample.answer 403 (Json Sample.no_message))
                (AdminArticles.Delete true) "tok" "A1" Sample.mounted
                (Error "API request failed")) as H.
  cbv zeta in H.
  destruct H as (_ & _ & _ & H1 & H2); [discriminate | reflexivity | reflexivity |].
  exact (conj H1 H2).
Defined.

(** Without a token, or when the admin declines the confirm dialog of
    unpublish or delete, a moderation handler does nothing at all: no
    request, no toast, no change. *)
Theorem moderation_without_token_or_consent_is_inert
    (server : list Request -> Request -> FetchOutcome)
    (m : AdminArticles.Moderation) (token : option string) (articleId : string)
    (reason : option string) (w : World) :
  (token = None \/ token = Some "" \/ AdminArticles.confirmed_by_user m = false ->
   AdminArticles.handle server m token articleId w = (Return tt, w)) /\
  (token = None \/ token = Some "" ->
   AdminPending.handleApproveArticle server token articleId w = (Return tt, w) /\
   AdminPending.handleRejectArticle server token articleId reason w = (Return tt, w)).
Proof.
  split.
  - intros [-> | [-> | Hno]].
    + destruct m; reflexivity.
    + destruct m; reflexivity.
    + destruct m as [| |confirmed r|confirmed]; cbn in Hno; try discriminate; subst;
        destruct token as [tk|]; cbn; try reflexivity;
        rewrite orb_true_r; reflexivity.
  - intros [-> | ->]; split; reflexivity.
Qed.

Lemma moderation_without_token_or_consent_is_inert_witness :
  AdminArticles.handle Sample.unreachable (AdminArticles.Delete false) (Some "tok") "A1"
    Sample.mounted = (Return tt, Sample.mounted).
Proof.
  apply (proj1 (moderation_without_token_or_consent_is_inert Sample.unreachable
                  (AdminArticles.Delete false) (Some "tok") "A1" None Sample.mounted)).
  right. right. reflexivity.
Defined.

(** The reason typed into the prompt reaches the server only if it is not
    empty: a cancelled prompt and an empty answer both send the body [{}],
    any other answer sends an object with the one property [reason]. *)
Theorem reason_is_sent_only_when_given (articleId tk : string) (reason : option string) :
  let reject := ApiClient.wire (AdminArticles.mutation (AdminArticles.Reject reason)
                                  articleId tk) in
  let unpublish := ApiClient.wire (AdminArticles.mutation (AdminArticles.Unpublish true reason)
                                     articleId tk) in
  body reject = body unpublish /\
  (reason = None \/ reason = Some "" -> body reject = Some "{}") /\
  (forall text, reason = Some text -> text <> "" ->
     body reject = Some ("{" +:+ JSON.quote "reason" +:+ ":" +:+ JSON.quote text +:+ "}")) /\
  method reject = Some "PUT" /\ method unpublish = Some "PUT".
Proof.
  cbv zeta. refine (conj eq_refl (conj _ (conj _ (conj eq_refl eq_refl)))).
  - intros [-> | ->]; reflexivity.
  - intros text -> Htext. apply truthy_string_true in Htext.
    unfold AdminArticles.mutation, Dialog.or_undefined. rewrite Htext.
    unfold ApiClient.wire, ApiClient.request_args, ApiClient.fetch_init,
      ApiClient.reason_json. cbn [fst snd ApiClient.init_body body].
    cbn [JSON.stringify omap fst snd fmap option_fmap option_map String.concat].
    reflexivity.
Qed.

Lemma reason_is_sent_only_when_given_witness :
  body (ApiClient.wire (AdminArticles.mutation (AdminArticles.Reject (Some ""))
                          "A1" "tok")) = Some "{}" /\
  body (ApiClient.wire (AdminArticles.mutation (AdminArticles.Reject (Some "off topic"))
                          "A1" "tok"))
    = Some ("{" +:+ JSON.quote "reason" +:+ ":" +:+ JSON.quote "off topic" +:+ "}").
Proof.
  split.
  - apply (proj1 (proj2 (reason_is_sent_only_when_given "A1" "tok" (Some "")))).
    right. reflexivity.
  - apply (proj1 (proj2 (proj2 (reason_is_sent_only_when_given "A1" "tok"
                                   (Some "off topic")))) "off topic");
      [reflexivity | discriminate].
Defined.

(** Rejecting from the pending list refetches the pending list once when
    the server accepts the rejection, and not at all when the request
    fails; then the error is shown in a toast. *)
Theorem pending_reject_refetches_only_on_success
    (server : list Request -> Request -> FetchOutcome)
    (tk articleId : string) (reason : option string) (w : World) :
  tk <> "" ->
  let c := ApiClient.CallRejectArticle articleId tk (Dialog.or_undefined reason) in
  let refetch := ApiClient.wire (ApiClient.CallGetPendingArticles tk Sample.limit_50) in
  let res := AdminPending.handleRejectArticle server (Some tk) articleId reason w in
  (forall r data,
     server (ApiClient.issued (log w)) (ApiClient.wire c) = Responded r ->
     ok r = true -> payload r = Json data ->
     fst res = Return tt /\
     ApiClient.issued (log (snd res)) = ApiClient.issued (log w) ++ [ApiClient.wire c; refetch]) /\
  (forall e,
     fst (ApiClient.invoke server c w) = Throw e ->
     fst res = Return tt /\
     ApiClient.issued (log (snd res)) = ApiClient.issued (log w) ++ [ApiClient.wire c] /\
     last (log (snd res))
       = Some (Toast (mkToast "Error rejecting article"
                        (string_or_else (err_message e) "Please try again.")
                        (Some "destructive")))).
Proof.
  intros Htk c refetch res. subst res. apply truthy_string_true in Htk. split.
  - intros r data Hs Hok Hp.
    destruct (ModerationFacts.pending_reject_ok server tk articleId reason w r data
                Htk Hs Hok Hp) as (shown & o & tail & Heq & Htail).
    rewrite Heq. cbn [fst snd log]. split; [reflexivity|].
    rewrite !ApiFacts.issued_app, Htail. cbn [ApiClient.issued omap app].
    rewrite ?app_nil_r. reflexivity.
  - intros e He.
    rewrite (ModerationFacts.pending_reject_fail server tk articleId reason w e Htk He).
    cbn [fst snd log]. refine (conj eq_refl (conj _ _)).
    + rewrite ApiFacts.issued_app, ApiFacts.invoke_issues_one. cbn. apply app_nil_r.
    + apply last_snoc.
Qed.

Lemma pending_reject_refetches_only_on_success_witness :
  ApiClient.issued
    (log (snd (AdminPending.handleRejectArticle (Sample.answer 200 (Json Sample.article_list))
                 (Some "tok") "A1" None Sample.mounted)))
    = [ApiClient.wire (ApiClient.CallRejectArticle "A1" "tok" None);
       ApiClient.wire (ApiClient.CallGetPendingArticles "tok" Sample.limit_50)] /\
  ApiClient.issued
    (log (snd (AdminPending.handleRejectArticle Sample.unreachable
                 (Some "tok") "A1" None Sample.mounted)))
    = [ApiClient.wire (ApiClient.CallRejectArticle "A1" "tok" None)].
Proof.
  split.
  - apply (proj1 (pending_reject_refetches_only_on_success
                    (Sample.answer 200 (Json Sample.article_list)) "tok" "A1" None
                    Sample.mounted ltac:(discriminate))
             (mkResponse 200 (Json Sample.article_list)) Sample.article_list);
      reflexivity.
  - apply (proj2 (pending_reject_refetches_only_on_success
                    Sample.unreachable "tok" "A1" None Sample.mounted
                    ltac:(discriminate))
             (TypeError "Failed to fetch")).
    reflexivity.
Defined.

(** Fetching a list never raises and never leaves the spinner on: with a
    token, [fetchArticles] and [fetchPendingArticles] issue one request
    and, whatever comes back (network failure, non-JSON, an error status,
    a body of the wrong shape), return after clearing the view's loading
    flag as their last action.  Without a token they return at once and the
    flag is not cleared. *)
Theorem list_fetch_always_clears_loading
    (server : list Request -> Request -> FetchOutcome) (tk : string) (w : World) :
  (tk <> "" ->
   let all := AdminArticles.fetchArticles server (Some tk) w in
   let pending := AdminPending.fetchPendingArticles server (Some tk) w in
   fst all = Return tt /\ session (snd all) = session w /\ storage (snd all) = storage w /\
   ApiClient.issued (log (snd all))
     = ApiClient.issued (log w)
       ++ [ApiClient.wire (ApiClient.CallGetAllArticlesAdmin tk Sample.limit_50)] /\
   last (log (snd all)) = Some (SetLocal "isLoading" (VBool false)) /\
   fst pending = Return tt /\ session (snd pending) = session w /\
   storage (snd pending) = storage w /\
   ApiClient.issued (log (snd pending))
     = ApiClient.issued (log w)
       ++ [ApiClient.wire (ApiClient.CallGetPendingArticles tk Sample.limit_50)] /\
   last (log (snd pending)) = Some (SetLocal "isLoading" (VBool false))) /\
  (forall token, token = None \/ token = Some "" ->
   AdminArticles.fetchArticles server token w = (Return tt, w) /\
   AdminPending.fetchPendingArticles server token w = (Return tt, w)).
Proof.
  split.
  - intros Htk all pending. subst all pending. apply truthy_string_true in Htk.
    destruct (ModerationFacts.fetchArticles_ends server tk w Htk)
      as (t1 & E1 & I1 & L1).
    destruct (ModerationFacts.fetchPendingArticles_ends server tk w Htk)
      as (t2 & E2 & I2 & L2).
    rewrite E1, E2. cbn [fst snd session storage log].
    assert (Hlast : forall (l : list Event) a b t x,
              last t = Some x -> last (l ++ [a; b] ++ t) = Some x).
    { intros l a b t x Hx. rewrite !last_app. rewrite Hx. reflexivity. }
    repeat split.
    + rewrite !ApiFacts.issued_app, I1. cbn [ApiClient.issued omap app].
      rewrite ?app_nil_r. reflexivity.
    + apply Hlast, L1.
    + rewrite !ApiFacts.issued_app, I2. cbn [ApiClient.issued omap app].
      rewrite ?app_nil_r. reflexivity.
    + apply Hlast, L2.
  - intros token [-> | ->]; split; reflexivity.
Qed.

Lemma list_fetch_always_clears_loading_witness :
  last (log (snd (AdminArticles.fetchArticles (Sample.answer 200 (Json VNull))
                    (Some "tok") Sample.mounted)))
    = Some (SetLocal "isLoading" (VBool false)).
Proof.
  apply (proj1 (list_fetch_always_clears_loading (Sample.answer 200 (Json VNull))
                  "tok" Sample.mounted)).
  discriminate.
Defined.

(** ** More about the forms *)

Module FormFacts.

Ltac crunch_form :=
  cbv [bind try_catch finally not_awaited console_error toast setLocal navigate
       preventDefault emit throw ret lift_sum ApiClient.sent ApiClient.reported
       fst snd session storage log].

Section WithServer.
Variable server : list Request -> Request -> FetchOutcome.

Lemma register_is_flow formData activeTab :
  String.eqb (Register.password formData) (Register.confirmPassword formData) = true ->
  Register.handleSubmit server formData activeTab =
    (preventDefault ;;
     setLocal "isLoading" (VBool true) ;;
     AuthForms.submit_flow server (Register.submission formData activeTab)
       (String.eqb activeTab "admin")
       "Registration successful" "Welcome to QuillBoard, "
       "Registration failed" "Please try again with different credentials.").
Proof.
  intros Heq. unfold Register.handleSubmit, Register.submission, AuthForms.submit_flow.
  rewrite Heq. cbn [negb].
  destruct (String.eqb activeTab "admin"); reflexivity.
Qed.

Lemma login_is_flow formData activeTab :
  Login.handleSubmit server formData activeTab =
    (preventDefault ;;
     setLocal "isLoading" (VBool true) ;;
     AuthForms.submit_flow server (Login.submission formData activeTab)
       (String.eqb activeTab "admin")
       "Login successful" "Welcome back, "
       "Login failed" "Please check your credentials and try again.").
Proof.
  unfold Login.handleSubmit, Login.submission, AuthForms.submit_flow.
  destruct (String.eqb activeTab "admin"); reflexivity.
Qed.

(** The preamble of both forms. *)
Lemma preamble_run (k : M unit) w :
  (preventDefault ;; setLocal "isLoading" (VBool true) ;; k) w =
    k (mkWorld (session w) (storage w)
         (log w ++ [PreventDefault; SetLocal "isLoading" (VBool true)])).
Proof.
  unfold bind, preventDefault, setLocal. rewrite !ViewFacts.emit_run.
  cbn [session storage log]. rewrite <- app_assoc. reflexivity.
Qed.

Lemma preamble_issued (l : list Event) :
  ApiClient.issued (l ++ [PreventDefault; SetLocal "isLoading" (VBool true)])
  = ApiClient.issued l.
Proof. rewrite ApiFacts.issued_app. cbn. apply app_nil_r. Qed.

(** Unless the server accepted, the block changes nothing and goes
    nowhere. *)
Lemma flow_not_accepted c adminTab okTitle greeting failTitle failDefault w :
  Register.accepted (server (ApiClient.issued (log w)) (ApiClient.wire c)) = false ->
  exists tail,
    AuthForms.submit_flow server c adminTab okTitle greeting failTitle failDefault w =
      (Return tt,
       mkWorld (session w) (storage w)
         (log w ++ [Fetch (ApiClient.wire c);
                    Settled (ApiClient.wire c)
                      (server (ApiClient.issued (log w)) (ApiClient.wire c))] ++ tail)) /\
    ApiClient.issued tail = [] /\
    filter Register.is_navigate tail = [] /\
    last tail = Some (SetLocal "isLoading" (VBool false)).
Proof.
  intros Hacc. unfold AuthForms.submit_flow, finally, try_catch. unfold bind at 1.
  rewrite ApiFacts.invoke_run. cbv zeta.
  set (req := ApiClient.wire c) in *.
  set (o := server (ApiClient.issued (log w)) req) in *. clearbody o req.
  unfold Register.accepted in Hacc.
  destruct o as [e|r];
    [crunch_form; eexists; split;
       [rewrite <- ?app_assoc; cbn [app]; reflexivity | repeat split]|].
  destruct (payload r) as [detail|data];
    [crunch_form; eexists; split;
       [rewrite <- ?app_assoc; cbn [app]; reflexivity | repeat split]|].
  destruct (ok r); cbn [andb] in Hacc.
  - crunch_form. destruct (get_prop data "success") as [e|success]; crunch_form.
    + eexists; split; [rewrite <- ?app_assoc; cbn [app]; reflexivity | repeat split].
    + rewrite Hacc. crunch_form.
      eexists; split; [rewrite <- ?app_assoc; cbn [app]; reflexivity | repeat split].
  - crunch_form. destruct (get_prop data "message"); crunch_form;
      (eexists; split; [rewrite <- ?app_assoc; cbn [app]; reflexivity | repeat split]).
Qed.

(** A 2xx answer without a truthy [success]: nothing but the loading
    flag. *)
Lemma flow_silent c adminTab okTitle greeting failTitle failDefault w r data success :
  server (ApiClient.issued (log w)) (ApiClient.wire c) = Responded r ->
  ok r = true -> payload r = Json data ->
  get_prop data "success" = inr success -> truthy success = false ->
  AuthForms.submit_flow server c adminTab okTitle greeting failTitle failDefault w =
    (Return tt,
     mkWorld (session w) (storage w)
       (log w ++ [Fetch (ApiClient.wire c); Settled (ApiClient.wire c) (Responded r);
                  SetLocal "isLoading" (VBool false)])).
Proof.
  intros Hs Hok Hp Hsucc Hfalsy.
  unfold AuthForms.submit_flow, finally, try_catch. unfold bind at 1.
  rewrite ApiFacts.invoke_run. cbv zeta. rewrite Hs, Hp, Hok.
  crunch_form. rewrite Hsucc. crunch_form. rewrite Hfalsy. crunch_form.
  rewrite <- app_assoc. reflexivity.
Qed.

(** An accepted answer with a string token and an object of exactly the
    three string properties of [User]: log in, greet, navigate. *)
Lemma flow_success c adminTab okTitle greeting failTitle failDefault w
    r data success t userv adminv u :
  server (ApiClient.issued (log w)) (ApiClient.wire c) = Responded r ->
  ok r = true -> payload r = Json data ->
  get_prop data "success" = inr success -> truthy success = true ->
  get_prop data "token" = inr (VString t) ->
  get_prop data "user" = inr userv ->
  get_prop data "admin" = inr adminv ->
  Register.as_user (or_else userv adminv) = Some u ->
  AuthForms.submit_flow server c adminTab okTitle greeting failTitle failDefault w =
    (Return tt,
     mkWorld
       (mkSession (Some u) adminTab (Some t) (isLoading (session w)))
       (<["isAdmin" := if adminTab then "true" else "false"]>
          (<["user" := JSON.stringify_user u]> (<["token" := t]> (storage w))))
       (log w ++ [Fetch (ApiClient.wire c); Settled (ApiClient.wire c) (Responded r);
                  SetToken (Some t); SetUser (Some u); SetIsAdmin adminTab;
                  StorageSet "token" t; StorageSet "user" (JSON.stringify_user u);
                  StorageSet "isAdmin" (if adminTab then "true" else "false");
                  Toast (mkToast okTitle
                           (greeting +:+
                            ToString (or_else (Register.opt_chain userv "username")
                                              (Register.opt_chain adminv "username"))
                            +:+ "!") None);
                  Navigate (if adminTab then "/admin/dashboard" else "/dashboard");
                  SetLocal "isLoading" (VBool false)])).
Proof.
  intros Hs Hok Hp Hsucc Htruthy Htok Huser Hadmin Hu.
  unfold AuthForms.submit_flow, finally, try_catch. unfold bind at 1.
  rewrite ApiFacts.invoke_run. cbv zeta. rewrite Hs, Hp, Hok.
  crunch_form. rewrite Hsucc. crunch_form. rewrite Htruthy.
  rewrite Htok. crunch_form. rewrite Huser. crunch_form. rewrite Hadmin. crunch_form.
  unfold Register.login_untyped. cbn [Register.as_string]. rewrite Hu.
  rewrite AuthFacts.login_run. cbn [default session storage log isLoading].
  destruct adminTab; crunch_form; rewrite <- !app_assoc; reflexivity.
Qed.

End WithServer.

End FormFacts.

(** A registration with matching passwords that the server accepts, with a
    token that is a string and, under [user] (or under [admin] when [user]
    is falsy), an object that has exactly the properties [id], [username]
    and [email], in this order and all strings, issues the one request of
    the active tab, carrying username, email and password only; logs in
    with that token and record, as admin exactly on the admin tab; greets;
    navigates once, to [/admin/dashboard] on the admin tab and to
    [/dashboard] otherwise; and ends by clearing the form's loading flag.
    Answers with a token or an object of another form are not covered. *)
Theorem registration_logs_in_and_navigates
    (server : list Request -> Request -> FetchOutcome)
    (formData : Register.FormData) (activeTab : string) (w : World)
    (r : Response) (data success userv adminv : JSValue) (t : string) (u : User) :
  Register.password formData = Register.confirmPassword formData ->
  let c := Register.submission formData activeTab in
  let admin := String.eqb activeTab "admin" in
  server (ApiClient.issued (log w)) (ApiClient.wire c) = Responded r ->
  ok r = true -> payload r = Json data ->
  get_prop data "success" = inr success -> truthy success = true ->
  get_prop data "token" = inr (VString t) ->
  get_prop data "user" = inr userv ->
  get_prop data "admin" = inr adminv ->
  Register.as_user (or_else userv adminv) = Some u ->
  let res := Register.handleSubmit server formData activeTab w in
  fst res = Return tt /\
  session (snd res) = mkSession (Some u) admin (Some t) (isLoading (session w)) /\
  storage (snd res) = storage (after (AuthContext.login t u (Some admin)) w) /\
  url (ApiClient.wire c)
    = ApiClient.API_BASE_URL +:+ (if admin then "/admin/register" else "/users/register") /\
  body (ApiClient.wire c)
    = JSON.stringify (VObject [("username", VString (Register.username formData));
                               ("email", VString (Register.email formData));
                               ("password", VString (Register.password formData))]) /\
  exists new,
    log (snd res) = log w ++ new /\
    ApiClient.issued new = [ApiClient.wire c] /\
    filter Register.is_navigate new
      = [Navigate (if admin then "/admin/dashboard" else "/dashboard")] /\
    last new = Some (SetLocal "isLoading" (VBool false)).
Proof.
  intros Hpw c admin Hs Hok Hp Hsucc Htruthy Htok Huser Hadmin Hu res. subst res.
  apply String.eqb_eq in Hpw.
  rewrite (FormFacts.register_is_flow server formData activeTab Hpw).
  rewrite FormFacts.preamble_run.
  rewrite <- (FormFacts.preamble_issued (log w)) in Hs.
  erewrite FormFacts.flow_success; [| exact Hs | eassumption ..].
  fold admin. cbn [fst snd session storage log isLoading].
  unfold after. rewrite AuthFacts.login_run. cbn [snd storage default].
  refine (conj eq_refl (conj eq_refl (conj eq_refl (conj _ (conj _ _))))).
  - subst c admin. unfold Register.submission.
    destruct (String.eqb activeTab "admin"); reflexivity.
  - subst c admin. unfold Register.submission.
    destruct (String.eqb activeTab "admin"); reflexivity.
  - eexists. split; [rewrite <- app_assoc; cbn [app]; reflexivity|].
    destruct admin; repeat split.
Qed.

Lemma registration_logs_in_and_navigates_witness :
  let res := Register.handleSubmit (Sample.answer 201 (Json Sample.welcome))
               Sample.matching "user" Sample.mounted in
  fst res = Return tt /\
  session (snd res) = mkSession (Some Sample.alice) false (Some "tok") false.
Proof.
  pose proof (registration_logs_in_and_navigates (Sample.answer 201 (Json Sample.welcome))
                Sample.matching "user" Sample.mounted
                (mkResponse 201 (Json Sample.welcome)) Sample.welcome
                (VBool true)
                (VObject [("id", VString "u1"); ("username", VString "alice");
                          ("email", VString "a@x.com")])
                VUndefined "tok" Sample.alice) as H.
  cbv zeta in H.
  destruct H as (H1 & H2 & _); try reflexivity.
  exact (conj H1 H2).
Defined.

(** The same for the login form, which validates nothing: a login that
    the server accepts with a string token and, under [user] (or under
    [admin] when [user] is falsy), an object that has exactly the
    properties [id], [username] and [email], in this order and all strings,
    issues the one request of the active tab with email and password, logs
    in, greets, navigates once and clears the loading flag.  Answers with a
    token or an object of another form are not covered. *)
Theorem login_form_logs_in_and_navigates
    (server : list Request -> Request -> FetchOutcome)
    (formData : Login.FormData) (activeTab : string) (w : World)
    (r : Response) (data success userv adminv : JSValue) (t : string) (u : User) :
  let c := Login.submission formData activeTab in
  let admin := String.eqb activeTab "admin" in
  server (ApiClient.issued (log w)) (ApiClient.wire c) = Responded r ->
  ok r = true -> payload r = Json data ->
  get_prop data "success" = inr success -> truthy success = true ->
  get_prop data "token" = inr (VString t) ->
  get_prop data "user" = inr userv ->
  get_prop data "admin" = inr adminv ->
  Register.as_user (or_else userv adminv) = Some u ->
  let res := Login.handleSubmit server formData activeTab w in
  fst res = Return tt /\
  session (snd res) = mkSession (Some u) admin (Some t) (isLoading (session w)) /\
  storage (snd res) = storage (after (AuthContext.login t u (Some admin)) w) /\
  url (ApiClient.wire c)
    = ApiClient.API_BASE_URL +:+ (if admin then "/admin/login" else "/users/login") /\
  body (ApiClient.wire c)
    = JSON.stringify (VObject [("email", VString (Login.email formData));
                               ("password", VString (Login.password formData))]) /\
  exists new,
    log (snd res) = log w ++ new /\
    ApiClient.issued new = [ApiClient.wire c] /\
    filter Register.is_navigate new
      = [Navigate (if admin then "/admin/dashboard" else "/dashboard")] /\
    last new = Some (SetLocal "isLoading" (VBool false)).
Proof.
  intros c admin Hs Hok Hp Hsucc Htruthy Htok Huser Hadmin Hu res. subst res.
  rewrite (FormFacts.login_is_flow server formData activeTab).
  rewrite FormFacts.preamble_run.
  rewrite <- (FormFacts.preamble_issued (log w)) in Hs.
  erewrite FormFacts.flow_success; [| exact Hs | eassumption ..].
  fold admin. cbn [fst snd session storage log isLoading].
  unfold after. rewrite AuthFacts.login_run. cbn [snd storage default].
  refine (conj eq_refl (conj eq_refl (conj eq_refl (conj _ (conj _ _))))).
  - subst c admin. unfold Login.submission.
    destruct (String.eqb activeTab "admin"); reflexivity.
  - subst c admin. unfold Login.submission.
    destruct (String.eqb activeTab "admin"); reflexivity.
  - eexists. split; [rewrite <- app_assoc; cbn [app]; reflexivity|].
    destruct admin; repeat split.
Qed.

Lemma login_form_logs_in_and_navigates_witness :
  let res := Login.handleSubmit (Sample.answer 200 (Json Sample.welcome))
               (Login.mkFormData "a@x.com" "p1") "user" Sample.mounted in
  fst res = Return tt /\
  session (snd res) = mkSession (Some Sample.alice) false (Some "tok") false.
Proof.
  pose proof (login_form_logs_in_and_navigates (Sample.answer 200 (Json Sample.welcome))
                (Login.mkFormData "a@x.com" "p1") "user" Sample.mounted
                (mkResponse 200 (Json Sample.welcome)) Sample.welcome
                (VBool true)
                (VObject [("id", VString "u1"); ("username", VString "alice");
                          ("email", VString "a@x.com")])
                VUndefined "tok" Sample.alice) as H.
  cbv zeta in H.
  destruct H as (H1 & H2 & _); try reflexivity.
  exact (conj H1 H2).
Defined.

(** Unless the server answers 2xx with a JSON body whose [success] is
    truthy, submitting either form changes neither session nor storage and
    navigates nowhere; the one request has been issued, and the form's
    loading flag is cleared last. *)
Theorem forms_change_nothing_unless_accepted
    (server : list Request -> Request -> FetchOutcome) (activeTab : string) (w : World) :
  (forall formData,
     Register.password formData = Register.confirmPassword formData ->
     let c := Register.submission formData activeTab in
     Register.accepted (server (ApiClient.issued (log w)) (ApiClient.wire c)) = false ->
     let res := Register.handleSubmit server formData activeTab w in
     fst res = Return tt /\ session (snd res) = session w /\ storage (snd res) = storage w /\
     exists new,
       log (snd res) = log w ++ new /\
       ApiClient.issued new = [ApiClient.wire c] /\
       filter Register.is_navigate new = [] /\
       last new = Some (SetLocal "isLoading" (VBool false))) /\
  (forall formData,
     let c := Login.submission formData activeTab in
     Register.accepted (server (ApiClient.issued (log w)) (ApiClient.wire c)) = false ->
     let res := Login.handleSubmit server formData activeTab w in
     fst res = Return tt /\ session (snd res) = session w /\ storage (snd res) = storage w /\
     exists new,
       log (snd res) = log w ++ new /\
       ApiClient.issued new = [ApiClient.wire c] /\
       filter Register.is_navigate new = [] /\
       last new = Some (SetLocal "isLoading" (VBool false))).
Proof.
  assert (Hflow : forall c okTitle greeting failTitle failDefault,
    Register.accepted (server (ApiClient.issued (log w)) (ApiClient.wire c)) = false ->
    let res := (preventDefault ;; setLocal "isLoading" (VBool true) ;;
                AuthForms.submit_flow server c (String.eqb activeTab "admin")
                  okTitle greeting failTitle failDefault) w in
    fst res = Return tt /\ session (snd res) = session w /\ storage (snd res) = storage w /\
    exists new,
      log (snd res) = log w ++ new /\
      ApiClient.issued new = [ApiClient.wire c] /\
      filter Register.is_navigate new = [] /\
      last new = Some (SetLocal "isLoading" (VBool false))).
  { intros c okTitle greeting failTitle failDefault Hacc res. subst res.
    rewrite FormFacts.preamble_run.
    rewrite <- (FormFacts.preamble_issued (log w)) in Hacc.
    destruct (FormFacts.flow_not_accepted server c (String.eqb activeTab "admin")
                okTitle greeting failTitle failDefault
                (mkWorld (session w) (storage w)
                   (log w ++ [PreventDefault; SetLocal "isLoading" (VBool true)]))
                Hacc)
      as (tail & Heq & Hiss & Hnav & Hlast).
    rewrite Heq. cbn [fst snd session storage log].
    refine (conj eq_refl (conj eq_refl (conj eq_refl _))).
    eexists. split; [rewrite <- app_assoc; reflexivity|].
    refine (conj _ (conj _ _)).
    - rewrite !ApiFacts.issued_app, Hiss. reflexivity.
    - rewrite !filter_app, Hnav. reflexivity.
    - rewrite !last_app, Hlast. reflexivity. }
  split.
  - intros formData Hpw c Hacc res. subst res.
    apply String.eqb_eq in Hpw.
    rewrite (FormFacts.register_is_flow server formData activeTab Hpw).
    apply Hflow. exact Hacc.
  - intros formData c Hacc res. subst res.
    rewrite (FormFacts.login_is_flow server formData activeTab).
    apply Hflow. exact Hacc.
Qed.

Lemma forms_change_nothing_unless_accepted_witness :
  let res := Login.handleSubmit (Sample.answer 401 (Json Sample.refusal))
               (Login.mkFormData "a@x.com" "wrong") "admin" Sample.mounted in
  session (snd res) = session Sample.mounted /\ storage (snd res) = storage Sample.mounted.
Proof.
  pose proof (proj2 (forms_change_nothing_unless_accepted
                       (Sample.answer 401 (Json Sample.refusal)) "admin" Sample.mounted)
                (Login.mkFormData "a@x.com" "wrong")) as H.
  cbv zeta in H. destruct H as (_ & H1 & H2 & _); [reflexivity|].
  exact (conj H1 H2).
Defined.

(** A 2xx answer whose [success] is falsy is dropped in silence: neither
    form shows a toast, logs in or navigates; all that happens after the
    request is that the loading flag is cleared. *)
Theorem unsuccessful_2xx_is_silent
    (server : list Request -> Request -> FetchOutcome) (activeTab : string) (w : World)
    (r : Response) (data success : JSValue) :
  ok r = true -> payload r = Json data ->
  get_prop data "success" = inr success -> truthy success = false ->
  (forall formData,
     Register.password formData = Register.confirmPassword formData ->
     let c := ApiClient.wire (Register.submission formData activeTab) in
     server (ApiClient.issued (log w)) c = Responded r ->
     Register.handleSubmit server formData activeTab w =
       (Return tt,
        mkWorld (session w) (storage w)
          (log w ++ [PreventDefault; SetLocal "isLoading" (VBool true);
                     Fetch c; Settled c (Responded r);
                     SetLocal "isLoading" (VBool false)]))) /\
  (forall formData,
     let c := ApiClient.wire (Login.submission formData activeTab) in
     server (ApiClient.issued (log w)) c = Responded r ->
     Login.handleSubmit server formData activeTab w =
       (Return tt,
        mkWorld (session w) (storage w)
          (log w ++ [PreventDefault; SetLocal "isLoading" (VBool true);
                     Fetch c; Settled c (Responded r);
                     SetLocal "isLoading" (VBool false)]))).
Proof.
  intros Hok Hp Hsucc Hfalsy. split.
  - intros formData Hpw c Hs. subst c. apply String.eqb_eq in Hpw.
    rewrite (FormFacts.register_is_flow server formData activeTab Hpw).
    rewrite FormFacts.preamble_run.
    rewrite <- (FormFacts.preamble_issued (log w)) in Hs.
    erewrite FormFacts.flow_silent; [| exact Hs | eassumption ..].
    cbn [session storage log]. rewrite <- app_assoc. reflexivity.
  - intros formData c Hs. subst c.
    rewrite (FormFacts.login_is_flow server formData activeTab).
    rewrite FormFacts.preamble_run.
    rewrite <- (FormFacts.preamble_issued (log w)) in Hs.
    erewrite FormFacts.flow_silent; [| exact Hs | eassumption ..].
    cbn [session storage log]. rewrite <- app_assoc. reflexivity.
Qed.

Lemma unsuccessful_2xx_is_silent_witness :
  filter Register.is_toast
    (log (snd (Register.handleSubmit (Sample.answer 200 (Json Sample.refusal))
                 Sample.matching "user" Sample.mounted))) = [].
Proof.
  rewrite (proj1 (unsuccessful_2xx_is_silent (Sample.answer 200 (Json Sample.refusal))
                    "user" Sample.mounted (mkResponse 200 (Json Sample.refusal))
                    Sample.refusal (VBool false)
                    eq_refl eq_refl eq_refl eq_refl)
             Sample.matching eq_refl eq_refl).
  reflexivity.
Defined.

(** ** More about routing *)

(** A redirect never leads to another redirect: whenever a route answers a
    session with [<Navigate>], it replaces history, its target is a route
    of the table, and that route renders a page for the same session (the
    login page, or the user dashboard for a non-admin on an admin
    route). *)
Theorem redirects_settle_in_one_step
    (route : App.Route) (auth : Session) (to : string) (replace : bool) :
  App.AppRoutes route auth = App.NavigateTo to replace ->
  replace = true /\
  exists target page,
    App.route_at to = Some target /\
    App.AppRoutes target auth = App.Children page /\
    (page = App.LoginPage \/ page = App.DashboardPage).
Proof.
  destruct auth as [[u|] adm tk [|]];
    destruct route; cbn; try discriminate;
    try (destruct adm; cbn; try discriminate);
    intros [= <- <-]; (split; [reflexivity|]);
    eexists _, _; (split; [reflexivity|]); split; try reflexivity; auto.
Qed.

Lemma redirects_settle_in_one_step_witness :
  exists target,
    App.route_at "/dashboard" = Some target /\
    App.AppRoutes target (mkSession (Some Sample.alice) false (Some "tok") false)
      = App.Children App.DashboardPage.
Proof.
  destruct (redirects_settle_in_one_step (App.RAdmin (Some App.AdminUsersPage))
              (mkSession (Some Sample.alice) false (Some "tok") false)
              "/dashboard" true eq_refl)
    as (_ & target & page & Hat & Hrender & _).
  exists target. split; [exact Hat|].
  rewrite Hrender. cbn in Hat. injection Hat as <-. cbn in Hrender.
  injection Hrender as <-. reflexivity.
Defined.

(** [handleLogout] clears session and storage and then navigates to [/],
    which renders the home page for everybody; from then on (loading
    finished) every guarded route redirects to [/login]. *)
Theorem logout_locks_every_guarded_route (w : World) :
  let res := Navbar.handleLogout w in
  fst res = Return tt /\
  session (snd res) = mkSession None false None (isLoading (session w)) /\
  storage (snd res) !! "token" = None /\
  storage (snd res) !! "user" = None /\
  storage (snd res) !! "isAdmin" = None /\
  last (log (snd res)) = Some (Navigate "/") /\
  (exists home, App.route_at "/" = Some home /\
                forall auth, App.AppRoutes home auth = App.Children App.HomePage) /\
  (isLoading (session w) = false ->
   forall route, App.guarded route = true ->
     App.AppRoutes route (session (snd res)) = App.NavigateTo "/login" true).
Proof.
  intros res. subst res.
  assert (Hrun : Navbar.handleLogout w =
            (Return tt,
             mkWorld (mkSession None false None (isLoading (session w)))
               (delete "isAdmin" (delete "user" (delete "token" (storage w))))
               ((log w ++ [SetToken None; SetUser None; SetIsAdmin false;
                           StorageRemove "token"; StorageRemove "user";
                           StorageRemove "isAdmin"]) ++ [Navigate "/"]))).
  { unfold Navbar.handleLogout, bind. rewrite AuthFacts.logout_run.
    unfold navigate. rewrite ViewFacts.emit_run. reflexivity. }
  rewrite Hrun. cbn [fst snd session storage log].
  refine (conj eq_refl (conj eq_refl (conj _ (conj _ (conj _ (conj _ (conj _ _))))))).
  - rewrite StoreFacts.cleared_lookup. reflexivity.
  - rewrite StoreFacts.cleared_lookup. reflexivity.
  - rewrite StoreFacts.cleared_lookup. reflexivity.
  - apply last_snoc.
  - exists App.RHome. split; reflexivity.
  - intros Hload route Hg. rewrite Hload. destruct route; cbn in Hg; try discriminate;
      reflexivity.
Qed.

Lemma logout_locks_every_guarded_route_witness :
  App.AppRoutes (App.RAdmin None)
    (session (snd (Navbar.handleLogout
                     (after (AuthContext.login "tok" Sample.alice (Some true)) Sample.mounted))))
    = App.NavigateTo "/login" true.
Proof.
  apply (logout_locks_every_guarded_route
           (after (AuthContext.login "tok" Sample.alice (Some true)) Sample.mounted));
    reflexivity.
Defined.

(** Where the forms send a user after login is where the navigation bar's
    dashboard link points, and the guard lets them in: once loading has
    finished, the session that [login] produces renders the admin
    dashboard at [dashboardUrl] for an admin and the user dashboard for
    anybody else, without a redirect. *)
Theorem landing_page_is_admitted
    (newToken : string) (newUser : User) (adminStatus : option bool) (w : World) :
  isLoading (session w) = false ->
  let s := session (after (AuthContext.login newToken newUser adminStatus) w) in
  let admin := default false adminStatus in
  Navbar.dashboardUrl (isAdmin s) = (if admin then "/admin/dashboard" else "/dashboard") /\
  exists route,
    App.route_at (Navbar.dashboardUrl (isAdmin s)) = Some route /\
    App.guarded route = true /\
    App.AppRoutes route s
      = App.Children (if admin then App.AdminLayoutPage (Some App.AdminDashboardPage)
                      else App.DashboardPage).
Proof.
  intros Hload s admin. subst s admin. unfold after.
  rewrite AuthFacts.login_run. cbn [snd session isAdmin]. rewrite Hload.
  destruct (default false adminStatus); (split; [reflexivity|]);
    eexists; (split; [reflexivity|]); split; reflexivity.
Qed.

Lemma landing_page_is_admitted_witness :
  exists route,
    App.route_at "/dashboard" = Some route /\
    App.AppRoutes route
      (session (after (AuthContext.login "tok" Sample.alice None) Sample.mounted))
      = App.Children App.DashboardPage.
Proof.
  destruct (landing_page_is_admitted "tok" Sample.alice None Sample.mounted eq_refl)
    as (_ & route & Hat & _ & Hrender).
  exists route. split; [exact Hat | exact Hrender].
Defined.

(** ** More about lists in the views *)

Module ListFacts.

Lemma filter_sublist {A} (f : A -> bool) (l : list A) : sublist (List.filter f l) l.
Proof.
  induction l as [|x l IH]; cbn; [constructor|].
  destruct (f x); [apply sublist_skip | apply sublist_cons]; exact IH.
Qed.

Lemma elem_of_filter {A} (f : A -> bool) (l : list A) x :
  x ∈ List.filter f l <-> x ∈ l /\ f x = true.
Proof. rewrite !list_elem_of_In. apply filter_In. Qed.

Lemma array_includes_false tags tag :
  Text.array_includes tags tag = false <-> tag ∉ tags.
Proof.
  unfold Text.array_includes. induction tags as [|x tags IH]; cbn.
  - split; [intros _; apply not_elem_of_nil | reflexivity].
  - rewrite orb_false_iff, IH, not_elem_of_cons, String.eqb_neq. reflexivity.
Qed.

Lemma filter_out_absent (l : list string) x :
  x ∉ l -> List.filter (fun tag => negb (String.eqb tag x)) l = l.
Proof.
  induction l as [|y l IH]; [reflexivity|].
  rewrite not_elem_of_cons. intros [Hne Hnot]. cbn.
  assert (String.eqb y x = false) as -> by (apply String.eqb_neq; congruence).
  cbn. rewrite IH by exact Hnot. reflexivity.
Qed.

Lemma NoDup_filter_bool {A} (f : A -> bool) (l : list A) : NoDup l -> NoDup (List.filter f l).
Proof.
  induction 1 as [|x l Hx Hl IH]; cbn; [constructor|].
  destruct (f x); [|exact IH].
  constructor; [|exact IH]. rewrite elem_of_filter. tauto.
Qed.

End ListFacts.

(** [filterArticles] only drops: its result is a sublist of the articles in
    their order, made of exactly those that match the search term (when
    one is typed) in title, short description or author name, and that have
    the selected status (unless it is ['all']).  With no term and ['all']
    the list is unchanged. *)
Theorem filterArticles_keeps_exactly_the_matches
    (toLowerCase : string -> string)
    (articles : list AdminArticles.Article) (searchTerm statusFilter : string) :
  let result := AdminArticles.filterArticles toLowerCase articles searchTerm statusFilter in
  sublist result articles /\
  (forall article,
     article ∈ result <->
     article ∈ articles /\
     (searchTerm = "" \/ AdminArticles.matches_search toLowerCase searchTerm article = true) /\
     (statusFilter = "all" \/ AdminArticles.status article = statusFilter)) /\
  AdminArticles.filterArticles toLowerCase articles "" "all" = articles.
Proof.
  intros result. subst result. unfold AdminArticles.filterArticles. cbv zeta.
  assert (Hterm : truthy_string searchTerm = false -> searchTerm = "")
    by apply truthy_string_false.
  assert (Hterm' : truthy_string searchTerm = true -> searchTerm <> "")
    by apply truthy_string_true.
  destruct (String.eqb_spec statusFilter "all") as [Eall|Eall];
    destruct (truthy_string searchTerm) eqn:Eterm; cbn [negb];
    refine (conj _ (conj _ eq_refl)).
  - apply ListFacts.filter_sublist.
  - intros a. rewrite ListFacts.elem_of_filter. intuition congruence.
  - reflexivity.
  - intros a. intuition congruence.
  - etransitivity; apply ListFacts.filter_sublist.
  - intros a. rewrite !ListFacts.elem_of_filter, String.eqb_eq. intuition congruence.
  - apply ListFacts.filter_sublist.
  - intros a. rewrite ListFacts.elem_of_filter, String.eqb_eq. intuition congruence.
Qed.

Module TextFacts.

Lemma is_prefix_spec p : forall s,
  Text.is_prefix p s = true <-> exists rest, s = p +:+ rest.
Proof.
  induction p as [|a p IH]; intros s.
  - split; [intros _; exists s; reflexivity | reflexivity].
  - destruct s as [|b s]; cbn [Text.is_prefix].
    + split; [discriminate | intros [rest H]; rewrite JSONFacts.append_cons in H; discriminate].
    + rewrite andb_true_iff, Ascii.eqb_eq, IH. split.
      * intros [-> [rest ->]]. exists rest. reflexivity.
      * intros [rest H]. rewrite JSONFacts.append_cons in H. inversion H; subst. eauto.
Qed.

(** [s.includes(sub)] holds exactly when [sub] occurs in [s]. *)
Lemma includes_spec sub : forall s,
  Text.includes s sub = true <-> exists before rest, s = before +:+ sub +:+ rest.
Proof.
  induction s as [|c s IH].
  - cbn [Text.includes]. rewrite orb_false_r, is_prefix_spec. split.
    + intros [rest H]. exists "", rest. exact H.
    + intros (before & rest & H). destruct before as [|x before].
      * exists rest. exact H.
      * rewrite JSONFacts.append_cons in H. discriminate.
  - cbn [Text.includes]. rewrite orb_true_iff, is_prefix_spec, IH. split.
    + intros [[rest H] | (before & rest & H)].
      * exists "", rest. exact H.
      * exists (String c before), rest. rewrite JSONFacts.append_cons, H. reflexivity.
    + intros (before & rest & H). destruct before as [|x before].
      * left. exists rest. exact H.
      * right. rewrite JSONFacts.append_cons in H. inversion H; subst. eauto.
Qed.

End TextFacts.

(** A search term that is typed selects exactly the articles in which it
    occurs, both sides in lower case, in the title, the short description
    or the author's user name, and in no other field; the status filter
    applies on top. *)
Theorem search_finds_substring_in_three_fields
    (toLowerCase : string -> string)
    (articles : list AdminArticles.Article) (searchTerm statusFilter : string)
    (article : AdminArticles.Article) :
  searchTerm <> "" ->
  (article ∈ AdminArticles.filterArticles toLowerCase articles searchTerm statusFilter <->
   article ∈ articles /\
   (exists field before rest,
      field ∈ [AdminArticles.title article; AdminArticles.shortDescription article;
               AdminArticles.author_username (AdminArticles.author article)] /\
      toLowerCase field = before +:+ toLowerCase searchTerm +:+ rest) /\
   (statusFilter = "all" \/ AdminArticles.status article = statusFilter)).
Proof.
  intros Hterm. apply truthy_string_true in Hterm.
  assert (Hsearch :
    AdminArticles.matches_search toLowerCase searchTerm article = true <->
    exists field before rest,
      field ∈ [AdminArticles.title article; AdminArticles.shortDescription article;
               AdminArticles.author_username (AdminArticles.author article)] /\
      toLowerCase field = before +:+ toLowerCase searchTerm +:+ rest).
  { unfold AdminArticles.matches_search.
    rewrite !orb_true_iff, !TextFacts.includes_spec. split.
    - intros [[(b & r & H) | (b & r & H)] | (b & r & H)];
        eexists _, b, r; (split; [|exact H]).
      + apply list_elem_of_here.
      + apply list_elem_of_further, list_elem_of_here.
      + apply list_elem_of_further, list_elem_of_further, list_elem_of_here.
    - intros (field & b & r & Hin & H).
      apply elem_of_cons in Hin as [-> | Hin]; [left; left; eauto|].
      apply elem_of_cons in Hin as [-> | Hin]; [left; right; eauto|].
      apply elem_of_cons in Hin as [-> | Hin]; [right; eauto|].
      apply not_elem_of_nil in Hin. destruct Hin. }
  unfold AdminArticles.filterArticles. cbv zeta. rewrite Hterm.
  destruct (String.eqb_spec statusFilter "all") as [Eall|Eall]; cbn [negb].
  - rewrite ListFacts.elem_of_filter, Hsearch. intuition.
  - rewrite !ListFacts.elem_of_filter, String.eqb_eq, Hsearch. intuition congruence.
Qed.

(** Typed in capitals, a word of the title finds the article; the same
    word in the author's e-mail address does not. *)
Lemma search_finds_substring_in_three_fields_witness :
  let tips := AdminArticles.mkArticle "A1" "Rocq Tips" "short" "img" [] "pending" "2024" None
                (AdminArticles.mkAuthor "alice" "a@x.com") in
  let other := AdminArticles.mkArticle "A2" "Other" "none" "img" ["rocq"] "pending" "2024" None
                 (AdminArticles.mkAuthor "bob" "rocq@x.com") in
  tips ∈ AdminArticles.filterArticles Sample.ascii_lower [tips; other] "ROCQ" "all" /\
  AdminArticles.filterArticles Sample.ascii_lower [tips; other] "ROCQ" "all" = [tips].
Proof.
  cbv zeta. split; [|reflexivity].
  apply (search_finds_substring_in_three_fields Sample.ascii_lower
           [AdminArticles.mkArticle "A1" "Rocq Tips" "short" "img" [] "pending" "2024" None
              (AdminArticles.mkAuthor "alice" "a@x.com");
            AdminArticles.mkArticle "A2" "Other" "none" "img" ["rocq"] "pending" "2024" None
              (AdminArticles.mkAuthor "bob" "rocq@x.com")]
           "ROCQ" "all"); [discriminate|].
  refine (conj _ (conj _ (or_introl eq_refl))).
  - apply list_elem_of_here.
  - exists "Rocq Tips", "", " tips". split; [apply list_elem_of_here | reflexivity].
Defined.

(** The tag list never holds a tag twice: adding and removing tags, in any
    order and number, keeps a duplicate-free list duplicate-free (so the
    list that starts empty stays so), and changes no other field of the
    form. *)
Theorem tags_stay_distinct
    (trim toLowerCase : string -> string)
    (edits : list CreateArticle.TagEdit) (formData : CreateArticle.FormData) :
  NoDup (CreateArticle.categoryTags formData) ->
  let formData' := fold_left (CreateArticle.edit trim toLowerCase) edits formData in
  NoDup (CreateArticle.categoryTags formData') /\
  CreateArticle.title formData' = CreateArticle.title formData /\
  CreateArticle.shortDescription formData' = CreateArticle.shortDescription formData /\
  CreateArticle.fullDescription formData' = CreateArticle.fullDescription formData /\
  CreateArticle.coverImage formData' = CreateArticle.coverImage formData.
Proof.
  revert formData. induction edits as [|e edits IH]; intros formData Hnd formData'.
  - subst formData'. cbn. repeat split; try assumption.
  - subst formData'. cbn [fold_left].
    assert (Hstep : NoDup (CreateArticle.categoryTags
                             (CreateArticle.edit trim toLowerCase formData e)) /\
                    CreateArticle.title (CreateArticle.edit trim toLowerCase formData e)
                      = CreateArticle.title formData /\
                    CreateArticle.shortDescription
                      (CreateArticle.edit trim toLowerCase formData e)
                      = CreateArticle.shortDescription formData /\
                    CreateArticle.fullDescription
                      (CreateArticle.edit trim toLowerCase formData e)
                      = CreateArticle.fullDescription formData /\
                    CreateArticle.coverImage (CreateArticle.edit trim toLowerCase formData e)
                      = CreateArticle.coverImage formData).
    { destruct e as [newTag|tag]; cbn [CreateArticle.edit].
      - unfold CreateArticle.addTag.
        destruct (truthy_string (trim newTag)); cbn [andb];
          [|repeat split; assumption].
        destruct (Text.array_includes _ _) eqn:Einc; cbn [negb fst];
          [repeat split; assumption|].
        apply ListFacts.array_includes_false in Einc.
        cbn. repeat split.
        apply NoDup_app. repeat split; [assumption | | apply NoDup_singleton].
        intros x Hx Hx'. apply list_elem_of_singleton in Hx'. subst x. contradiction.
      - cbn. repeat split. apply ListFacts.NoDup_filter_bool. assumption. }
    destruct Hstep as (Hnd' & Ht & Hs & Hf & Hc).
    destruct (IH _ Hnd') as (I1 & I2 & I3 & I4 & I5).
    repeat split; [assumption | congruence ..].
Qed.

Lemma tags_stay_distinct_witness :
  let lower (s : string) := if String.eqb s "Coq" then "coq" else s in
  NoDup (CreateArticle.categoryTags
           (fold_left (CreateArticle.edit (fun s => s) lower)
              [CreateArticle.Add "coq"; CreateArticle.Add "Coq"; CreateArticle.Add "proofs";
               CreateArticle.Remove "coq"; CreateArticle.Add "Coq"]
              (CreateArticle.mkFormData "t" "s" "f" "c" []))).
Proof.
  apply (tags_stay_distinct (fun s => s) (fun s => if String.eqb s "Coq" then "coq" else s)).
  apply NoDup_nil_2.
Defined.

(** Adding a tag that is not yet in the list and then removing it restores
    the form; the tag stored is the typed text trimmed and in lower case,
    and the input field is emptied. *)
Theorem add_then_remove_tag
    (trim toLowerCase : string -> string)
    (formData : CreateArticle.FormData) (newTag : string) :
  trim newTag <> "" ->
  toLowerCase (trim newTag) ∉ CreateArticle.categoryTags formData ->
  let added := CreateArticle.addTag trim toLowerCase formData newTag in
  CreateArticle.categoryTags (fst added)
    = CreateArticle.categoryTags formData ++ [toLowerCase (trim newTag)] /\
  snd added = "" /\
  CreateArticle.removeTag (fst added) (toLowerCase (trim newTag)) = formData /\
  CreateArticle.addTag trim toLowerCase (fst added) newTag = (fst added, newTag).
Proof.
  intros Htrim Hnew added. subst added.
  apply truthy_string_true in Htrim.
  pose proof (proj2 (ListFacts.array_includes_false _ _) Hnew) as Hinc.
  assert (Hadd : CreateArticle.addTag trim toLowerCase formData newTag =
                 (CreateArticle.with_tags formData
                    (CreateArticle.categoryTags formData ++ [toLowerCase (trim newTag)]),
                  "")).
  { unfold CreateArticle.addTag. rewrite Htrim, Hinc. reflexivity. }
  rewrite Hadd. cbn [fst snd].
  refine (conj eq_refl (conj eq_refl (conj _ _))).
  - unfold CreateArticle.removeTag, CreateArticle.with_tags. cbn.
    rewrite List.filter_app. cbn. rewrite String.eqb_refl. cbn.
    rewrite ListFacts.filter_out_absent by exact Hnew.
    rewrite app_nil_r. destruct formData; reflexivity.
  - unfold CreateArticle.addTag. rewrite Htrim. cbn [andb].
    unfold CreateArticle.with_tags at 1. cbn [CreateArticle.categoryTags].
    unfold Text.array_includes. rewrite existsb_app. cbn [existsb].
    rewrite String.eqb_refl, orb_true_l, orb_true_r. reflexivity.
Qed.

Lemma add_then_remove_tag_witness :
  let form := CreateArticle.mkFormData "t" "s" "f" "c" ["proofs"] in
  CreateArticle.removeTag (fst (CreateArticle.addTag (fun s => s) (fun s => s) form "rocq"))
    "rocq" = form.
Proof.
  apply (add_then_remove_tag (fun s => s) (fun s => s)
           (CreateArticle.mkFormData "t" "s" "f" "c" ["proofs"]) "rocq").
  - discriminate.
  - intros Hin. apply list_elem_of_singleton in Hin. discriminate.
Defined.

Module ArticleFormFacts.

Section WithServer.
Variable server : list Request -> Request -> FetchOutcome.

(** The submission proper, once the form passed validation. *)
Lemma submit_valid tk formData w :
  truthy_string tk = true ->
  truthy_string (CreateArticle.title formData) = true ->
  truthy_string (CreateArticle.shortDescription formData) = true ->
  truthy_string (CreateArticle.fullDescription formData) = true ->
  truthy_string (CreateArticle.coverImage formData) = true ->
  let c := ApiClient.CallCreateArticle (CreateArticle.form_json formData) tk in
  let o := server (ApiClient.issued (log w)) (ApiClient.wire c) in
  exists tail,
    CreateArticle.handleSubmit server (Some tk) formData w =
      (Return tt,
       mkWorld (session w) (storage w)
         (log w ++ [PreventDefault; SetLocal "isLoading" (VBool true);
                    Fetch (ApiClient.wire c); Settled (ApiClient.wire c) o] ++ tail)) /\
    ApiClient.issued tail = [] /\
    last tail = Some (SetLocal "isLoading" (VBool false)) /\
    (filter Register.is_navigate tail = [] \/
     filter Register.is_navigate tail = [Navigate "/my-articles"] /\
     Register.accepted o = true).
Proof.
  intros Htk H1 H2 H3 H4 c o. unfold CreateArticle.handleSubmit.
  rewrite Htk, H1, H2, H3, H4. cbn [negb orb].
  change (ApiClient.createArticle server (CreateArticle.form_json formData) tk)
    with (ApiClient.invoke server c).
  unfold bind at 1. unfold preventDefault. rewrite ViewFacts.emit_run.
  unfold bind at 1. unfold setLocal at 1. rewrite ViewFacts.emit_run.
  cbn [session storage log]. rewrite <- app_assoc. cbn [app].
  unfold finally, try_catch. unfold bind at 1. rewrite ApiFacts.invoke_run. cbv zeta.
  cbn [log]. rewrite FormFacts.preamble_issued. fold o.
  set (req := ApiClient.wire c) in *. clearbody o req.
  destruct o as [e|r];
    [FormFacts.crunch_form; eexists; split;
       [rewrite <- ?app_assoc; cbn [app]; reflexivity
       | split; [reflexivity | split; [reflexivity | left; reflexivity]]]|].
  destruct (payload r) as [detail|data] eqn:Ep;
    [FormFacts.crunch_form; eexists; split;
       [rewrite <- ?app_assoc; cbn [app]; reflexivity
       | split; [reflexivity | split; [reflexivity | left; reflexivity]]]|].
  destruct (ok r) eqn:Eok.
  - FormFacts.crunch_form.
    destruct (get_prop data "success") as [e|success] eqn:Es; FormFacts.crunch_form.
    + eexists; split;
        [rewrite <- ?app_assoc; cbn [app]; reflexivity
        | split; [reflexivity | split; [reflexivity | left; reflexivity]]].
    + destruct (truthy success) eqn:Et; FormFacts.crunch_form.
      * eexists; split;
          [rewrite <- ?app_assoc; cbn [app]; reflexivity
          | split; [reflexivity | split; [reflexivity | right; split; [reflexivity|]]]].
        unfold Register.accepted. rewrite Eok, Ep, Es. exact Et.
      * eexists; split;
          [rewrite <- ?app_assoc; cbn [app]; reflexivity
          | split; [reflexivity | split; [reflexivity | left; reflexivity]]].
  - FormFacts.crunch_form. destruct (get_prop data "message"); FormFacts.crunch_form;
      (eexists; split;
        [rewrite <- ?app_assoc; cbn [app]; reflexivity
        | split; [reflexivity | split; [reflexivity | left; reflexivity]]]).
Qed.

End WithServer.

End ArticleFormFacts.

(** The article form sends nothing unless there is a token and the four
    required fields are filled: without a token the submission is dropped
    without a word, with an empty required field it shows the "Missing
    fields" toast.  Tags are not required: with the four fields filled,
    exactly one request carries the form, whatever the tag list, and the
    form navigates to [/my-articles] only if the server accepted; the
    loading flag is cleared last in every case. *)
Theorem article_form_sends_only_complete_forms
    (server : list Request -> Request -> FetchOutcome)
    (token : option string) (formData : CreateArticle.FormData) (w : World) :
  let res := CreateArticle.handleSubmit server token formData w in
  (token = None \/ token = Some "" ->
   res = (Return tt, mkWorld (session w) (storage w) (log w ++ [PreventDefault]))) /\
  (forall tk, token = Some tk -> tk <> "" ->
     CreateArticle.title formData = "" \/ CreateArticle.shortDescription formData = "" \/
     CreateArticle.fullDescription formData = "" \/ CreateArticle.coverImage formData = "" ->
     res = (Return tt,
            mkWorld (session w) (storage w)
              (log w ++ [PreventDefault;
                         Toast (mkToast "Missing fields" "Please fill in all required fields."
                                  (Some "destructive"))]))) /\
  (forall tk, token = Some tk -> tk <> "" ->
     CreateArticle.title formData <> "" -> CreateArticle.shortDescription formData <> "" ->
     CreateArticle.fullDescription formData <> "" -> CreateArticle.coverImage formData <> "" ->
     let c := ApiClient.CallCreateArticle (CreateArticle.form_json formData) tk in
     fst res = Return tt /\ session (snd res) = session w /\ storage (snd res) = storage w /\
     ApiClient.issued (log (snd res)) = ApiClient.issued (log w) ++ [ApiClient.wire c] /\
     body (ApiClient.wire c) = JSON.stringify (CreateArticle.form_json formData) /\
     last (log (snd res)) = Some (SetLocal "isLoading" (VBool false)) /\
     (forall to, Navigate to ∈ log (snd res) -> Navigate to ∉ log w ->
        to = "/my-articles" /\
        Register.accepted (server (ApiClient.issued (log w)) (ApiClient.wire c)) = true)).
Proof.
  intros res. subst res. refine (conj _ (conj _ _)).
  - intros [-> | ->]; unfold CreateArticle.handleSubmit, bind, preventDefault;
      rewrite ViewFacts.emit_run; reflexivity.
  - intros tk -> Htk Hempty. apply truthy_string_true in Htk.
    unfold CreateArticle.handleSubmit. rewrite Htk. cbn [negb].
    assert (Hbad : negb (truthy_string (CreateArticle.title formData))
                   || negb (truthy_string (CreateArticle.shortDescription formData))
                   || negb (truthy_string (CreateArticle.fullDescription formData))
                   || negb (truthy_string (CreateArticle.coverImage formData)) = true).
    { destruct Hempty as [-> | [-> | [-> | ->]]]; cbn;
        rewrite ?orb_true_r; reflexivity. }
    rewrite Hbad. unfold bind, preventDefault, toast. rewrite !ViewFacts.emit_run.
    cbn [session storage log]. rewrite <- app_assoc. reflexivity.
  - intros tk -> Htk H1 H2 H3 H4 c.
    apply truthy_string_true in Htk, H1, H2, H3, H4.
    destruct (ArticleFormFacts.submit_valid server tk formData w Htk H1 H2 H3 H4)
      as (tail & Heq & Hiss & Hlast & Hnav).
    fold c in Heq. rewrite Heq. cbn [fst snd session storage log].
    refine (conj eq_refl (conj eq_refl (conj eq_refl (conj _ (conj eq_refl (conj _ _)))))).
    + rewrite !ApiFacts.issued_app, Hiss. cbn [ApiClient.issued omap app].
      rewrite ?app_nil_r. reflexivity.
    + rewrite !last_app, Hlast. reflexivity.
    + intros to Hin Hnot.
      rewrite elem_of_app in Hin. destruct Hin as [Hin | Hin]; [contradiction|].
      rewrite elem_of_app in Hin. destruct Hin as [Hin | Hin].
      { repeat (apply elem_of_cons in Hin as [Hin | Hin]; [discriminate|]).
        apply elem_of_nil in Hin. destruct Hin. }
      assert (Hf : Navigate to ∈ filter Register.is_navigate tail).
      { apply list_elem_of_filter. split; [reflexivity | exact Hin]. }
      destruct Hnav as [Hnone | [Hone Hacc]].
      * rewrite Hnone in Hf. apply elem_of_nil in Hf. destruct Hf.
      * rewrite Hone in Hf. apply list_elem_of_singleton in Hf. injection Hf as ->.
        split; [reflexivity | exact Hacc].
Qed.

Lemma article_form_sends_only_complete_forms_witness :
  let form := CreateArticle.mkFormData "Title" "" "Body" "https://x/y.png" ["rocq"] in
  ApiClient.issued
    (log (snd (CreateArticle.handleSubmit Sample.unreachable (Some "tok") form Sample.mounted)))
    = [] /\
  let filled := CreateArticle.mkFormData "Title" "Short" "Body" "https://x/y.png" [] in
  ApiClient.issued
    (log (snd (CreateArticle.handleSubmit Sample.unreachable (Some "tok") filled
                 Sample.mounted)))
    = [ApiClient.wire (ApiClient.CallCreateArticle (CreateArticle.form_json filled) "tok")].
Proof.
  split.
  - rewrite (proj1 (proj2 (article_form_sends_only_complete_forms Sample.unreachable
                             (Some "tok")
                             (CreateArticle.mkFormData "Title" "" "Body" "https://x/y.png"
                                ["rocq"])
                             Sample.mounted))
               "tok" eq_refl ltac:(discriminate) ltac:(right; left; reflexivity)).
    reflexivity.
  - cbv zeta.
    destruct (proj2 (proj2 (article_form_sends_only_complete_forms Sample.unreachable
                              (Some "tok")
                              (CreateArticle.mkFormData "Title" "Short" "Body"
                                 "https://x/y.png" [])
                              Sample.mounted))
                "tok" eq_refl ltac:(discriminate) ltac:(discriminate) ltac:(discriminate)
                ltac:(discriminate) ltac:(discriminate))
      as (_ & _ & _ & H & _).
    exact H.
Defined.

Lemma every_call_is_single_shot_witness :
  let r := ApiClient.invoke (Sample.answer 404 (Json Sample.no_message))
             (ApiClient.CallGetArticleById "A1") Sample.mounted in
  exists o,
    log (snd r) = log Sample.mounted
                  ++ [Fetch (ApiClient.wire (ApiClient.CallGetArticleById "A1"));
                      Settled (ApiClient.wire (ApiClient.CallGetArticleById "A1")) o;
                      ConsoleError "API request error:" (Error "API request failed")].
Proof.
  pose proof (every_call_is_single_shot (Sample.answer 404 (Json Sample.no_message))
                (ApiClient.CallGetArticleById "A1") Sample.mounted) as H.
  cbv zeta in H. destruct H as (_ & _ & _ & _ & _ & H).
  apply H. reflexivity.
Defined.

Lemma filterArticles_keeps_exactly_the_matches_witness :
  let draft := AdminArticles.mkArticle "A1" "On Rocq" "short" "img" [] "pending" "2024" None
                 (AdminArticles.mkAuthor "alice" "a@x.com") in
  draft ∈ AdminArticles.filterArticles (fun s => s) [draft] "Rocq" "pending".
Proof.
  cbv zeta.
  apply (proj1 (proj2 (filterArticles_keeps_exactly_the_matches (fun s => s)
                         [AdminArticles.mkArticle "A1" "On Rocq" "short" "img" [] "pending"
                            "2024" None (AdminArticles.mkAuthor "alice" "a@x.com")]
                         "Rocq" "pending"))).
  split; [apply list_elem_of_here|].
  split; right; reflexivity.
Defined.
